(** * AgroFlow dashboard: the data-synchronisation hook and its view

    A shallow embedding of [hooks/useAgroFlow.ts] (the hooks
    [useAgroFlowData] and [useAgroFlowConnection]) and of the helper
    functions of [components/Dashboard.tsx] (the view
    [AgroFlowDashboard]).

    - JavaScript values are an inductive type [JS.value]; objects are
      association lists, because the realtime database enumerates the
      children of a node in a fixed order.
    - A number of a payload is the rational value of a double ([Q]).  A
      comparison is exact; a quotient is kept exact and rounded to the
      nearest double where the code observes its digits ([toFixed1]).  A
      value that is coerced to a number may give NaN or an infinity
      ([JS.Number]).  Arrays are not modelled: [VObj] is a plain object.
    - The React state of the hook is a record; the setters are functional
      updates.  Asynchronous functions are written in a small monad that
      threads the component state, the console and the list of requests
      sent to Firebase, and that carries JavaScript exceptions.
    - The remote system is an oracle ([Remote]): what a one-shot read of a
      path or a Firestore query answers, or that it rejects.
    - [Array.prototype.sort] is the one of an engine ([JS.ArraySort]): the
      language fixes its result for a consistent comparator only. *)

From Stdlib Require Import List String Ascii Bool Arith ZArith QArith Qround Qabs Lia.
From Stdlib Require Import Lqa Permutation Sorted DecimalString.
Import ListNotations.

Local Open Scope string_scope.
Set Warnings "-register-all".

(* ===================================================================== *)
(** * JavaScript values *)
(* ===================================================================== *)

Module JS.

(** A value of a payload.  A string is its sequence of code units, here
    below 256; an object is a plain one. *)
Inductive value : Type :=
| VUndefined
| VNull
| VBool (b : bool)
| VNum (q : Q)
| VStr (s : string)
| VObj (props : list (string * value)).

(** An error object: [name] and [message]. *)
Record Exn : Type := mkExn { exn_name : string; exn_message : string }.

(** [`${err}`] and [String(err)] for an [Error]
    ([Error.prototype.toString]): the name alone when the message is
    empty, the message alone when the name is. *)
Definition Exn_toString (e : Exn) : string :=
  if String.eqb (exn_name e) "" then exn_message e
  else if String.eqb (exn_message e) "" then exn_name e
  else exn_name e ++ ": " ++ exn_message e.

Definition TypeError (msg : string) : Exn := mkExn "TypeError" msg.

(** [v === undefined || v === null] *)
Definition nullish (v : value) : bool :=
  match v with
  | VUndefined | VNull => true
  | _ => false
  end.

(** ToBoolean *)
Definition truthy (v : value) : bool :=
  match v with
  | VUndefined | VNull => false
  | VBool b => b
  | VNum q => negb (Qeq_bool q 0)
  | VStr s => negb (String.eqb s "")
  | VObj _ => true
  end.

(** [a || b] *)
Definition or_else (a b : value) : value :=
  if truthy a then a else b.

Fixpoint lookup {A : Type} (k : string) (props : list (string * A)) : option A :=
  match props with
  | [] => None
  | (k', v) :: rest => if String.eqb k k' then Some v else lookup k rest
  end.

(** [v.k] on a value that is neither [undefined] nor [null]: an own
    property of an object, [undefined] on a primitive. *)
Definition prop (v : value) (k : string) : value :=
  match v with
  | VObj props =>
      match lookup k props with
      | Some x => x
      | None => VUndefined
      end
  | _ => VUndefined
  end.

(** [v?.k] *)
Definition opt_prop (v : value) (k : string) : value :=
  if nullish v then VUndefined else prop v k.

(** [typeof v === 'object' && v !== null] *)
Definition is_object (v : value) : bool :=
  match v with
  | VObj _ => true
  | _ => false
  end.

(** A field declared [number] in the TypeScript interfaces, read from a
    payload that conforms to them: the number, or [None] when the field is
    absent.  What the code does with a value of another type is
    [ToNumber] below. *)
Definition as_number (v : value) : option Q :=
  match v with
  | VNum q => Some q
  | _ => None
  end.

(** [x < y] on numbers *)
Definition Qltb (x y : Q) : bool := negb (Qle_bool y x).

(** Decimal digits of a natural number. *)
Definition digits (n : N) : string := NilZero.string_of_uint (N.to_uint n).

(** ** Doubles *)

(** A Number: a finite one, given by its value, not-a-number or an
    infinity. *)
Inductive Number : Type :=
| Finite (q : Q)
| NaN
| Infinity (negative : bool).

(** [2^e <= n / d], for positive [n] and [d]. *)
Definition pow2_le (e n d : Z) : bool :=
  if (0 <=? e)%Z then (2 ^ e * d <=? n)%Z else (d <=? n * 2 ^ (- e))%Z.

(** The exponent of a positive rational [n / d]: the [e] with
    [2^e <= n / d < 2^(e+1)]. *)
Definition binary_exponent (n d : Z) : Z :=
  let e := (Z.log2 n - Z.log2 d)%Z in
  if pow2_le e n d then e else (e - 1)%Z.

(** The integer nearest to [a / b], the even one of two that are equally
    near; [a] and [b] are positive. *)
Definition round_half_even (a b : Z) : Z :=
  let q := (a / b)%Z in
  let r := (a mod b)%Z in
  match (2 * r ?= b)%Z with
  | Lt => q
  | Gt => (q + 1)%Z
  | Eq => if Z.even q then q else (q + 1)%Z
  end.

(** The double nearest to a rational (IEEE 754 binary64, round to nearest,
    ties to even): 53 significant bits, steps of [2^-1074] at the least,
    an infinity from [2^1024 - 2^970] on. *)
Definition nearest_double (x : Q) : Number :=
  let n := Z.abs (Qnum x) in
  let d := Zpos (Qden x) in
  if (n =? 0)%Z then Finite 0
  else
    let s := Z.max (binary_exponent n d - 52) (-1074) in
    let m := if (0 <=? s)%Z then round_half_even n (d * 2 ^ s)
             else round_half_even (n * 2 ^ (- s)) d in
    let y := if (0 <=? s)%Z then inject_Z (m * 2 ^ s)
             else m # Z.to_pos (2 ^ (- s)) in
    if Qle_bool (inject_Z (2 ^ 1024)) y then Infinity (Qnum x <? 0)%Z
    else Finite (if (Qnum x <? 0)%Z then - y else y).

(** [x.toFixed(1)] for a finite [x] below [10^21] in size: let [n] be the
    integer for which [n / 10 - |x|] is closest to zero, the larger one on
    a tie; print [n] with a point before its last digit, after a minus sign
    when [x < 0]. *)
Definition fixed1 (x : Q) : string :=
  let n := Z.to_N (Qfloor (Qabs x * 10 + (1 # 2))%Q) in
  (if Qltb x 0 then "-" else "")
    ++ digits (n / 10)%N ++ "." ++ digits (n mod 10)%N.

(** The first element of a list that has the least weight. *)
Fixpoint least {A : Type} (weight : A -> Z) (l : list A) : option A :=
  match l with
  | [] => None
  | x :: rest =>
      match least weight rest with
      | Some y => if (weight y <? weight x)%Z then Some y else Some x
      | None => Some x
      end
  end.

(** [k] digits [s] and a length [n] that denote the double [D], an
    integer: [10^(k-1) <= s < 10^k] and [s * 10^(n-k)] rounds to [D]; of
    the candidates the one nearest to [D]. *)
Definition digits_for (D : Z) (k : Z) : option (Z * Z) :=
  let len := Z.of_nat (String.length (digits (Z.to_N D))) in
  let candidates :=
    flat_map (fun n =>
                let p := (10 ^ (n - k))%Z in
                [(D / p, n); (D / p + 1, n)]%Z)
             [len; (len + 1)%Z] in
  let denotes (c : Z * Z) :=
    let (s, n) := c in
    ((10 ^ (k - 1) <=? s) && (s <? 10 ^ k))%Z
    && match nearest_double (inject_Z (s * 10 ^ (n - k))) with
       | Finite y => Qeq_bool y (inject_Z D)
       | _ => false
       end in
  least (fun c : Z * Z => let (s, n) := c in (2 * Z.abs (s * 10 ^ (n - k) - D) + s mod 2)%Z)
        (filter denotes candidates).

(** The digits with the fewest digits, tried from one digit on. *)
Fixpoint shortest_digits (D : Z) (k : Z) (fuel : nat) : option (Z * Z) :=
  match fuel with
  | O => None
  | S fuel' =>
      match digits_for D k with
      | Some c => Some c
      | None => shortest_digits D (k + 1) fuel'
      end
  end.

(** [String(x)] for a double [x] that is an integer of at least [10^21]:
    the shortest digits that denote [x], a point after the first one, and
    the exponent. *)
Definition exponential (D : Z) : string :=
  match shortest_digits D 1 17 with
  | Some (s, n) =>
      match digits (Z.to_N s) with
      | String d rest =>
          String d (if String.eqb rest "" then "" else "." ++ rest)
            ++ "e+" ++ digits (Z.to_N (n - 1))
      | EmptyString => ""
      end
  | None => ""
  end.

(** [x.toFixed(1)], where [x] is the double nearest to the rational. *)
Definition toFixed1 (x : Q) : string :=
  match nearest_double x with
  | Finite d =>
      if Qle_bool (inject_Z (10 ^ 21)) (Qabs d)
      then (if Qltb d 0 then "-" else "") ++ exponential (Qfloor (Qabs d))
      else fixed1 d
  | NaN => "NaN"
  | Infinity negative => if negative then "-Infinity" else "Infinity"
  end.

(** ** Strings as numbers *)

(** The white space of a numeric string among the code units below 256. *)
Definition is_space (c : ascii) : bool :=
  let n := nat_of_ascii c in
  ((9 <=? n) && (n <=? 13) || (n =? 32) || (n =? 160))%nat.

Fixpoint trim_start (cs : list ascii) : list ascii :=
  match cs with
  | c :: rest => if is_space c then trim_start rest else cs
  | [] => []
  end.

Definition trim (cs : list ascii) : list ascii :=
  rev (trim_start (rev (trim_start cs))).

(** The value of a digit in a radix up to 16. *)
Definition digit_value (radix : Z) (c : ascii) : option Z :=
  let n := Z.of_nat (nat_of_ascii c) in
  let v := if ((48 <=? n) && (n <=? 57))%Z then (n - 48)%Z
           else if ((97 <=? n) && (n <=? 102))%Z then (n - 87)%Z
           else if ((65 <=? n) && (n <=? 70))%Z then (n - 55)%Z
           else 16%Z in
  if (v <? radix)%Z then Some v else None.

(** The number a run of digits denotes after [acc]; [None] when a
    character is not a digit. *)
Fixpoint digits_value (radix : Z) (cs : list ascii) (acc : Z) : option Z :=
  match cs with
  | [] => Some acc
  | c :: rest =>
      match digit_value radix c with
      | Some v => digits_value radix rest (radix * acc + v)%Z
      | None => None
      end
  end.

(** The decimal digits a list starts with, and what follows them. *)
Fixpoint span_digits (cs : list ascii) : list ascii * list ascii :=
  match cs with
  | c :: rest =>
      match digit_value 10 c with
      | Some _ => let (ds, tail) := span_digits rest in (c :: ds, tail)
      | None => ([], cs)
      end
  | [] => ([], [])
  end.

(** [m * 10^e] *)
Definition scale10 (m e : Z) : Q :=
  if (0 <=? e)%Z then inject_Z (m * 10 ^ e) else m # Z.to_pos (10 ^ (- e)).

(** An exponent part, [e] or [E] with a signed integer, or nothing. *)
Definition exponent_part (cs : list ascii) : option Z :=
  match cs with
  | [] => Some 0%Z
  | c :: rest =>
      if (Ascii.eqb c "e" || Ascii.eqb c "E")%bool then
        let (negative, ds) :=
          match rest with
          | s :: ds' =>
              if Ascii.eqb s "-" then (true, ds')
              else if Ascii.eqb s "+" then (false, ds')
              else (false, rest)
          | [] => (false, [])
          end in
        match ds with
        | [] => None
        | _ => option_map (fun e => if negative then (- e)%Z else e)
                          (digits_value 10 ds 0)
        end
      else None
  end.

(** An unsigned decimal literal other than [Infinity]: digits with an
    optional point and an optional exponent part, at least one digit
    before the exponent. *)
Definition unsigned_decimal (cs : list ascii) : option Q :=
  let (int_part, after_int) := span_digits cs in
  let (frac_part, after_frac) :=
    match after_int with
    | c :: rest => if Ascii.eqb c "." then span_digits rest else ([], after_int)
    | [] => ([], [])
    end in
  match (int_part ++ frac_part)%list with
  | [] => None
  | mantissa =>
      match digits_value 10 mantissa 0, exponent_part after_frac with
      | Some m, Some e => Some (scale10 m (e - Z.of_nat (List.length frac_part)))
      | _, _ => None
      end
  end.

(** A literal in radix 2, 8 or 16, after its prefix. *)
Definition non_decimal (radix : Z) (cs : list ascii) : Number :=
  match cs with
  | [] => NaN
  | _ =>
      match digits_value radix cs 0 with
      | Some v => nearest_double (inject_Z v)
      | None => NaN
      end
  end.

Definition negate (n : Number) : Number :=
  match n with
  | Finite q => Finite (- q)
  | NaN => NaN
  | Infinity negative => Infinity (negb negative)
  end.

Definition signed_decimal (cs : list ascii) : Number :=
  let (negative, body) :=
    match cs with
    | c :: rest =>
        if Ascii.eqb c "-" then (true, rest)
        else if Ascii.eqb c "+" then (false, rest)
        else (false, cs)
    | [] => (false, [])
    end in
  let unsigned :=
    if String.eqb (string_of_list_ascii body) "Infinity" then Infinity false
    else match unsigned_decimal body with
         | Some q => nearest_double q
         | None => NaN
         end in
  if negative then negate unsigned else unsigned.

(** StringToNumber: the empty string and white space are 0, a numeric
    literal between white space is the double nearest to its value,
    anything else is NaN. *)
Definition String_toNumber (s : string) : Number :=
  let reduced (n : Number) :=
    match n with
    | Finite q => Finite (Qred q)
    | _ => n
    end in
  match trim (list_ascii_of_string s) with
  | [] => Finite 0
  | (c0 :: c1 :: rest) as cs =>
      if Ascii.eqb c0 "0" then
        if (Ascii.eqb c1 "x" || Ascii.eqb c1 "X")%bool then reduced (non_decimal 16 rest)
        else if (Ascii.eqb c1 "o" || Ascii.eqb c1 "O")%bool then reduced (non_decimal 8 rest)
        else if (Ascii.eqb c1 "b" || Ascii.eqb c1 "B")%bool then reduced (non_decimal 2 rest)
        else reduced (signed_decimal cs)
      else reduced (signed_decimal cs)
  | cs => reduced (signed_decimal cs)
  end.

(** ToNumber.  A plain object is converted through its string form,
    ["[object Object]"]. *)
Definition ToNumber (v : value) : Number :=
  match v with
  | VUndefined => NaN
  | VNull => Finite 0
  | VBool b => Finite (if b then 1 else 0)
  | VNum q => Finite q
  | VStr s => String_toNumber s
  | VObj _ => NaN
  end.

(** [n.toFixed(1)] *)
Definition Number_toFixed1 (n : Number) : string :=
  match n with
  | Finite q => toFixed1 q
  | NaN => "NaN"
  | Infinity negative => if negative then "-Infinity" else "Infinity"
  end.

(** The time value of a number: NaN ([None]) beyond 8.64e15 milliseconds,
    otherwise the number without its fraction. *)
Definition TimeClip (q : Q) : option Z :=
  if Qle_bool (Qabs q) 8640000000000000
  then Some (Z.quot (Qnum q) (Zpos (Qden q)))
  else None.

(** [new Date(v).getTime()], [None] for NaN (an invalid date).  A string
    goes through the platform's date parser [Date_parse]; any other
    primitive is converted to a number and clipped to the range of time
    values; a plain object is first converted to its string form. *)
Definition Date_getTime (Date_parse : string -> option Z) (v : value) : option Z :=
  match v with
  | VStr s => Date_parse s
  | VNum q => TimeClip q
  | VUndefined => None
  | VNull => Some 0%Z
  | VBool b => Some (if b then 1 else 0)%Z
  | VObj _ => Date_parse "[object Object]"
  end.

(** [cmp(x, y) > 0]: [x] sorts after [y].  A comparator result that is NaN
    ([None]) counts as [+0]. *)
Definition sorts_after {A : Type} (cmp : A -> A -> option Z) (x y : A) : bool :=
  match cmp x y with
  | Some v => (0 <? v)%Z
  | None => false
  end.

(** [x] is taken from in front of [l]: it moves behind exactly the leading
    elements it sorts after. *)
Fixpoint sort_insert {A : Type} (cmp : A -> A -> option Z) (x : A) (l : list A) : list A :=
  match l with
  | [] => [x]
  | y :: l' => if sorts_after cmp x y then y :: sort_insert cmp x l' else x :: l
  end.

(** The stable insertion sort. *)
Fixpoint stable_sort {A : Type} (cmp : A -> A -> option Z) (l : list A) : list A :=
  match l with
  | [] => []
  | x :: l' => sort_insert cmp x (stable_sort cmp l')
  end.

Section Comparator.

Context {A : Type}.
Variable cmp : A -> A -> option Z.

(** [a <CF b], [a =CF b] and [a >CF b] of the language definition. *)
Definition cf_lt (a b : A) : Prop := exists v, cmp a b = Some v /\ (v < 0)%Z.
Definition cf_eq (a b : A) : Prop := cmp a b = Some 0%Z.
Definition cf_gt (a b : A) : Prop := exists v, cmp a b = Some v /\ (0 < v)%Z.

(** [cmp] is a consistent comparator for the elements of [l]: it never
    returns NaN, [=CF] is an equivalence, [<CF] and [>CF] are
    transitive. *)
Definition consistent_comparator (l : list A) : Prop :=
  forall a b c, In a l -> In b l -> In c l ->
    cmp a b <> None /\
    cf_eq a a /\
    (cf_eq a b -> cf_eq b a) /\
    (cf_eq a b -> cf_eq b c -> cf_eq a c) /\
    (cf_lt a b -> cf_lt b c -> cf_lt a c) /\
    (cf_gt a b -> cf_gt b c -> cf_gt a c).

End Comparator.

(** [Array.prototype.sort(cmp)] of a JavaScript engine.  It returns the
    elements it was given.  For a consistent comparator the language fixes
    their order: sorted, elements that compare equal in the order they had;
    [stable_sort] computes that arrangement.  For any other comparator,
    such as one that returns NaN for some pair, the order is
    implementation-defined, and engines differ. *)
Class ArraySort : Type := {
  Array_sort : forall {A : Type}, (A -> A -> option Z) -> list A -> list A;
  Array_sort_perm :
    forall {A : Type} (cmp : A -> A -> option Z) (l : list A),
      Permutation (Array_sort cmp l) l;
  Array_sort_consistent :
    forall {A : Type} (cmp : A -> A -> option Z) (l : list A),
      consistent_comparator cmp l -> Array_sort cmp l = stable_sort cmp l
}.

(** The engine that sorts by insertion whatever the comparator. *)
#[export] Instance insertion_engine : ArraySort.
Proof.
  refine {| Array_sort := @stable_sort |}.
  - intros A cmp l. induction l as [| x l IH]; cbn; [apply perm_nil |].
    apply perm_trans with (x :: stable_sort cmp l); [| apply perm_skip; exact IH].
    generalize (stable_sort cmp l) as sorted. clear IH.
    induction sorted as [| y sorted IH]; cbn; [apply Permutation_refl |].
    destruct (sorts_after cmp x y); [| apply Permutation_refl].
    apply perm_trans with (y :: x :: sorted); [apply perm_skip; exact IH | apply perm_swap].
  - intros A cmp l _. reflexivity.
Defined.

(** [Array.prototype.slice(-n)] *)
Definition slice_last {A : Type} (n : nat) (l : list A) : list A :=
  skipn (List.length l - n) l.

(** [Array.prototype.slice(0, n)] *)
Definition slice_first {A : Type} (n : nat) (l : list A) : list A :=
  firstn n l.

End JS.

(* ===================================================================== *)
(** * The component state and the effects of the hook *)
(* ===================================================================== *)

Module Hook.
Import JS.

(** ** Data model *)

(** [HistoricalReading].  The fields hold whatever the document held: the
    TypeScript types are erased at run time. *)
Record HistoricalReading : Type := {
  device_id : value;
  timestamp : value;
  date : value;
  air_temperature : value;
  soil_temperature : value;
  humidity : value;
  moisture_surface : value;
  moisture_root : value;
  moisture_deep : value;
  pump_active : value;
  pump_state : value;
  irrigation_reason : value;
  daily_cycles : value;
  wifi_signal_dbm : value;
  uptime_ms : value;
  rtdb_uploads : value;
  firestore_uploads : value
}.

(** The eight [useState] cells of [useAgroFlowData].  [LiveData],
    [IrrigationEvent] and [DeviceStatus] values are stored as received
    ([snapshot.val() as LiveData]). *)
Record HookState : Type := {
  currentData : option value;
  historicalData : list HistoricalReading;
  irrigationEvents : list value;
  deviceStatus : option value;
  loading : bool;
  error : option string;
  connected : bool;
  lastUpdate : option string
}.

Definition initial_state : HookState := {|
  currentData := None;
  historicalData := [];
  irrigationEvents := [];
  deviceStatus := None;
  loading := true;
  error := None;
  connected := false;
  lastUpdate := None
|}.

(** ** Console *)

Inductive LogLevel : Type := LogInfo | LogError.

Inductive LogArg : Type :=
| LText (s : string)
| LValue (v : value)
| LExn (e : Exn).

Record LogLine : Type := { log_level : LogLevel; log_args : list LogArg }.

(** ** Requests sent to Firebase *)

Inductive Direction : Type := Asc | Desc.

Inductive QueryConstraint : Type :=
| OrderBy (field : string) (dir : Direction)
| Limit (n : nat)
| Where (field : string) (op : string) (v : value).

Record FirestoreQuery : Type := {
  q_collection : string;
  q_constraints : list QueryConstraint
}.

(** A function of the code that Firebase can hold or be handed: the
    snapshot callback given to [onValue] for a path, or the function
    [onValue] returned for it. *)
Inductive Handle : Type :=
| SnapshotCallback (path : string)
| Unsubscribe (path : string).

(** [onValue(ref(path), callback, errorCallback)], [off(ref(path), 'value',
    callback)], [get(ref(path))] and [getDocs(q)]. *)
Inductive Request : Type :=
| RtdbOnValue (path : string)
| RtdbOff (path : string) (callback : Handle)
| RtdbGet (path : string)
| FirestoreGetDocs (q : FirestoreQuery).

(** ** The remote system *)

(** How a promise settles. *)
Inductive Settled (A : Type) : Type :=
| Fulfilled (a : A)
| Rejected (e : Exn).
Arguments Fulfilled {A} a.
Arguments Rejected {A} e.

(** How a synchronous call completes. *)
Inductive Completion (A : Type) : Type :=
| Normal (a : A)
| Throw (e : Exn).
Arguments Normal {A} a.
Arguments Throw {A} e.

(** A Firestore document snapshot: what [doc.data()] does. *)
Record Doc : Type := { doc_data : Completion value }.

(** What Firebase answers.  A realtime-database snapshot is the value at
    the path, [VNull] when there is none.  [history_settles_first] is the
    order in which the two requests of a [Promise.all] settle. *)
Record Remote : Type := {
  rtdb_get : string -> Settled value;
  firestore_getDocs : FirestoreQuery -> Settled (list Doc);
  history_settles_first : bool
}.

(** What a live subscription delivers to its callbacks. *)
Inductive ListenerEvent : Type :=
| Snapshot (snapshot : value)
| ListenerError (e : Exn).

(** [snapshot.exists()] *)
Definition snapshot_exists (snapshot : value) : bool := negb (nullish snapshot).

(** The children [snapshot.forEach] visits, in key order. *)
Definition snapshot_children (snapshot : value) : list value :=
  match snapshot with
  | VObj props => map snd props
  | _ => []
  end.

(** ** The world a callback runs in *)

(** The state of the hook, the flag of the view, the two [useRef] cells
    (what [onValue] returned, or [null]), the console and the requests
    made. *)
Record World : Type := {
  hook : HookState;
  pumpControlLoading : bool;
  liveDataRef : option Handle;
  deviceStatusRef : option Handle;
  console : list LogLine;
  sent : list Request
}.

Definition M (A : Type) : Type := World -> Completion A * World.

Definition ret {A : Type} (a : A) : M A := fun w => (Normal a, w).

Definition bind {A B : Type} (c : M A) (k : A -> M B) : M B :=
  fun w =>
    match c w with
    | (Normal a, w') => k a w'
    | (Throw e, w') => (Throw e, w')
    end.

Definition throw {A : Type} (e : Exn) : M A := fun w => (Throw e, w).

(** [try { body } catch (err) { handler }] *)
Definition try_catch {A : Type} (body : M A) (handler : Exn -> M A) : M A :=
  fun w =>
    match body w with
    | (Normal a, w') => (Normal a, w')
    | (Throw e, w') => handler e w'
    end.

(** [try { body } finally { cleanup }] *)
Definition try_finally {A : Type} (body : M A) (cleanup : M unit) : M A :=
  fun w =>
    match body w with
    | (r, w') =>
        match cleanup w' with
        | (Normal _, w'') => (r, w'')
        | (Throw e, w'') => (Throw e, w'')
        end
    end.

(** [await p] for a promise that settles as [p]. *)
Definition await {A : Type} (p : Settled A) : M A :=
  match p with
  | Fulfilled a => ret a
  | Rejected e => throw e
  end.

(** A synchronous call that completes as [c]. *)
Definition complete {A : Type} (c : Completion A) : M A :=
  match c with
  | Normal a => ret a
  | Throw e => throw e
  end.

Definition exec {A : Type} (c : M A) (w : World) : World := snd (c w).
Definition result {A : Type} (c : M A) (w : World) : Completion A := fst (c w).

Declare Scope js_scope.
Delimit Scope js_scope with js.
Notation "x <- c ;; k" := (bind c (fun x => k))
  (at level 61, c at next level, right associativity) : js_scope.
Notation "c ;; k" := (bind c (fun _ => k))
  (at level 61, right associativity) : js_scope.

Local Open Scope js_scope.

(** ** State setters *)

Definition with_currentData (v : option value) (s : HookState) : HookState :=
  {| currentData := v; historicalData := historicalData s;
     irrigationEvents := irrigationEvents s; deviceStatus := deviceStatus s;
     loading := loading s; error := error s; connected := connected s;
     lastUpdate := lastUpdate s |}.

Definition with_historicalData (v : list HistoricalReading) (s : HookState) : HookState :=
  {| currentData := currentData s; historicalData := v;
     irrigationEvents := irrigationEvents s; deviceStatus := deviceStatus s;
     loading := loading s; error := error s; connected := connected s;
     lastUpdate := lastUpdate s |}.

Definition with_irrigationEvents (v : list value) (s : HookState) : HookState :=
  {| currentData := currentData s; historicalData := historicalData s;
     irrigationEvents := v; deviceStatus := deviceStatus s;
     loading := loading s; error := error s; connected := connected s;
     lastUpdate := lastUpdate s |}.

Definition with_deviceStatus (v : option value) (s : HookState) : HookState :=
  {| currentData := currentData s; historicalData := historicalData s;
     irrigationEvents := irrigationEvents s; deviceStatus := v;
     loading := loading s; error := error s; connected := connected s;
     lastUpdate := lastUpdate s |}.

Definition with_loading (v : bool) (s : HookState) : HookState :=
  {| currentData := currentData s; historicalData := historicalData s;
     irrigationEvents := irrigationEvents s; deviceStatus := deviceStatus s;
     loading := v; error := error s; connected := connected s;
     lastUpdate := lastUpdate s |}.

Definition with_error (v : option string) (s : HookState) : HookState :=
  {| currentData := currentData s; historicalData := historicalData s;
     irrigationEvents := irrigationEvents s; deviceStatus := deviceStatus s;
     loading := loading s; error := v; connected := connected s;
     lastUpdate := lastUpdate s |}.

Definition with_connected (v : bool) (s : HookState) : HookState :=
  {| currentData := currentData s; historicalData := historicalData s;
     irrigationEvents := irrigationEvents s; deviceStatus := deviceStatus s;
     loading := loading s; error := error s; connected := v;
     lastUpdate := lastUpdate s |}.

Definition with_lastUpdate (v : option string) (s : HookState) : HookState :=
  {| currentData := currentData s; historicalData := historicalData s;
     irrigationEvents := irrigationEvents s; deviceStatus := deviceStatus s;
     loading := loading s; error := error s; connected := connected s;
     lastUpdate := v |}.

Definition modify_hook (f : HookState -> HookState) : M unit :=
  fun w =>
    (Normal tt,
     {| hook := f (hook w); pumpControlLoading := pumpControlLoading w;
        liveDataRef := liveDataRef w; deviceStatusRef := deviceStatusRef w;
        console := console w; sent := sent w |}).

Definition setCurrentData (v : option value) : M unit := modify_hook (with_currentData v).
Definition setHistoricalData (v : list HistoricalReading) : M unit := modify_hook (with_historicalData v).
Definition setIrrigationEvents (v : list value) : M unit := modify_hook (with_irrigationEvents v).
Definition setDeviceStatus (v : option value) : M unit := modify_hook (with_deviceStatus v).
Definition setLoading (v : bool) : M unit := modify_hook (with_loading v).
Definition setError (v : option string) : M unit := modify_hook (with_error v).
Definition setConnected (v : bool) : M unit := modify_hook (with_connected v).
Definition setLastUpdate (v : option string) : M unit := modify_hook (with_lastUpdate v).

Definition setPumpControlLoading (v : bool) : M unit :=
  fun w =>
    (Normal tt,
     {| hook := hook w; pumpControlLoading := v;
        liveDataRef := liveDataRef w; deviceStatusRef := deviceStatusRef w;
        console := console w; sent := sent w |}).

Definition set_liveDataRef (v : option Handle) : M unit :=
  fun w =>
    (Normal tt,
     {| hook := hook w; pumpControlLoading := pumpControlLoading w;
        liveDataRef := v; deviceStatusRef := deviceStatusRef w;
        console := console w; sent := sent w |}).

Definition set_deviceStatusRef (v : option Handle) : M unit :=
  fun w =>
    (Normal tt,
     {| hook := hook w; pumpControlLoading := pumpControlLoading w;
        liveDataRef := liveDataRef w; deviceStatusRef := v;
        console := console w; sent := sent w |}).

Definition get_world : M World := fun w => (Normal w, w).

Definition console_write (l : LogLevel) (args : list LogArg) : M unit :=
  fun w =>
    (Normal tt,
     {| hook := hook w; pumpControlLoading := pumpControlLoading w;
        liveDataRef := liveDataRef w; deviceStatusRef := deviceStatusRef w;
        console := (console w ++ [{| log_level := l; log_args := args |}])%list;
        sent := sent w |}).

Definition console_log : list LogArg -> M unit := console_write LogInfo.
Definition console_error : list LogArg -> M unit := console_write LogError.

(** Hand a request to the Firebase client. *)
Definition send (r : Request) : M unit :=
  fun w =>
    (Normal tt,
     {| hook := hook w; pumpControlLoading := pumpControlLoading w;
        liveDataRef := liveDataRef w; deviceStatusRef := deviceStatusRef w;
        console := console w; sent := (sent w ++ [r])%list |}).

(** [v.k], which throws when [v] is [undefined] or [null]. *)
Definition member (v : value) (k : string) : M value :=
  match v with
  | VUndefined =>
      throw (TypeError ("Cannot read properties of undefined (reading '" ++ k ++ "')"))
  | VNull =>
      throw (TypeError ("Cannot read properties of null (reading '" ++ k ++ "')"))
  | _ => ret (prop v k)
  end.

(** [fields?.name?.key] *)
Definition field (fields : value) (name key : string) : value :=
  opt_prop (opt_prop fields name) key.

(** [`${n}`] for an array length. *)
Definition show_length {A : Type} (l : list A) : string :=
  digits (N.of_nat (List.length l)).

(* ===================================================================== *)
(** * [useAgroFlowData] *)
(* ===================================================================== *)

Definition default_deviceId : string := "AF001".

(** The default parameter [deviceId: string = 'AF001']. *)
Definition deviceId_param (arg : option string) : string :=
  match arg with
  | Some d => d
  | None => default_deviceId
  end.

Section UseAgroFlowData.

(** The engine's sort, the device the hook was called for, the reading of
    the clock ([new Date().toISOString()]), the platform's date parser and
    the remote system. *)
Context {engine : ArraySort}.
Variable deviceId : string.
Variable now : string.
Variable Date_parse : string -> option Z.
Variable net : Remote.

Definition live_monitoring_path : string := "live_monitoring/" ++ deviceId.
Definition device_status_path : string := "device_status/" ++ deviceId.
Definition irrigation_log_path : string := "irrigation_log/" ++ deviceId.

(** ** [convertFirestoreDoc] *)

Definition convertFirestoreDoc (doc : Doc) : M (option HistoricalReading) :=
  try_catch
    (data <- complete (doc_data doc) ;;
     fields <- member data "fields" ;;
     ret (Some {|
       device_id := or_else (field fields "device_id" "stringValue") (VStr deviceId);
       timestamp := or_else (field fields "timestamp" "stringValue") (VStr "");
       date := or_else (field fields "date" "stringValue") (VStr "");
       air_temperature := or_else (field fields "air_temperature" "integerValue") (VNum 0);
       soil_temperature := or_else (field fields "soil_temperature" "integerValue") (VNum 0);
       humidity := or_else (field fields "humidity" "integerValue") (VNum 0);
       moisture_surface := or_else (field fields "moisture_surface" "integerValue") (VNum 0);
       moisture_root := or_else (field fields "moisture_root" "integerValue") (VNum 0);
       moisture_deep := or_else (field fields "moisture_deep" "integerValue") (VNum 0);
       pump_active := or_else (field fields "pump_active" "booleanValue") (VBool false);
       pump_state := or_else (field fields "pump_state" "stringValue") (VStr "OFF");
       irrigation_reason := or_else (field fields "irrigation_reason" "stringValue") (VStr "");
       daily_cycles := or_else (field fields "daily_cycles" "integerValue") (VNum 0);
       wifi_signal_dbm := or_else (field fields "wifi_signal_dbm" "integerValue") (VNum 0);
       uptime_ms := or_else (field fields "uptime_ms" "integerValue") (VNum 0);
       rtdb_uploads := or_else (field fields "rtdb_uploads" "integerValue") (VNum 0);
       firestore_uploads := or_else (field fields "firestore_uploads" "integerValue") (VNum 0)
     |}))
    (fun err =>
       console_error [LText "Error converting Firestore doc:"; LExn err] ;;
       ret None).

(** ** [fetchHistoricalData] *)

Definition historical_query : FirestoreQuery := {|
  q_collection := "sensor_readings";
  q_constraints := [OrderBy "fields.timestamp.stringValue" Desc; Limit 48]
|}.

(** The body of [querySnapshot.forEach]: the readings are pushed in the
    order of the snapshot, a document that does not convert is skipped. *)
Fixpoint collect_readings (docs : list Doc) : M (list HistoricalReading) :=
  match docs with
  | [] => ret []
  | doc :: rest =>
      reading <- convertFirestoreDoc doc ;;
      readings <- collect_readings rest ;;
      ret match reading with
          | Some r => r :: readings
          | None => readings
          end
  end.

(** The function from its [await] on.  Sending the request cannot throw, so
    it is factored out of the [try] block: [refreshData] starts both fetches
    before either resumes. *)
Definition fetchHistoricalData_resume : M unit :=
  try_catch
    (querySnapshot <- await (firestore_getDocs net historical_query) ;;
     readings <- collect_readings querySnapshot ;;
     setHistoricalData readings ;;
     console_log [LText ("Fetched " ++ show_length readings ++ " historical readings")])
    (fun err =>
       console_error [LText "Error fetching historical data:"; LExn err] ;;
       setError (Some ("Failed to fetch historical data: " ++ Exn_toString err))).

Definition fetchHistoricalData : M unit :=
  send (FirestoreGetDocs historical_query) ;;
  fetchHistoricalData_resume.

(** ** [fetchIrrigationEvents] *)

(** The comparator [(a, b) => new Date(b.timestamp).getTime() - new
    Date(a.timestamp).getTime()]; [None] is NaN. *)
Definition newest_first (a b : value) : option Z :=
  match Date_getTime Date_parse (prop b "timestamp"),
        Date_getTime Date_parse (prop a "timestamp") with
  | Some tb, Some ta => Some (tb - ta)%Z
  | _, _ => None
  end.

Definition fetchIrrigationEvents_resume : M unit :=
  try_catch
    (snapshot <- await (rtdb_get net irrigation_log_path) ;;
     if snapshot_exists snapshot then
       let events := filter is_object (snapshot_children snapshot) in
       let events := Array_sort newest_first events in
       let recentEvents := slice_first 20 events in
       setIrrigationEvents recentEvents ;;
       console_log [LText ("Fetched " ++ show_length recentEvents ++ " irrigation events")]
     else
       setIrrigationEvents [] ;;
       console_log [LText "No irrigation events found"])
    (fun err =>
       console_error [LText "Error fetching irrigation events:"; LExn err] ;;
       setError (Some ("Failed to fetch irrigation events: " ++ Exn_toString err))).

Definition fetchIrrigationEvents : M unit :=
  send (RtdbGet irrigation_log_path) ;;
  fetchIrrigationEvents_resume.

(** [Promise.all([fetchHistoricalData(), fetchIrrigationEvents()])], also
    the two unawaited calls of the auto-refresh timer: both requests are
    sent, then each function resumes when its request settles.  Neither
    function rejects, so the combined promise never does. *)
Definition fetch_both : M unit :=
  send (FirestoreGetDocs historical_query) ;;
  send (RtdbGet irrigation_log_path) ;;
  if history_settles_first net then
    fetchHistoricalData_resume ;; fetchIrrigationEvents_resume
  else
    fetchIrrigationEvents_resume ;; fetchHistoricalData_resume.

(** ** [setupRealTimeListeners] *)

(** The two callbacks given to [onValue] for [live_monitoring/{deviceId}]. *)
Definition onLiveData (ev : ListenerEvent) : M unit :=
  match ev with
  | Snapshot snapshot =>
      if snapshot_exists snapshot then
        let data := snapshot in
        setCurrentData (Some data) ;;
        setConnected true ;;
        setLastUpdate (Some now) ;;
        setError None ;;
        console_log [LText "Live data updated:"; LValue (prop data "timestamp")]
      else
        setCurrentData None ;;
        setConnected false ;;
        console_log [LText "No live data available"]
  | ListenerError err =>
      console_error [LText "Live data listener error:"; LExn err] ;;
      setError (Some ("Real-time connection failed: " ++ exn_message err)) ;;
      setConnected false
  end.

(** The two callbacks given to [onValue] for [device_status/{deviceId}]. *)
Definition onDeviceStatus (ev : ListenerEvent) : M unit :=
  match ev with
  | Snapshot snapshot =>
      if snapshot_exists snapshot then
        let data := snapshot in
        setDeviceStatus (Some data) ;;
        console_log [LText "Device status updated:"; LValue (prop data "last_seen")]
      else
        setDeviceStatus None
  | ListenerError err =>
      console_error [LText "Device status listener error:"; LExn err]
  end.

(** Each ref is assigned what [onValue] returns, the function that
    unsubscribes. *)
Definition setupRealTimeListeners : M unit :=
  send (RtdbOnValue live_monitoring_path) ;;
  set_liveDataRef (Some (Unsubscribe live_monitoring_path)) ;;
  send (RtdbOnValue device_status_path) ;;
  set_deviceStatusRef (Some (Unsubscribe device_status_path)).

(** ** [cleanup] *)

(** [off] is handed the content of the ref as the callback to detach. *)
Definition cleanup : M unit :=
  w <- get_world ;;
  match liveDataRef w with
  | Some current => send (RtdbOff live_monitoring_path current) ;; set_liveDataRef None
  | None => ret tt
  end ;;
  w <- get_world ;;
  match deviceStatusRef w with
  | Some current =>
      send (RtdbOff device_status_path current) ;; set_deviceStatusRef None
  | None => ret tt
  end.

(** ** [refreshData] *)

Definition refreshData : M unit :=
  setLoading true ;;
  setError None ;;
  try_finally
    (try_catch
       (fetch_both ;;
        send (RtdbGet live_monitoring_path) ;;
        liveDataSnapshot <- await (rtdb_get net live_monitoring_path) ;;
        (if snapshot_exists liveDataSnapshot then
           setCurrentData (Some liveDataSnapshot) ;;
           setConnected true ;;
           setLastUpdate (Some now)
         else ret tt) ;;
        send (RtdbGet device_status_path) ;;
        statusSnapshot <- await (rtdb_get net device_status_path) ;;
        (if snapshot_exists statusSnapshot then
           setDeviceStatus (Some statusSnapshot)
         else ret tt) ;;
        console_log [LText "Data refresh completed"])
       (fun err =>
          console_error [LText "Error refreshing data:"; LExn err] ;;
          setError (Some ("Failed to refresh data: " ++ Exn_toString err))))
    (setLoading false).

(** ** The two effects *)

(** The mount effect, run again when [deviceId] changes. *)
Definition initialize : M unit :=
  console_log [LText ("Setting up AgroFlow data for device: " ++ deviceId)] ;;
  setLoading true ;;
  setError None ;;
  setupRealTimeListeners ;;
  refreshData.

(** One tick of the five-minute timer. *)
Definition auto_refresh : M unit :=
  console_log [LText "Auto-refreshing historical data"] ;;
  fetch_both.

(** ** The returned interface *)

Inductive HookFunction : Type := FRefreshData.

Inductive Member : Type :=
| PValue (v : option value)
| PReadings (l : list HistoricalReading)
| PEvents (l : list value)
| PBool (b : bool)
| PString (s : option string)
| PFunction (f : HookFunction).

(** The object literal the hook returns. *)
Definition useAgroFlowData_return (s : HookState) : list (string * Member) :=
  [ ("currentData", PValue (currentData s));
    ("historicalData", PReadings (historicalData s));
    ("irrigationEvents", PEvents (irrigationEvents s));
    ("deviceStatus", PValue (deviceStatus s));
    ("loading", PBool (loading s));
    ("error", PString (error s));
    ("connected", PBool (connected s));
    ("lastUpdate", PString (lastUpdate s));
    ("refreshData", PFunction FRefreshData) ].

(** [await f(...)] for a destructured member [f] called under the name
    [name]: a member that is not a function throws. *)
Definition call_member (name : string) (f : option Member) (args : list value) : M value :=
  match f with
  | Some (PFunction FRefreshData) => refreshData ;; ret VUndefined
  | _ => throw (TypeError (name ++ " is not a function"))
  end.

End UseAgroFlowData.

(* ===================================================================== *)
(** * The check of the configuration *)
(* ===================================================================== *)

Definition requiredEnvVars : list string :=
  [ "NEXT_PUBLIC_FIREBASE_API_KEY";
    "NEXT_PUBLIC_FIREBASE_AUTH_DOMAIN";
    "NEXT_PUBLIC_FIREBASE_DATABASE_URL";
    "NEXT_PUBLIC_FIREBASE_PROJECT_ID" ].

(** [process.env[name]]: the string the variable is set to, or
    [undefined]. *)
Definition env_get (env : list (string * string)) (name : string) : value :=
  match lookup name env with
  | Some s => VStr s
  | None => VUndefined
  end.

Definition missingVars (env : list (string * string)) : list string :=
  filter (fun varName => negb (truthy (env_get env varName))) requiredEnvVars.

(** What the module prints when it is loaded; [window_defined] is
    [typeof window !== 'undefined']. *)
Definition report_missingVars (env : list (string * string)) (window_defined : bool)
  : list LogLine :=
  if ((0 <? List.length (missingVars env))%nat && window_defined)%bool then
    [{| log_level := LogError;
        log_args := [LText "Missing required Firebase environment variables:";
                     LText (String.concat ", " (missingVars env))] |}]
  else [].

(* ===================================================================== *)
(** * [useAgroFlowConnection] *)
(* ===================================================================== *)

(** ['connecting' | 'connected' | 'error'] *)
Inductive ConnectionStatus : Type := Connecting | Connected | ConnectionError.

(** The two [useState] cells of the hook, with the console and the
    requests it sent.  [lastPing] is the time of a [Date]. *)
Record ConnectionWorld : Type := {
  connectionStatus : ConnectionStatus;
  lastPing : option Z;
  ping_console : list LogLine;
  ping_sent : list Request
}.

Definition connection_initial : ConnectionWorld := {|
  connectionStatus := Connecting;
  lastPing := None;
  ping_console := [];
  ping_sent := []
|}.

(** [testConnection]: the boolean it resolves to and the world it leaves.
    [Date_now] is the time of [new Date()]. *)
Definition testConnection (net : Remote) (Date_now : Z) (w : ConnectionWorld)
  : bool * ConnectionWorld :=
  let sent' := (ping_sent w ++ [RtdbGet ".info/connected"])%list in
  match rtdb_get net ".info/connected" with
  | Fulfilled snapshot =>
      if snapshot_exists snapshot then
        (true,
         {| connectionStatus := Connected; lastPing := Some Date_now;
            ping_console := ping_console w; ping_sent := sent' |})
      else
        (false,
         {| connectionStatus := ConnectionError; lastPing := lastPing w;
            ping_console := ping_console w; ping_sent := sent' |})
  | Rejected err =>
      (false,
       {| connectionStatus := ConnectionError; lastPing := lastPing w;
          ping_console :=
            (ping_console w ++
             [{| log_level := LogError;
                 log_args := [LText "Connection test failed:"; LExn err] |}])%list;
          ping_sent := sent' |})
  end.

End Hook.

(* ===================================================================== *)
(** * [AgroFlowDashboard]: the helpers of the view *)
(* ===================================================================== *)

Module View.
Import JS Hook.
Local Open Scope js_scope.

(** [convertTempFromX10]; [None] is an absent field ([undefined]).  For a
    number [!tempX10] and [tempX10 === 0] are the same test. *)
Definition convertTempFromX10 (tempX10 : option Q) : Q :=
  match tempX10 with
  | None => 0
  | Some t => if (Qeq_bool t 0 || Qeq_bool t 0)%bool then 0 else t / 10
  end.

(** [convertTempFromX10] as it runs, where the argument is whatever the
    payload holds: a falsy value gives 0, any other value is divided by 10
    after its conversion to a number (["231"] gives 23.1, [true] gives
    0.1, a plain object NaN). *)
Definition convertTempFromX10_any (tempX10 : value) : Number :=
  match tempX10 with
  | VNum t => Finite (convertTempFromX10 (Some t))
  | _ =>
      if truthy tempX10 then
        match ToNumber tempX10 with
        | Finite q => Finite (q / 10)
        | n => n
        end
      else Finite 0
  end.

Record MoistureStatus : Type := {
  status : string;
  color : string;
  bgColor : string
}.

Definition getMoistureStatus (moisture : Q) : MoistureStatus :=
  if Qltb moisture 30 then
    {| status := "Critical"; color := "destructive"; bgColor := "bg-red-100" |}
  else if Qltb moisture 50 then
    {| status := "Low"; color := "warning"; bgColor := "bg-yellow-100" |}
  else if Qltb moisture 70 then
    {| status := "Good"; color := "default"; bgColor := "bg-green-100" |}
  else
    {| status := "Excellent"; color := "success"; bgColor := "bg-blue-100" |}.

(** One point of the charts. *)
Record ChartPoint : Type := {
  time : string;
  soilTemp : Number;
  airTemp : Number;
  humidity : value;
  moisture1 : value;
  moisture2 : value;
  moisture3 : value;
  pumpActive : value
}.

(** What the place of a key-metric card shows: the error alert that
    replaces the whole dashboard, a skeleton while loading, a temperature
    ([numeral] followed by the unit), or the empty-state panel that replaces
    all four cards. *)
Inductive MetricCard : Type :=
| ErrorAlert (message : string)
| LoadingCard
| Temperature (numeral : string)
| EmptyState (title : string).

Section Dashboard.

(** [new Date(ts).toLocaleTimeString('en-US', ...)] depends on the locale
    data and the time zone of the browser. *)
Variable toLocaleTimeString : value -> string.

Definition chart_point (reading : HistoricalReading) : ChartPoint := {|
  time := toLocaleTimeString (Hook.timestamp reading);
  soilTemp := convertTempFromX10_any (Hook.soil_temperature reading);
  airTemp := convertTempFromX10_any (Hook.air_temperature reading);
  humidity := Hook.humidity reading;
  moisture1 := Hook.moisture_surface reading;
  moisture2 := Hook.moisture_root reading;
  moisture3 := Hook.moisture_deep reading;
  pumpActive := Hook.pump_active reading
|}.

Definition formatHistoricalData (historicalData : list HistoricalReading) : list ChartPoint :=
  match historicalData with
  | [] => []
  | _ => map chart_point (slice_last 24 historicalData)
  end.

(** [liveData ? ... : ...] on the hook's [currentData]. *)
Definition liveData_present (s : HookState) : option value :=
  match currentData s with
  | Some liveData => if truthy liveData then Some liveData else None
  | None => None
  end.

(** [if (error)] on the hook's [error]: the message that is shown. *)
Definition error_shown (s : HookState) : option string :=
  match error s with
  | Some message => if String.eqb message "" then None else Some message
  | None => None
  end.

(** The "Soil Temperature" card of the key-metrics row. *)
Definition soilTemperatureCard (s : HookState) : MetricCard :=
  match error_shown s with
  | Some message => ErrorAlert ("Failed to connect to Firebase: " ++ message)
  | None =>
      if loading s then LoadingCard
      else match liveData_present s with
           | Some liveData =>
               Temperature
                 (Number_toFixed1
                    (convertTempFromX10_any (prop liveData "soil_temperature")))
           | None => EmptyState "No Live Data Available"
           end
  end.

Context {engine : ArraySort}.
Variable deviceId : string.
Variable now : string.
Variable Date_parse : string -> option Z.
Variable net : Remote.

(** [handlePumpControl].  [controlPump] is the member of that name of the
    object the hook returned. *)
Definition handlePumpControl : M unit :=
  w <- get_world ;;
  let returned := useAgroFlowData_return (hook w) in
  let controlPump := lookup "controlPump" returned in
  match liveData_present (hook w) with
  | None => ret tt
  | Some liveData =>
      setPumpControlLoading true ;;
      try_finally
        (try_catch
           (let newState := if truthy (prop liveData "pump_active") then "OFF" else "ON" in
            success <- call_member deviceId now Date_parse net
                         "controlPump" controlPump [VStr newState] ;;
            if truthy success then
              console_log [LText ("Pump " ++ newState ++ " command sent successfully")]
            else
              console_error [LText "Failed to send pump control command"])
           (fun err => console_error [LText "Error controlling pump:"; LExn err]))
        (setPumpControlLoading false)
  end.

End Dashboard.

(** ** Signal strength *)

Module Wifi.
Record Strength : Type := {
  strength : string;
  bars : nat;
  color : string
}.
End Wifi.

(** [getWifiStrength]; [None] is an absent field. *)
Definition getWifiStrength (signal : option Q) : Wifi.Strength :=
  match signal with
  | None => {| Wifi.strength := "Unknown"; Wifi.bars := 0; Wifi.color := "gray" |}
  | Some signal =>
      if Qeq_bool signal 0 then
        {| Wifi.strength := "Unknown"; Wifi.bars := 0; Wifi.color := "gray" |}
      else if Qltb (-50) signal then
        {| Wifi.strength := "Excellent"; Wifi.bars := 4; Wifi.color := "green" |}
      else if Qltb (-60) signal then
        {| Wifi.strength := "Good"; Wifi.bars := 3; Wifi.color := "blue" |}
      else if Qltb (-70) signal then
        {| Wifi.strength := "Fair"; Wifi.bars := 2; Wifi.color := "yellow" |}
      else
        {| Wifi.strength := "Weak"; Wifi.bars := 1; Wifi.color := "red" |}
  end.

(** ** Relative times *)

(** A number that may be NaN ([None]), as [formatTimeAgo] computes with
    one. *)
Definition number : Type := option Q.

(** [a - b] *)
Definition number_sub (a b : number) : number :=
  match a, b with
  | Some x, Some y => Some (x - y)
  | _, _ => None
  end.

(** [a < q]: false for NaN. *)
Definition number_lt (a : number) (q : Q) : bool :=
  match a with
  | Some x => Qltb x q
  | None => false
  end.

(** [`${z}`] for an integer below 10^21 in size. *)
Definition show_integer (z : Z) : string :=
  if (z <? 0)%Z then "-" ++ digits (Z.to_N (- z)) else digits (Z.to_N z).

(** [`${Math.floor(a / q)}`] *)
Definition show_floor_div (a : number) (q : Q) : string :=
  match a with
  | Some x => show_integer (Qfloor (x / q))
  | None => "NaN"
  end.

Section Formatting.

Variable Date_parse : string -> option Z.

(** The number [formatTimeAgo] subtracts from [Date.now()]: the time of the
    date a string denotes, any other value converted to a number (a plain
    object gives NaN). *)
Definition timestamp_time (timestamp : value) : number :=
  match timestamp with
  | VStr s => option_map inject_Z (Date_parse s)
  | VNum q => Some q
  | VBool b => Some (if b then 1 else 0)
  | VNull => Some 0
  | VUndefined => None
  | VObj _ => None
  end.

(** [formatTimeAgo]; [Date_now] is [Date.now()]. *)
Definition formatTimeAgo (Date_now : Z) (timestamp : value) : string :=
  if negb (truthy timestamp) then "Never"
  else
    let now := Some (inject_Z Date_now) in
    let time := timestamp_time timestamp in
    let diff := number_sub now time in
    if number_lt diff 60000 then "Just now"
    else if number_lt diff 3600000 then show_floor_div diff 60000 ++ "m ago"
    else if number_lt diff 86400000 then show_floor_div diff 3600000 ++ "h ago"
    else show_floor_div diff 86400000 ++ "d ago".

End Formatting.

(** ** Irrigation events *)

(** [v.k] in an expression of the render: it throws when [v] is
    [undefined] or [null]. *)
Definition read (v : value) (k : string) : Completion value :=
  match v with
  | VUndefined =>
      Throw (TypeError ("Cannot read properties of undefined (reading '" ++ k ++ "')"))
  | VNull =>
      Throw (TypeError ("Cannot read properties of null (reading '" ++ k ++ "')"))
  | _ => Normal (prop v k)
  end.

(** [v === s] for a string literal [s]. *)
Definition is_string (s : string) (v : value) : bool :=
  match v with
  | VStr x => String.eqb x s
  | _ => false
  end.

(** [Array.prototype.filter] with a callback that may throw: the elements
    are visited from the left and the first throw ends the call. *)
Fixpoint filter_throwing {A : Type} (keep : A -> Completion bool) (l : list A)
  : Completion (list A) :=
  match l with
  | [] => Normal []
  | x :: rest =>
      match keep x with
      | Throw e => Throw e
      | Normal b =>
          match filter_throwing keep rest with
          | Throw e => Throw e
          | Normal kept => Normal (if b then x :: kept else kept)
          end
      end
  end.



Module Irrigation.
(** One bar of the "Irrigation Analysis" chart. *)
Record Point : Type := {
  date : string;
  moistureBefore : value;
  airTemp : Number;
  soilTemp : Number;
  dailyCount : value
}.
End Irrigation.



Section IrrigationViews.

(** [new Date(ts).toLocaleDateString('en-US', ...)] and
    [new Date(ts).toLocaleString()] depend on the locale data and the time
    zone of the browser. *)
Variable toLocaleDateString : value -> string.
Variable toLocaleString : value -> string.

(** The callback of [filter] in [formatIrrigationData]. *)
Definition is_started (event : value) : Completion bool :=
  match read event "event" with
  | Throw e => Throw e
  | Normal name => Normal (is_string "started" name)
  end.

(** The callback of [map] in [formatIrrigationData]; its argument passed
    the filter, so it is not [undefined] or [null]. *)
Definition irrigation_point (event : value) : Irrigation.Point := {|
  Irrigation.date := toLocaleDateString (prop event "timestamp");
  Irrigation.moistureBefore := prop event "moisture_root";
  Irrigation.airTemp := convertTempFromX10_any (prop event "air_temp");
  Irrigation.soilTemp := convertTempFromX10_any (prop event "soil_temp");
  Irrigation.dailyCount := prop event "daily_count"
|}.

Definition formatIrrigationData (irrigationEvents : list value)
  : Completion (list Irrigation.Point) :=
  match irrigationEvents with
  | [] => Normal []
  | _ =>
      match filter_throwing is_started irrigationEvents with
      | Throw e => Throw e
      | Normal started => Normal (map irrigation_point (slice_last 7 started))
      end
  end.




End IrrigationViews.


End View.

Import JS Hook.
Local Open Scope js_scope.

(* ===================================================================== *)
(** * Vocabulary of the properties *)
(* ===================================================================== *)

(** A field that is absent or zero. *)
Definition zero_or_absent (v : value) : Prop :=
  match v with
  | VUndefined => True
  | VNum t => t == 0
  | _ => False
  end.

(** A hook state in which a live reading is displayed. *)
Definition displaying (liveData : value) : HookState :=
  with_loading false (with_currentData (Some liveData) initial_state).

(** A hook that has just been mounted. *)
Definition empty_world : World := {|
  hook := initial_state;
  pumpControlLoading := false;
  liveDataRef := None;
  deviceStatusRef := None;
  console := [];
  sent := []
|}.

(** The world after some more lines were written to the console. *)
Definition log_lines (ls : list LogLine) (w : World) : World := {|
  hook := hook w;
  pumpControlLoading := pumpControlLoading w;
  liveDataRef := liveDataRef w;
  deviceStatusRef := deviceStatusRef w;
  console := (console w ++ ls)%list;
  sent := sent w
|}.

(** The images of the elements [f] is defined on, in order. *)
Fixpoint filter_map {A B : Type} (f : A -> option B) (l : list A) : list B :=
  match l with
  | [] => []
  | x :: rest =>
      match f x with
      | Some y => y :: filter_map f rest
      | None => filter_map f rest
      end
  end.

(** What [convertFirestoreDoc] returns for a document, read off a run of
    the function. *)
Definition decode (deviceId : string) (doc : Doc) : option HistoricalReading :=
  match result (convertFirestoreDoc deviceId doc) empty_world with
  | Normal r => r
  | Throw _ => None
  end.

(** What [convertFirestoreDoc] writes to the console for a document. *)
Definition conversion_log (deviceId : string) (doc : Doc) : list LogLine :=
  console (exec (convertFirestoreDoc deviceId doc) empty_world).

(** A document converts unless [doc.data()] throws or returns [undefined]
    or [null]. *)
Definition convertible (doc : Doc) : bool :=
  match doc_data doc with
  | Normal data => negb (nullish data)
  | Throw _ => false
  end.

(** The events [fetchIrrigationEvents] stores for a snapshot that exists. *)
Definition recent_events {engine : ArraySort}
  (Date_parse : string -> option Z) (snapshot : value) : list value :=
  slice_first 20
    (Array_sort (newest_first Date_parse) (filter is_object (snapshot_children snapshot))).

(** One line of the object literal of [convertFirestoreDoc]: the field of
    the reading, the document field and the wrapper it is read from, and
    the default. *)
Record FieldRule : Type := {
  target : HistoricalReading -> value;
  source : string;
  wrapper : string;
  default : value
}.

(** The seventeen lines of the literal. *)
Definition field_table (deviceId : string) : list FieldRule := [
  {| target := device_id; source := "device_id"; wrapper := "stringValue"; default := VStr deviceId |};
  {| target := timestamp; source := "timestamp"; wrapper := "stringValue"; default := VStr "" |};
  {| target := date; source := "date"; wrapper := "stringValue"; default := VStr "" |};
  {| target := air_temperature; source := "air_temperature"; wrapper := "integerValue"; default := VNum 0 |};
  {| target := soil_temperature; source := "soil_temperature"; wrapper := "integerValue"; default := VNum 0 |};
  {| target := humidity; source := "humidity"; wrapper := "integerValue"; default := VNum 0 |};
  {| target := moisture_surface; source := "moisture_surface"; wrapper := "integerValue"; default := VNum 0 |};
  {| target := moisture_root; source := "moisture_root"; wrapper := "integerValue"; default := VNum 0 |};
  {| target := moisture_deep; source := "moisture_deep"; wrapper := "integerValue"; default := VNum 0 |};
  {| target := pump_active; source := "pump_active"; wrapper := "booleanValue"; default := VBool false |};
  {| target := pump_state; source := "pump_state"; wrapper := "stringValue"; default := VStr "OFF" |};
  {| target := irrigation_reason; source := "irrigation_reason"; wrapper := "stringValue"; default := VStr "" |};
  {| target := daily_cycles; source := "daily_cycles"; wrapper := "integerValue"; default := VNum 0 |};
  {| target := wifi_signal_dbm; source := "wifi_signal_dbm"; wrapper := "integerValue"; default := VNum 0 |};
  {| target := uptime_ms; source := "uptime_ms"; wrapper := "integerValue"; default := VNum 0 |};
  {| target := rtdb_uploads; source := "rtdb_uploads"; wrapper := "integerValue"; default := VNum 0 |};
  {| target := firestore_uploads; source := "firestore_uploads"; wrapper := "integerValue"; default := VNum 0 |}
].

(** [data.fields] of a document whose [data()] returns. *)
Definition doc_fields (doc : Doc) : value :=
  match doc_data doc with
  | Normal data => prop data "fields"
  | Throw _ => VUndefined
  end.

(** The reading [r] follows a rule for the document [doc]: a value that is
    absent or falsy ([undefined], [null], [false], [0], the empty string) is
    replaced by the default, any other value is kept as it is. *)
Definition follows (doc : Doc) (r : HistoricalReading) (rule : FieldRule) : Prop :=
  let v := field (doc_fields doc) (source rule) (wrapper rule) in
  (truthy v = false -> target rule r = default rule) /\
  (truthy v = true -> target rule r = v).

(** The default of a rule is the one of its wrapper: 0 for a number,
    [false] for a boolean, and for a string the empty string, ["OFF"] or the
    hook's device identifier. *)
Definition default_of_wrapper (deviceId : string) (rule : FieldRule) : Prop :=
  (wrapper rule = "integerValue" /\ default rule = VNum 0) \/
  (wrapper rule = "booleanValue" /\ default rule = VBool false) \/
  (wrapper rule = "stringValue" /\
   (default rule = VStr "" \/ default rule = VStr "OFF" \/
    (source rule = "device_id" /\ default rule = VStr deviceId))).

(** The line [convertFirestoreDoc] writes for a document it drops. *)
Definition conversion_error (err : Exn) : LogLine :=
  {| log_level := LogError;
     log_args := [LText "Error converting Firestore doc:"; LExn err] |}.

(** The nodes of the realtime database the hook reads. *)
Definition rtdb_roots : list string := ["live_monitoring"; "device_status"; "irrigation_log"].

(** [path] is the node of one of the roots for the device. *)
Definition path_of_device (deviceId path : string) : bool :=
  existsb (fun root => String.eqb path (root ++ "/" ++ deviceId)) rtdb_roots.

(** The query has a [where] clause on the device. *)
Definition filters_device (deviceId : string) (q : FirestoreQuery) : bool :=
  existsb (fun c => match c with
                    | Where _ _ (VStr d) => String.eqb d deviceId
                    | _ => false
                    end)
          (q_constraints q).

(** A request that can only concern the device [deviceId]. *)
Definition keyed_by (deviceId : string) (r : Request) : bool :=
  match r with
  | RtdbOnValue path | RtdbOff path _ | RtdbGet path => path_of_device deviceId path
  | FirestoreGetDocs q => filters_device deviceId q
  end.

(** What makes the hook talk to Firebase: the mount effect, a call of
    [refreshData], a tick of the timer, the cleanup of the mount effect. *)
Inductive Operation : Type := Initialize | Refresh | AutoRefresh | Teardown.

(** The code an operation runs. *)
Definition run_operation {engine : ArraySort}
  (deviceId now : string) (Date_parse : string -> option Z) (net : Remote)
  (op : Operation) : M unit :=
  match op with
  | Initialize => initialize deviceId now Date_parse net
  | Refresh => refreshData deviceId now Date_parse net
  | AutoRefresh => auto_refresh deviceId Date_parse net
  | Teardown => cleanup deviceId
  end.

(** A request of the hook: keyed by the device, or the history query. *)
Definition hook_request (deviceId : string) (r : Request) : Prop :=
  keyed_by deviceId r = true \/ r = FirestoreGetDocs historical_query.

Section SortOrder.

Context {A : Type}.
Variable cmp : A -> A -> option Z.
Variable key : A -> Z.

(** The comparator is [(a, b) => key(b) - key(a)] on the elements of a
    list: the largest key sorts first. *)
Definition compares_keys (l : list A) : Prop :=
  forall x y, In x l -> In y l -> cmp x y = Some (key y - key x)%Z.

(** [a] may stand before [b]: its key is not smaller. *)
Definition descending : A -> A -> Prop := fun a b => (key b <= key a)%Z.

End SortOrder.

Section EventTime.

Variable Date_parse : string -> option Z.

(** [new Date(e.timestamp).getTime()] *)
Definition event_time (e : value) : option Z :=
  Date_getTime Date_parse (prop e "timestamp").

(** The timestamp of the entry is a date. *)
Definition has_time (e : value) : bool :=
  match event_time e with
  | Some _ => true
  | None => false
  end.

(** The time of an entry whose timestamp is a date. *)
Definition time_of (e : value) : Z :=
  match event_time e with
  | Some t => t
  | None => 0
  end.

End EventTime.

(** The entry is a "started" event. *)
Definition started (event : value) : bool :=
  View.is_string "started" (prop event "event").

(** The numeral of a temperature of [tenths] tenths of a degree. *)
Definition tenths_numeral (tenths : Z) : string :=
  let n := Z.to_N (Z.abs tenths) in
  (if (tenths <? 0)%Z then "-" else "") ++ digits (n / 10)%N ++ "." ++ digits (n mod 10)%N.

(** The environment variable is set to a string that is not empty. *)
Definition is_set (env : list (string * string)) (name : string) : bool :=
  match lookup name env with
  | Some s => negb (String.eqb s "")
  | None => false
  end.

(** A request that reads once: it opens and closes no subscription. *)
Definition one_shot (r : Request) : bool :=
  match r with
  | RtdbGet _ | FirestoreGetDocs _ => true
  | RtdbOnValue _ | RtdbOff _ _ => false
  end.

(** What happens to a mounted hook: an operation runs against some state
    of the remote system, a subscription delivers a push or an error, the
    pump button is pressed. *)
Inductive HookEvent : Type :=
| Ran (op : Operation) (now : string) (net : Remote)
| LivePush (now : string) (ev : ListenerEvent)
| StatusPush (ev : ListenerEvent)
| PumpPressed (now : string) (net : Remote).

(** The code an event runs. *)
Definition react {engine : ArraySort} (deviceId : string) (Date_parse : string -> option Z) (e : HookEvent)
  : M unit :=
  match e with
  | Ran op now net => run_operation deviceId now Date_parse net op
  | LivePush now ev => onLiveData now ev
  | StatusPush ev => onDeviceStatus ev
  | PumpPressed now net => View.handlePumpControl deviceId now Date_parse net
  end.

(** The worlds a hook can be in: the one it is mounted in and those an
    event leads to. *)
Inductive reachable {engine : ArraySort}
  (deviceId : string) (Date_parse : string -> option Z) : World -> Prop :=
| reachable_mount : reachable deviceId Date_parse empty_world
| reachable_step (w : World) (e : HookEvent) :
    reachable deviceId Date_parse w ->
    reachable deviceId Date_parse (exec (react deviceId Date_parse e) w).

(** What every reachable world satisfies. *)
Definition well_formed (w : World) : Prop :=
  Forall (fun e => is_object e = true) (irrigationEvents (hook w)) /\
  (List.length (irrigationEvents (hook w)) <= 20)%nat /\
  (connected (hook w) = true ->
   currentData (hook w) <> None /\ lastUpdate (hook w) <> None) /\
  (forall v, currentData (hook w) = Some v -> snapshot_exists v = true) /\
  (forall v, deviceStatus (hook w) = Some v -> snapshot_exists v = true) /\
  (liveDataRef w = None <-> deviceStatusRef w = None).

Section RefreshState.

Context {engine : ArraySort}.
Variable deviceId : string.
Variable now : string.
Variable Date_parse : string -> option Z.
Variable net : Remote.

(** The state [fetchHistoricalData] leaves, as a function of the state it
    finds. *)
Definition history_fetched (s : HookState) : HookState :=
  match firestore_getDocs net historical_query with
  | Fulfilled docs => with_historicalData (filter_map (decode deviceId) docs) s
  | Rejected err =>
      with_error (Some ("Failed to fetch historical data: " ++ Exn_toString err)) s
  end.

(** The state [fetchIrrigationEvents] leaves. *)
Definition events_fetched (s : HookState) : HookState :=
  match rtdb_get net (irrigation_log_path deviceId) with
  | Fulfilled log =>
      with_irrigationEvents
        (if snapshot_exists log then recent_events Date_parse log else []) s
  | Rejected err =>
      with_error (Some ("Failed to fetch irrigation events: " ++ Exn_toString err)) s
  end.

(** The state both fetches leave, in the order they settle. *)
Definition both_fetched (s : HookState) : HookState :=
  if history_settles_first net then events_fetched (history_fetched s)
  else history_fetched (events_fetched s).

(** The state the two one-shot snapshots of [refreshData] leave. *)
Definition snapshots_taken (s : HookState) : HookState :=
  match rtdb_get net (live_monitoring_path deviceId) with
  | Rejected err => with_error (Some ("Failed to refresh data: " ++ Exn_toString err)) s
  | Fulfilled live =>
      let s' :=
        if snapshot_exists live
        then with_lastUpdate (Some now) (with_connected true (with_currentData (Some live) s))
        else s in
      match rtdb_get net (device_status_path deviceId) with
      | Rejected err =>
          with_error (Some ("Failed to refresh data: " ++ Exn_toString err)) s'
      | Fulfilled status =>
          if snapshot_exists status then with_deviceStatus (Some status) s' else s'
      end
  end.

(** The state [refreshData] leaves. *)
Definition refreshed (s : HookState) : HookState :=
  with_loading false (snapshots_taken (both_fetched (with_error None (with_loading true s)))).

End RefreshState.

(** The paths Firebase holds a listener for after a request: [onValue]
    attaches the snapshot callback of its path, and [off] detaches, at the
    path it names, the listeners whose callback is the function it is
    handed. *)
Definition listen (paths : list string) (r : Request) : list string :=
  match r with
  | RtdbOnValue path => (paths ++ [path])%list
  | RtdbOff path (SnapshotCallback registered) =>
      if String.eqb path registered
      then filter (fun p => negb (String.eqb p path)) paths
      else paths
  | RtdbOff _ (Unsubscribe _) => paths
  | RtdbGet _ | FirestoreGetDocs _ => paths
  end.

(** The paths with a listener after all the requests of a world. *)
Definition listeners (w : World) : list string := fold_left listen (sent w) [].


(** Of two entries whose timestamps are both dates, the first is not the
    older one. *)
Definition not_older (Date_parse : string -> option Z) (a b : value) : Prop :=
  forall ta tb,
    event_time Date_parse a = Some ta -> event_time Date_parse b = Some tb ->
    (tb <= ta)%Z.

(* ===================================================================== *)
(** * Sample data *)
(* ===================================================================== *)

(** The error of a request that did not reach Firebase. *)
Definition network_error : Exn := mkExn "FirebaseError" "Network Error".

(** A date parser that accepts nothing. *)
Definition no_dates : string -> option Z := fun _ => None.

(** A live reading, a device status, a historical reading and an event. *)
Definition sample_live : value :=
  VObj [("device_id", VStr "AF001");
        ("soil_temperature", VNum 231);
        ("moisture_root", VNum 42);
        ("pump_active", VBool false);
        ("pump_state", VStr "OFF")].

Definition sample_status : value :=
  VObj [("last_seen", VStr "2024-05-01T10:00:00Z"); ("online", VBool true)].

(** Firestore and the irrigation log cannot be reached; the two paths of
    the device can be read. *)
Definition fetches_fail : Remote := {|
  rtdb_get := fun path =>
    if String.eqb path "live_monitoring/AF001" then Fulfilled sample_live
    else if String.eqb path "device_status/AF001" then Fulfilled sample_status
    else Rejected network_error;
  firestore_getDocs := fun _ => Rejected network_error;
  history_settles_first := false
|}.

(** Everything can be reached and every path is empty. *)
Definition empty_database : Remote := {|
  rtdb_get := fun _ => Fulfilled VNull;
  firestore_getDocs := fun _ => Fulfilled [];
  history_settles_first := true
|}.

Definition sample_reading : HistoricalReading := {|
  device_id := VStr "AF001";
  timestamp := VStr "2024-05-01T09:30:00Z";
  date := VStr "2024-05-01";
  air_temperature := VNum 255;
  soil_temperature := VNum 231;
  humidity := VNum 40;
  moisture_surface := VNum 35;
  moisture_root := VNum 42;
  moisture_deep := VNum 55;
  pump_active := VBool false;
  pump_state := VStr "OFF";
  irrigation_reason := VStr "";
  daily_cycles := VNum 2;
  wifi_signal_dbm := VNum (-61);
  uptime_ms := VNum 360000;
  rtdb_uploads := VNum 12;
  firestore_uploads := VNum 3
|}.

Definition sample_event : value :=
  VObj [("device", VStr "AF001");
        ("timestamp", VStr "2024-05-01T06:00:00Z");
        ("event", VStr "started")].

(** A mounted hook that has loaded data before. *)
Definition loaded_world : World := {|
  hook := {|
    currentData := Some sample_live;
    historicalData := [sample_reading];
    irrigationEvents := [sample_event];
    deviceStatus := Some sample_status;
    loading := false;
    error := None;
    connected := true;
    lastUpdate := Some "2024-05-01T10:00:00.000Z"
  |};
  pumpControlLoading := false;
  liveDataRef := Some (Unsubscribe "live_monitoring/AF001");
  deviceStatusRef := Some (Unsubscribe "device_status/AF001");
  console := [];
  sent := []
|}.

(** A document of a device with a soil temperature. *)
Definition sample_doc (device : string) (temperature : Q) : Doc :=
  {| doc_data := Normal (VObj [("fields", VObj [
       ("device_id", VObj [("stringValue", VStr device)]);
       ("soil_temperature", VObj [("integerValue", VNum temperature)])])]) |}.

(** A batch of three documents: the second one has no data. *)
Definition sample_batch : list Doc :=
  [sample_doc "AF001" 231; {| doc_data := Normal VUndefined |}; sample_doc "AF001" 228].

(** Firestore answers every query with [docs]; the realtime database is
    empty. *)
Definition answers_with (docs : list Doc) : Remote := {|
  rtdb_get := fun _ => Fulfilled VNull;
  firestore_getDocs := fun _ => Fulfilled docs;
  history_settles_first := true
|}.

(** The collection holds a reading of another device. *)
Definition two_devices : Remote :=
  answers_with [sample_doc "AF002" 250; sample_doc "AF001" 231].

(** A day of the month or an hour, on two digits. *)
Definition two_digits (n : nat) : string :=
  (if (n <? 10)%nat then "0" else "") ++ digits (N.of_nat n).

(** The reading of noon of a day of January 2024, with the day as its
    root-zone moisture. *)
Definition reading_of_day (day : nat) : HistoricalReading := {|
  device_id := VStr "AF001";
  timestamp := VStr ("2024-01-" ++ two_digits day ++ "T12:00:00Z");
  date := VStr ("2024-01-" ++ two_digits day);
  air_temperature := VNum 255;
  soil_temperature := VNum 231;
  Hook.humidity := VNum 40;
  moisture_surface := VNum 35;
  moisture_root := VNum (Z.of_nat day # 1);
  moisture_deep := VNum 55;
  pump_active := VBool false;
  pump_state := VStr "OFF";
  irrigation_reason := VStr "";
  daily_cycles := VNum 0;
  wifi_signal_dbm := VNum (-61);
  uptime_ms := VNum 360000;
  rtdb_uploads := VNum 12;
  firestore_uploads := VNum 3
|}.

(** 25 stored readings, as the query orders them: the newest first. *)
Definition january : list HistoricalReading := map reading_of_day (rev (seq 1 25)).

(** The value of a decimal digit. *)
Definition digit (c : ascii) : option Z :=
  let n := Z.of_N (N_of_ascii c) in
  if ((48 <=? n) && (n <=? 57))%Z then Some (n - 48)%Z else None.

(** The number a run of decimal digits denotes, after [acc]. *)
Fixpoint number (cs : list ascii) (acc : Z) : option Z :=
  match cs with
  | [] => Some acc
  | c :: rest =>
      match digit c with
      | Some d => number rest (10 * acc + d)%Z
      | None => None
      end
  end.

(** Days from 1970-01-01 to a day of the Gregorian calendar. *)
Definition days_from_civil (y m d : Z) : Z :=
  (let y := if m <=? 2 then y - 1 else y in
   let era := y / 400 in
   let yoe := y - era * 400 in
   let doy := (153 * ((m + 9) mod 12) + 2) / 5 + d - 1 in
   let doe := yoe * 365 + yoe / 4 - yoe / 100 + doy in
   era * 146097 + doe - 719468)%Z.

Definition in_range (lo x hi : Z) : bool := ((lo <=? x) && (x <=? hi))%Z.

(** The date parser of the examples: it reads the timestamps
    [YYYY-MM-DDTHH:MM:SSZ] and nothing else. *)
Definition iso8601_utc (s : string) : option Z :=
  match list_ascii_of_string s with
  | [y1; y2; y3; y4; c1; m1; m2; c2; d1; d2; c3; h1; h2; c4; n1; n2; c5; s1; s2; c6] =>
      if String.eqb (string_of_list_ascii [c1; c2; c3; c4; c5; c6]) "--T::Z" then
        match number [y1; y2; y3; y4] 0, number [m1; m2] 0, number [d1; d2] 0,
              number [h1; h2] 0, number [n1; n2] 0, number [s1; s2] 0 with
        | Some y, Some m, Some d, Some h, Some n, Some sec =>
            if (in_range 1 m 12 && in_range 1 d 31 && in_range 0 h 23
                && in_range 0 n 59 && in_range 0 sec 59)%bool
            then Some ((((days_from_civil y m d * 24 + h) * 60 + n) * 60 + sec) * 1000)%Z
            else None
        | _, _, _, _, _, _ => None
        end
      else None
  | _ => None
  end.

(** An entry of the irrigation log. *)
Definition irrigation_event (stamp kind : string) : value :=
  VObj [("device", VStr "AF001"); ("timestamp", VStr stamp); ("event", VStr kind);
        ("moisture_root", VNum 28)].

(** A log whose entries are not in the order of their timestamps, with an
    entry that is not an object. *)
Definition sample_log : value :=
  VObj [("-Nx01", irrigation_event "2024-05-03T06:00:00Z" "started");
        ("-Nx02", VStr "corrupt");
        ("-Nx03", irrigation_event "2024-05-01T06:00:00Z" "started");
        ("-Nx04", irrigation_event "2024-05-02T06:00:00Z" "completed")].

(** The irrigation log of AF001 is [log]; every other path is empty. *)
Definition serves_log (log : value) : Remote := {|
  rtdb_get := fun path =>
    if String.eqb path "irrigation_log/AF001" then Fulfilled log else Fulfilled VNull;
  firestore_getDocs := fun _ => Fulfilled [];
  history_settles_first := true
|}.

(** One event on each of the given days of May 2024. *)
Definition log_of_days (days : list nat) : value :=
  VObj (map (fun day =>
               ("-N" ++ two_digits day,
                irrigation_event ("2024-05-" ++ two_digits day ++ "T06:00:00Z") "started"))
            days).

(** 22 events, in no order. *)
Definition long_log : value :=
  log_of_days [7; 21; 3; 14; 1; 22; 9; 18; 5; 12; 2; 20; 11; 16; 4; 19; 8; 13; 6; 17; 10; 15]%nat.

(** Everything can be reached: two documents, the sample log, a live
    reading and a device status. *)
Definition all_served : Remote := {|
  rtdb_get := fun path =>
    if String.eqb path "irrigation_log/AF001" then Fulfilled sample_log
    else if String.eqb path "live_monitoring/AF001" then Fulfilled sample_live
    else if String.eqb path "device_status/AF001" then Fulfilled sample_status
    else Fulfilled VNull;
  firestore_getDocs := fun _ => Fulfilled [sample_doc "AF001" 231; sample_doc "AF001" 228];
  history_settles_first := true
|}.

(** As [all_served], but the read of the live reading fails. *)
Definition live_unreadable : Remote := {|
  rtdb_get := fun path =>
    if String.eqb path "live_monitoring/AF001" then Rejected network_error
    else rtdb_get all_served path;
  firestore_getDocs := firestore_getDocs all_served;
  history_settles_first := true
|}.

(** As [all_served], but the read of the device status fails. *)
Definition status_unreadable : Remote := {|
  rtdb_get := fun path =>
    if String.eqb path "device_status/AF001" then Rejected network_error
    else rtdb_get all_served path;
  firestore_getDocs := firestore_getDocs all_served;
  history_settles_first := true
|}.

(** The client is not connected: [.info/connected] holds [false]. *)
Definition info_disconnected : Remote := {|
  rtdb_get := fun path =>
    if String.eqb path ".info/connected" then Fulfilled (VBool false) else Fulfilled VNull;
  firestore_getDocs := fun _ => Fulfilled [];
  history_settles_first := true
|}.

(** A hook that shows an error. *)
Definition failed_world : World :=
  exec (onLiveData "2024-05-01T10:02:00.000Z" (ListenerError network_error)) loaded_world.

(** One document for each of the given days, newest first when the days
    decrease; the day is the soil temperature. *)
Definition docs_of_days (days : list nat) : list Doc :=
  map (fun day => sample_doc "AF001" (Z.of_nat day # 1)) days.

(** An environment in which the project identifier is empty and the
    database URL is not set. *)
Definition sample_env : list (string * string) :=
  [ ("NEXT_PUBLIC_FIREBASE_API_KEY", "key");
    ("NEXT_PUBLIC_FIREBASE_AUTH_DOMAIN", "agroflow.firebaseapp.com");
    ("NEXT_PUBLIC_FIREBASE_PROJECT_ID", "");
    ("NEXT_PUBLIC_FIREBASE_APP_ID", "1:2:web:3") ].

(** A rendering of dates that shows a timestamp as it is stored. *)
Definition as_stored (v : value) : string :=
  match v with
  | VStr s => s
  | _ => "Invalid Date"
  end.

(** A document as the Firestore REST API encodes it: an [integerValue]
    is a string of digits. *)
Definition rest_doc (device temperature : string) : Doc :=
  {| doc_data := Normal (VObj [("fields", VObj [
       ("device_id", VObj [("stringValue", VStr device)]);
       ("soil_temperature", VObj [("integerValue", VStr temperature)])])]) |}.

(** A log of three entries in the order of their keys: the second has no
    timestamp, the third is newer than the first. *)
Definition gapped_log : value :=
  VObj [("-Nx01", irrigation_event "2024-05-01T06:00:00Z" "started");
        ("-Nx02", VObj [("device", VStr "AF001"); ("event", VStr "started")]);
        ("-Nx03", irrigation_event "2024-05-02T06:00:00Z" "completed")].


(* ===================================================================== *)
(** * Properties of the view *)
(* ===================================================================== *)

Section ViewProperties.
Import View.

Lemma Qltb_lt (x y : Q) : Qltb x y = true <-> x < y.
Proof.
  unfold Qltb. rewrite negb_true_iff, <- not_true_iff_false, Qle_bool_iff.
  split; intro H; [apply Qnot_le_lt | apply Qlt_not_le]; exact H.
Qed.

Lemma Qltb_ge (x y : Q) : Qltb x y = false <-> y <= x.
Proof.
  unfold Qltb. rewrite negb_false_iff. apply Qle_bool_iff.
Qed.

(** C3: the four moisture buckets, each boundary belonging to the bucket
    above it. *)
Theorem getMoistureStatus_buckets (m : Q) :
  (status (getMoistureStatus m) = "Critical" <-> m < 30) /\
  (status (getMoistureStatus m) = "Low" <-> 30 <= m /\ m < 50) /\
  (status (getMoistureStatus m) = "Good" <-> 50 <= m /\ m < 70) /\
  (status (getMoistureStatus m) = "Excellent" <-> 70 <= m).
Proof.
  unfold getMoistureStatus.
  destruct (Qltb m 30) eqn:H30; [apply Qltb_lt in H30 | apply Qltb_ge in H30];
  [| destruct (Qltb m 50) eqn:H50; [apply Qltb_lt in H50 | apply Qltb_ge in H50];
     [| destruct (Qltb m 70) eqn:H70; [apply Qltb_lt in H70 | apply Qltb_ge in H70]]];
  cbn [status]; repeat split; intros; try discriminate; try lra.
Qed.

Example getMoistureStatus_boundaries :
  map (fun m => status (getMoistureStatus m)) [29; 30; 49; 50; 69; 70; 299 # 10; 100]
  = ["Critical"; "Low"; "Low"; "Good"; "Good"; "Excellent"; "Critical"; "Excellent"].
Proof. reflexivity. Qed.

(** ** Temperature decoding *)

Lemma convertTempFromX10_div (t : Q) : convertTempFromX10 (Some t) == t / 10.
Proof.
  unfold convertTempFromX10. rewrite orb_diag.
  destruct (Qeq_bool t 0) eqn:E.
  - apply Qeq_bool_iff in E. rewrite E. reflexivity.
  - reflexivity.
Qed.

Lemma convertTempFromX10_zero (v : value) :
  zero_or_absent v -> convertTempFromX10 (as_number v) = 0.
Proof.
  destruct v as [| | b | t | s | props]; cbn; intro H; try reflexivity; try contradiction.
  apply Qeq_bool_iff in H. rewrite H. reflexivity.
Qed.

(** A value that is zero or absent is falsy: the function returns 0
    without a division. *)
Lemma convertTempFromX10_any_zero (v : value) :
  zero_or_absent v -> convertTempFromX10_any v = Finite 0.
Proof.
  destruct v as [| | b | t | s | props]; cbn; intro H; try reflexivity; try contradiction.
  apply Qeq_bool_iff in H. rewrite H. reflexivity.
Qed.

(** On a payload that conforms to the declared type the function is the
    one on numbers. *)
Lemma convertTempFromX10_any_typed (v : value) :
  nullish v = true \/ (exists t, v = VNum t) ->
  convertTempFromX10_any v = Finite (convertTempFromX10 (as_number v)).
Proof.
  intros [H | [t ->]]; [destruct v; try discriminate H |]; reflexivity.
Qed.

Example convertTempFromX10_255 : convertTempFromX10 (Some 255) == 255 # 10.
Proof. reflexivity. Qed.

Example toFixed1_examples :
  map toFixed1 [255 # 10; 0; -(4 # 100); 5 # 100; -(123 # 10); 100; 25 # 100; 35 # 100;
                45 # 100; 5629499534213127 # 10; inject_Z (10 ^ 21); 123456789 * 10 ^ 15]
  = ["25.5"; "0.0"; "-0.0"; "0.1"; "-12.3"; "100.0"; "0.3"; "0.3";
     "0.5"; "562949953421312.8"; "1e+21"; "1.23456789e+23"].
Proof. vm_compute. reflexivity. Qed.

Example String_toNumber_examples :
  map String_toNumber ["231"; " 23.1e1 "; "0x10"; ""; ".5"; "5."; "-0.25"; "1e3";
                       "23.1C"; "1e"; "."; "Infinity"; "-1e999"]
  = [Finite 231; Finite 231; Finite 16; Finite 0; Finite (1 # 2); Finite 5;
     Finite (- (1 # 4)); Finite 1000; NaN; NaN; NaN; Infinity false; Infinity true].
Proof. vm_compute. reflexivity. Qed.

(** The temperature a stored field is charted as: a string of digits is
    converted, a plain object and a string that is no number give NaN. *)
Example convertTempFromX10_any_examples :
  map convertTempFromX10_any
      [VNum 231; VStr "231"; VNum 0; VStr ""; VStr "0"; VUndefined; VNull; VBool true;
       VStr "n/a"; VObj []]
  = [Finite (231 / 10); Finite (231 / 10); Finite 0; Finite 0; Finite (0 / 10); Finite 0;
     Finite 0; Finite (1 / 10); NaN; NaN].
Proof. vm_compute. reflexivity. Qed.

(** C2, as the specification states it, fails: a live reading whose soil
    temperature is 0 is rendered as the temperature 0.0, not as the
    empty-state panel. *)
Lemma zero_temperature_is_rendered :
  ~ (forall s liveData,
       error_shown s = None ->
       loading s = false ->
       liveData_present s = Some liveData ->
       prop liveData "soil_temperature" = VNum 0 ->
       soilTemperatureCard s <> Temperature "0.0").
Proof.
  intro H.
  apply (H (displaying (VObj [("soil_temperature", VNum 0)]))
           (VObj [("soil_temperature", VNum 0)])); reflexivity.
Qed.

(** C2, amended: the decoded value is [t / 10] for every [t]; a reading
    that is zero or absent decodes to 0, and the card of a displayed live
    reading then shows the temperature 0.0. *)
Theorem convertTempFromX10_decode (t : Q) (s : HookState) (liveData : value) :
  error_shown s = None ->
  loading s = false ->
  liveData_present s = Some liveData ->
  zero_or_absent (prop liveData "soil_temperature") ->
  convertTempFromX10 (Some t) == t / 10 /\
  convertTempFromX10 (as_number (prop liveData "soil_temperature")) = 0 /\
  soilTemperatureCard s = Temperature "0.0".
Proof.
  intros He Hl Hd Hz. split; [apply convertTempFromX10_div|].
  split; [apply convertTempFromX10_zero; exact Hz|].
  unfold soilTemperatureCard. rewrite He, Hl, Hd.
  rewrite (convertTempFromX10_any_zero _ Hz). reflexivity.
Qed.

Lemma convertTempFromX10_decode_witness :
  convertTempFromX10 (Some 255) == 255 / 10 /\
  convertTempFromX10 (as_number (prop (VObj [("humidity", VNum 40)]) "soil_temperature")) = 0 /\
  soilTemperatureCard (displaying (VObj [("humidity", VNum 40)])) = Temperature "0.0".
Proof.
  apply (convertTempFromX10_decode 255
           (displaying (VObj [("humidity", VNum 40)]))
           (VObj [("humidity", VNum 40)]));
    [reflexivity | reflexivity | reflexivity | exact I].
Defined.

End ViewProperties.

(* ===================================================================== *)
(** * Properties of the hook *)
(* ===================================================================== *)

Section HookProperties.

Context {engine : ArraySort}.

(** ** Device-status subscription *)

(** C9: a push or an error delivered to the device-status subscription
    changes no field of the hook's state but [deviceStatus]; in particular
    [connected] and [error] keep their values.  The callback does not
    throw; a push stores the value, an empty push stores [null], an error
    stores nothing. *)
Theorem onDeviceStatus_frame (ev : ListenerEvent) (w : World) :
  let w' := exec (onDeviceStatus ev) w in
  hook w' = with_deviceStatus (deviceStatus (hook w')) (hook w) /\
  connected (hook w') = connected (hook w) /\
  error (hook w') = error (hook w) /\
  deviceStatus (hook w') =
    match ev with
    | Snapshot v => if snapshot_exists v then Some v else None
    | ListenerError _ => deviceStatus (hook w)
    end /\
  result (onDeviceStatus ev) w = Normal tt.
Proof.
  destruct w as [[cd hd ie ds ld er cn lu] pl lr dr cons snt].
  destruct ev as [v | e]; [destruct (snapshot_exists v) eqn:E|];
    unfold onDeviceStatus, exec, result; rewrite ?E; cbn; auto.
Qed.

(** ** Runs of the fetch functions *)

Lemma log_lines_nil (w : World) : log_lines [] w = w.
Proof. destruct w. unfold log_lines. cbn. rewrite app_nil_r. reflexivity. Qed.

Lemma log_lines_app (a b : list LogLine) (w : World) :
  log_lines b (log_lines a w) = log_lines (a ++ b)%list w.
Proof. unfold log_lines. cbn. rewrite app_assoc. reflexivity. Qed.

Lemma convertFirestoreDoc_run (deviceId : string) (doc : Doc) (w : World) :
  convertFirestoreDoc deviceId doc w
  = (Normal (decode deviceId doc), log_lines (conversion_log deviceId doc) w).
Proof.
  unfold decode, conversion_log, convertFirestoreDoc, result, exec.
  destruct doc as [[data | e]]; [destruct data|]; cbn;
    rewrite ?log_lines_nil; reflexivity.
Qed.

Lemma collect_readings_run (deviceId : string) (docs : list Doc) (w : World) :
  collect_readings deviceId docs w
  = (Normal (filter_map (decode deviceId) docs),
     log_lines (flat_map (conversion_log deviceId) docs) w).
Proof.
  revert w. induction docs as [| doc rest IH]; intro w.
  - cbn. rewrite log_lines_nil. reflexivity.
  - cbn [collect_readings filter_map flat_map]. unfold bind at 1.
    rewrite convertFirestoreDoc_run. unfold bind at 1. rewrite IH.
    rewrite log_lines_app. destruct (decode deviceId doc); reflexivity.
Qed.

(** [fetchHistoricalData], from its [await] on, never throws; it replaces
    the stored readings when the query is answered and sets the error
    otherwise. *)
Lemma fetchHistoricalData_resume_run (deviceId : string) (net : Remote) (w : World) :
  fetchHistoricalData_resume deviceId net w
  = (Normal tt,
     match firestore_getDocs net historical_query with
     | Fulfilled docs =>
         let readings := filter_map (decode deviceId) docs in
         {| hook := with_historicalData readings (hook w);
            pumpControlLoading := pumpControlLoading w;
            liveDataRef := liveDataRef w;
            deviceStatusRef := deviceStatusRef w;
            console :=
              (console w ++ flat_map (conversion_log deviceId) docs ++
               [{| log_level := LogInfo;
                   log_args := [LText ("Fetched " ++ show_length readings
                                       ++ " historical readings")] |}])%list;
            sent := sent w |}
     | Rejected err =>
         {| hook := with_error
                      (Some ("Failed to fetch historical data: " ++ Exn_toString err))
                      (hook w);
            pumpControlLoading := pumpControlLoading w;
            liveDataRef := liveDataRef w;
            deviceStatusRef := deviceStatusRef w;
            console :=
              (console w ++
               [{| log_level := LogError;
                   log_args := [LText "Error fetching historical data:"; LExn err] |}])%list;
            sent := sent w |}
     end).
Proof.
  unfold fetchHistoricalData_resume, try_catch.
  destruct (firestore_getDocs net historical_query) as [docs | err].
  - unfold bind at 1. cbn [await ret]. unfold bind at 1.
    rewrite collect_readings_run. cbn. rewrite <- app_assoc. reflexivity.
  - reflexivity.
Qed.

Lemma fetchIrrigationEvents_resume_run
  (deviceId : string) (Date_parse : string -> option Z) (net : Remote) (w : World) :
  fetchIrrigationEvents_resume deviceId Date_parse net w
  = (Normal tt,
     match rtdb_get net (irrigation_log_path deviceId) with
     | Fulfilled snapshot =>
         {| hook := with_irrigationEvents
                      (if snapshot_exists snapshot
                       then recent_events Date_parse snapshot else [])
                      (hook w);
            pumpControlLoading := pumpControlLoading w;
            liveDataRef := liveDataRef w;
            deviceStatusRef := deviceStatusRef w;
            console :=
              (console w ++
               [{| log_level := LogInfo;
                   log_args :=
                     [LText (if snapshot_exists snapshot
                             then "Fetched "
                                  ++ show_length (recent_events Date_parse snapshot)
                                  ++ " irrigation events"
                             else "No irrigation events found")] |}])%list;
            sent := sent w |}
     | Rejected err =>
         {| hook := with_error
                      (Some ("Failed to fetch irrigation events: " ++ Exn_toString err))
                      (hook w);
            pumpControlLoading := pumpControlLoading w;
            liveDataRef := liveDataRef w;
            deviceStatusRef := deviceStatusRef w;
            console :=
              (console w ++
               [{| log_level := LogError;
                   log_args := [LText "Error fetching irrigation events:"; LExn err] |}])%list;
            sent := sent w |}
     end).
Proof.
  unfold fetchIrrigationEvents_resume, try_catch, recent_events.
  destruct (rtdb_get net (irrigation_log_path deviceId)) as [snapshot | err].
  - unfold bind at 1. cbn [await ret].
    destruct (snapshot_exists snapshot); reflexivity.
  - reflexivity.
Qed.

End HookProperties.

(* ===================================================================== *)
(** * [refreshData] *)
(* ===================================================================== *)

#[local] Arguments recent_events : simpl never.
#[local] Arguments show_length : simpl never.
#[local] Arguments Exn_toString : simpl never.
#[local] Arguments String.append : simpl never.

Ltac keep_paths :=
  cbn -[irrigation_log_path live_monitoring_path device_status_path historical_query].

(** Run [refreshData] up to the point where both fetches have resumed. *)
Ltac run_refresh net :=
  unfold refreshData, fetch_both, exec, result, try_finally, try_catch, bind;
  cbn -[fetchHistoricalData_resume fetchIrrigationEvents_resume
        irrigation_log_path live_monitoring_path device_status_path
        historical_query];
  destruct (history_settles_first net);
  [ rewrite fetchHistoricalData_resume_run, fetchIrrigationEvents_resume_run
  | rewrite fetchIrrigationEvents_resume_run, fetchHistoricalData_resume_run ].

(** The ways the two fetches can settle. *)
Ltac settle_fetches net deviceId :=
  destruct (firestore_getDocs net historical_query);
  destruct (rtdb_get net (irrigation_log_path deviceId));
  keep_paths.

(** The ways the two one-shot snapshots can settle. *)
Ltac settle_snapshots net deviceId :=
  let v := fresh "live" in
  let e := fresh "err" in
  let v' := fresh "status" in
  destruct (rtdb_get net (live_monitoring_path deviceId)) as [v | e]; keep_paths;
  [ destruct (snapshot_exists v) eqn:?; keep_paths;
    (destruct (rtdb_get net (device_status_path deviceId)) as [v' | e]; keep_paths;
     [ destruct (snapshot_exists v') eqn:?; keep_paths | ])
  | ].

Section RefreshProperties.

Context {engine : ArraySort}.

(** [refreshData] never throws and always ends with [loading] false. *)
Lemma refreshData_completes
  (deviceId now : string) (Date_parse : string -> option Z) (net : Remote) (w : World) :
  result (refreshData deviceId now Date_parse net) w = Normal tt /\
  loading (hook (exec (refreshData deviceId now Date_parse net) w)) = false.
Proof.
  split; run_refresh net; settle_fetches net deviceId;
    settle_snapshots net deviceId; reflexivity.
Qed.

(** C7: when both the history fetch and the event fetch fail, [refreshData]
    leaves the stored readings and events as they were and sets the error;
    whatever the remote system answers, it completes with [loading]
    false. *)
Theorem refreshData_failed_fetches
  (deviceId now : string) (Date_parse : string -> option Z) (net : Remote) (w : World) :
  let w' := exec (refreshData deviceId now Date_parse net) w in
  result (refreshData deviceId now Date_parse net) w = Normal tt /\
  loading (hook w') = false /\
  ((exists e, firestore_getDocs net historical_query = Rejected e) ->
   (exists e, rtdb_get net (irrigation_log_path deviceId) = Rejected e) ->
   historicalData (hook w') = historicalData (hook w) /\
   irrigationEvents (hook w') = irrigationEvents (hook w) /\
   exists msg, error (hook w') = Some msg).
Proof.
  cbv zeta.
  split; [apply refreshData_completes|].
  split; [apply refreshData_completes|].
  intros [e1 H1] [e2 H2].
  run_refresh net; rewrite H1, H2; keep_paths;
    settle_snapshots net deviceId; cbn; repeat split; eexists; reflexivity.
Qed.

(** C10: a one-shot snapshot of the current reading that finds no value
    leaves [currentData], [connected] and [lastUpdate] as they were, and one
    of the device status that finds no value leaves [deviceStatus] as it
    was; the live subscription, on an empty push, clears [currentData] and
    sets [connected] to false. *)
Theorem refreshData_empty_snapshot
  (deviceId now : string) (Date_parse : string -> option Z) (net : Remote) (w : World)
  (empty : value) :
  snapshot_exists empty = false ->
  let w' := exec (refreshData deviceId now Date_parse net) w in
  (rtdb_get net (live_monitoring_path deviceId) = Fulfilled empty ->
   currentData (hook w') = currentData (hook w) /\
   connected (hook w') = connected (hook w) /\
   lastUpdate (hook w') = lastUpdate (hook w)) /\
  (rtdb_get net (device_status_path deviceId) = Fulfilled empty ->
   deviceStatus (hook w') = deviceStatus (hook w)) /\
  (let pushed := exec (onLiveData now (Snapshot empty)) w in
   currentData (hook pushed) = None /\ connected (hook pushed) = false).
Proof.
  intros Hempty. cbv zeta. split; [|split].
  - intros Hlive.
    run_refresh net; settle_fetches net deviceId;
      rewrite Hlive; keep_paths; rewrite Hempty; keep_paths;
      (destruct (rtdb_get net (device_status_path deviceId)) as [status | err];
       keep_paths; [destruct (snapshot_exists status); keep_paths |]);
      cbn; auto.
  - intros Hstatus.
    run_refresh net; settle_fetches net deviceId;
      (destruct (rtdb_get net (live_monitoring_path deviceId)) as [live | err];
       keep_paths;
       [destruct (snapshot_exists live); keep_paths;
        rewrite Hstatus; keep_paths; rewrite Hempty |]);
      cbn; auto.
  - unfold onLiveData, exec. rewrite Hempty. cbn. auto.
Qed.

End RefreshProperties.

Lemma refreshData_failed_fetches_witness :
  let refresh := refreshData "AF001" "2024-05-01T10:05:00.000Z" no_dates fetches_fail in
  result refresh loaded_world = Normal tt /\
  loading (hook (exec refresh loaded_world)) = false /\
  historicalData (hook (exec refresh loaded_world)) = [sample_reading] /\
  irrigationEvents (hook (exec refresh loaded_world)) = [sample_event] /\
  exists msg, error (hook (exec refresh loaded_world)) = Some msg.
Proof.
  destruct (refreshData_failed_fetches
              "AF001" "2024-05-01T10:05:00.000Z" no_dates fetches_fail loaded_world)
    as (Hresult & Hloading & Hkept).
  cbv zeta. split; [exact Hresult | split; [exact Hloading |]].
  apply Hkept; exists network_error; reflexivity.
Defined.

Lemma refreshData_empty_snapshot_witness :
  let refresh := refreshData "AF001" "2024-05-01T10:05:00.000Z" no_dates empty_database in
  (currentData (hook (exec refresh loaded_world)) = Some sample_live /\
   connected (hook (exec refresh loaded_world)) = true /\
   lastUpdate (hook (exec refresh loaded_world)) = Some "2024-05-01T10:00:00.000Z") /\
  deviceStatus (hook (exec refresh loaded_world)) = Some sample_status /\
  currentData
    (hook (exec (onLiveData "2024-05-01T10:05:00.000Z" (Snapshot VNull)) loaded_world))
  = None /\
  connected
    (hook (exec (onLiveData "2024-05-01T10:05:00.000Z" (Snapshot VNull)) loaded_world))
  = false.
Proof.
  destruct (refreshData_empty_snapshot
              "AF001" "2024-05-01T10:05:00.000Z" no_dates empty_database loaded_world
              VNull eq_refl)
    as (Hlive & Hstatus & Hpush).
  cbv zeta. split; [apply Hlive; reflexivity | split; [apply Hstatus; reflexivity |]].
  exact Hpush.
Defined.

(* ===================================================================== *)
(** * Pump control *)
(* ===================================================================== *)

Section PumpControl.

Context {engine : ArraySort}.
Import View.

(** The object the hook returns has no member [controlPump]. *)
Lemma useAgroFlowData_return_no_controlPump (s : HookState) :
  lookup "controlPump" (useAgroFlowData_return s) = None.
Proof. reflexivity. Qed.

(** [handlePumpControl] sends no request, whatever the state. *)
Lemma handlePumpControl_sends_nothing
  (deviceId now : string) (Date_parse : string -> option Z) (net : Remote) (w : World) :
  sent (exec (handlePumpControl deviceId now Date_parse net) w) = sent w /\
  hook (exec (handlePumpControl deviceId now Date_parse net) w) = hook w.
Proof.
  unfold handlePumpControl, exec, bind. cbn.
  destruct (liveData_present (hook w)) as [liveData|]; cbn; auto.
Qed.

(** C1 (the code departs from the claim): with the pump off and a live
    reading displayed, pressing the pump button sends no command.  The
    hook's returned object has no [controlPump]; the call throws a
    [TypeError], which the handler catches and logs. *)
Theorem handlePumpControl_without_controlPump
  (deviceId now : string) (Date_parse : string -> option Z) (net : Remote) :
  let press := handlePumpControl deviceId now Date_parse net in
  lookup "controlPump" (useAgroFlowData_return (hook loaded_world)) = None /\
  result press loaded_world = Normal tt /\
  sent (exec press loaded_world) = [] /\
  hook (exec press loaded_world) = hook loaded_world /\
  pumpControlLoading (exec press loaded_world) = false /\
  console (exec press loaded_world)
  = [{| log_level := LogError;
        log_args := [LText "Error controlling pump:";
                     LExn (TypeError "controlPump is not a function")] |}].
Proof. cbv zeta. repeat split. Qed.

End PumpControl.

(* ===================================================================== *)
(** * Decoding of historical records *)
(* ===================================================================== *)

Section Decoding.

Lemma decode_convertible (deviceId : string) (doc : Doc) :
  convertible doc = true ->
  exists r,
    decode deviceId doc = Some r /\
    conversion_log deviceId doc = [] /\
    Forall (follows doc r) (field_table deviceId).
Proof.
  destruct doc as [[data | e]]; [destruct data|]; try discriminate; intros _;
    (eexists; split; [reflexivity | split; [reflexivity |]]);
    unfold follows, doc_fields, or_else in *; cbn [doc_data];
    repeat (constructor; cbn [target source wrapper default device_id timestamp
      date air_temperature soil_temperature humidity moisture_surface moisture_root
      moisture_deep pump_active pump_state irrigation_reason daily_cycles
      wifi_signal_dbm uptime_ms rtdb_uploads firestore_uploads];
      [split; intros ->; reflexivity |]); constructor.
Qed.

Lemma decode_dropped (deviceId : string) (doc : Doc) :
  convertible doc = false ->
  decode deviceId doc = None /\
  exists err, conversion_log deviceId doc = [conversion_error err].
Proof.
  destruct doc as [[data | e]]; [destruct data|]; try discriminate; intros _;
    (split; [reflexivity | eexists; reflexivity]).
Qed.

Lemma field_table_defaults (deviceId : string) :
  Forall (default_of_wrapper deviceId) (field_table deviceId).
Proof.
  unfold default_of_wrapper.
  repeat (constructor; cbn [source wrapper default]; [intuition congruence |]).
  constructor.
Qed.

Lemma filter_map_length {A B : Type} (f : A -> option B) (keep : A -> bool) (l : list A) :
  (forall x, keep x = true <-> f x <> None) ->
  List.length (filter_map f l) = List.length (filter keep l).
Proof.
  intros H. induction l as [| x l IH]; [reflexivity|].
  cbn. specialize (H x). destruct (f x) eqn:Ef, (keep x) eqn:Ek; cbn.
  - f_equal. exact IH.
  - exfalso. assert (false = true) by (apply H; discriminate). discriminate.
  - exfalso. apply (proj1 H); reflexivity.
  - exact IH.
Qed.

Lemma convertible_decode (deviceId : string) (doc : Doc) :
  convertible doc = true <-> decode deviceId doc <> None.
Proof.
  destruct (convertible doc) eqn:E.
  - destruct (decode_convertible deviceId doc E) as (r & -> & _).
    split; [discriminate | reflexivity].
  - destruct (decode_dropped deviceId doc E) as (-> & _).
    split; [discriminate | intros H; exfalso; apply H; reflexivity].
Qed.

Example decode_sample :
  let doc := {| doc_data := Normal (VObj [("fields", VObj [
       ("device_id", VObj [("stringValue", VStr "AF001")]);
       ("soil_temperature", VObj [("integerValue", VNum 231)]);
       ("pump_active", VObj [("booleanValue", VBool true)]);
       ("pump_state", VObj [("stringValue", VStr "ON")])])]) |} in
  option_map (fun r => (device_id r, soil_temperature r, air_temperature r,
                        pump_active r, pump_state r, timestamp r))
             (decode "AF001" doc)
  = Some (VStr "AF001", VNum 231, VNum 0, VBool true, VStr "ON", VStr "").
Proof. reflexivity. Qed.

(** C4, as the specification states it, fails twice.  The string field
    [device_id] of a document without one becomes the hook's device
    identifier, which is neither the empty string nor ["OFF"]; and a
    malformed value that is not falsy (here a string where a number is
    expected) is kept, not replaced by 0. *)
Lemma decode_defaults_counterexample :
  let doc := {| doc_data := Normal (VObj [("fields", VObj [
       ("humidity", VObj [("integerValue", VStr "n/a")])])]) |} in
  exists r,
    decode "AF001" doc = Some r /\
    device_id r = VStr "AF001" /\
    device_id r <> VStr "" /\ device_id r <> VStr "OFF" /\
    humidity r = VStr "n/a" /\ humidity r <> VNum 0.
Proof.
  cbv zeta. eexists. split; [reflexivity|].
  cbn. repeat split; discriminate.
Qed.

(** The readings [fetchHistoricalData] stores when the query is answered,
    and what it writes to the console. *)
Lemma fetchHistoricalData_stores
  (deviceId : string) (net : Remote) (w : World) (docs : list Doc) :
  firestore_getDocs net historical_query = Fulfilled docs ->
  let w' := exec (fetchHistoricalData deviceId net) w in
  hook w' = with_historicalData (filter_map (decode deviceId) docs) (hook w) /\
  console w'
  = (console w ++ flat_map (conversion_log deviceId) docs ++
     [{| log_level := LogInfo;
         log_args := [LText ("Fetched "
                             ++ show_length (filter_map (decode deviceId) docs)
                             ++ " historical readings")] |}])%list.
Proof.
  intros Hdocs. cbv zeta.
  assert (Hrun : exec (fetchHistoricalData deviceId net) w
                 = snd (fetchHistoricalData_resume deviceId net
                          (exec (send (FirestoreGetDocs historical_query)) w)))
    by reflexivity.
  rewrite Hrun, fetchHistoricalData_resume_run, Hdocs. cbn [snd hook console].
  split; reflexivity.
Qed.

(** C4, amended: when the query is answered, the stored readings are the
    documents that convert, decoded, in the order of the answer.  A
    document converts unless reading its data throws or yields no object;
    such a document is dropped with one error line on the console and the
    others are kept.  In a converted reading every field whose value is
    absent or falsy has its default (0 for a number, [false] for a
    boolean, the empty string for a string, except ["OFF"] for
    [pump_state] and the hook's device identifier for [device_id]); every
    other value is kept as it is, whatever its type. *)
Theorem fetchHistoricalData_decodes
  (deviceId : string) (net : Remote) (w : World) (docs : list Doc) :
  firestore_getDocs net historical_query = Fulfilled docs ->
  let w' := exec (fetchHistoricalData deviceId net) w in
  historicalData (hook w') = filter_map (decode deviceId) docs /\
  List.length (historicalData (hook w')) = List.length (filter convertible docs) /\
  console w'
  = (console w ++ flat_map (conversion_log deviceId) docs ++
     [{| log_level := LogInfo;
         log_args := [LText ("Fetched " ++ show_length (historicalData (hook w'))
                             ++ " historical readings")] |}])%list /\
  (forall doc,
     if convertible doc
     then exists r, decode deviceId doc = Some r /\
                    conversion_log deviceId doc = [] /\
                    Forall (follows doc r) (field_table deviceId)
     else decode deviceId doc = None /\
          exists err, conversion_log deviceId doc = [conversion_error err]) /\
  Forall (default_of_wrapper deviceId) (field_table deviceId).
Proof.
  intros Hdocs. cbv zeta.
  destruct (fetchHistoricalData_stores deviceId net w docs Hdocs) as (-> & ->).
  cbn [historicalData with_historicalData].
  split; [reflexivity|].
  split; [apply filter_map_length; intro doc; apply convertible_decode|].
  split; [reflexivity|].
  split; [|apply field_table_defaults].
  intro doc. destruct (convertible doc) eqn:E.
  - apply decode_convertible; exact E.
  - apply decode_dropped; exact E.
Qed.

Lemma fetchHistoricalData_decodes_witness :
  let w' := exec (fetchHistoricalData "AF001" (answers_with sample_batch)) empty_world in
  map soil_temperature (historicalData (hook w')) = [VNum 231; VNum 228] /\
  List.length (historicalData (hook w')) = 2%nat /\
  map log_level (console w') = [LogError; LogInfo].
Proof.
  destruct (fetchHistoricalData_decodes
              "AF001" (answers_with sample_batch) empty_world sample_batch eq_refl)
    as (Hstored & Hlength & Hconsole & _).
  cbv zeta. rewrite Hconsole, Hstored. repeat split.
Defined.

End Decoding.

(* ===================================================================== *)
(** * The device identifier in the requests *)
(* ===================================================================== *)

Section DeviceKey.

Context {engine : ArraySort}.

Lemma keyed_by_live (deviceId : string) :
  path_of_device deviceId (live_monitoring_path deviceId) = true.
Proof. unfold live_monitoring_path. cbn. rewrite String.eqb_refl. reflexivity. Qed.

Lemma keyed_by_status (deviceId : string) :
  path_of_device deviceId (device_status_path deviceId) = true.
Proof. unfold device_status_path. cbn. rewrite String.eqb_refl. reflexivity. Qed.

Lemma keyed_by_log (deviceId : string) :
  path_of_device deviceId (irrigation_log_path deviceId) = true.
Proof. unfold irrigation_log_path. cbn. rewrite String.eqb_refl. reflexivity. Qed.

(** The history query names no device. *)
Lemma historical_query_unfiltered (d : string) :
  keyed_by d (FirestoreGetDocs historical_query) = false.
Proof. reflexivity. Qed.

Ltac classify_request :=
  lazymatch goal with
  | |- _ \/ FirestoreGetDocs _ = _ => right; reflexivity
  | |- keyed_by _ (_ (live_monitoring_path _)) = true \/ _ => left; apply keyed_by_live
  | |- keyed_by _ (_ (device_status_path _)) = true \/ _ => left; apply keyed_by_status
  | |- keyed_by _ (RtdbOff (live_monitoring_path _) _) = true \/ _ =>
      left; apply keyed_by_live
  | |- keyed_by _ (RtdbOff (device_status_path _) _) = true \/ _ =>
      left; apply keyed_by_status
  | |- keyed_by _ (_ (irrigation_log_path _)) = true \/ _ => left; apply keyed_by_log
  end.

Ltac classify_requests :=
  cbn [snd sent]; rewrite <- ?app_assoc; cbn [app];
  eexists; split; [reflexivity |];
  repeat (constructor; [classify_request |]);
  constructor.

Lemma requests_of_operation
  (deviceId now : string) (Date_parse : string -> option Z) (net : Remote)
  (op : Operation) (w : World) :
  exists new,
    sent (exec (run_operation deviceId now Date_parse net op) w) = (sent w ++ new)%list /\
    Forall (hook_request deviceId) new.
Proof.
  unfold hook_request.
  destruct op; cbn [run_operation].
  - unfold initialize, setupRealTimeListeners.
    run_refresh net; settle_fetches net deviceId; settle_snapshots net deviceId;
      classify_requests.
  - run_refresh net; settle_fetches net deviceId; settle_snapshots net deviceId;
      classify_requests.
  - unfold auto_refresh, fetch_both, exec, bind.
    cbn -[fetchHistoricalData_resume fetchIrrigationEvents_resume
          irrigation_log_path historical_query].
    destruct (history_settles_first net);
      [ rewrite fetchHistoricalData_resume_run, fetchIrrigationEvents_resume_run
      | rewrite fetchIrrigationEvents_resume_run, fetchHistoricalData_resume_run ];
      settle_fetches net deviceId; classify_requests.
  - unfold cleanup, exec, bind. cbn -[live_monitoring_path device_status_path].
    destruct (liveDataRef w); cbn -[live_monitoring_path device_status_path];
      destruct (deviceStatusRef w); cbn -[live_monitoring_path device_status_path];
      first [ classify_requests
            | exists []; rewrite app_nil_r; split; [reflexivity | constructor] ].
Qed.

Lemma decode_device_id (deviceId : string) (doc : Doc) (r : HistoricalReading) :
  decode deviceId doc = Some r ->
  device_id r
  = or_else (field (doc_fields doc) "device_id" "stringValue") (VStr deviceId).
Proof.
  destruct doc as [[data | e]]; [destruct data|]; cbn;
    try discriminate; intros [= <-]; reflexivity.
Qed.

(** C6, as the specification states it, fails: the history fetch of the
    hook for device AF001 stores a reading of device AF002. *)
Lemma history_of_other_devices :
  ~ (forall (deviceId : string) (net : Remote) (w : World) (r : HistoricalReading),
       In r (historicalData (hook (exec (fetchHistoricalData deviceId net) w))) ->
       device_id r = VStr deviceId).
Proof.
  intro H.
  assert (Hin : exists r,
             In r (historicalData
                     (hook (exec (fetchHistoricalData "AF001" two_devices) empty_world))) /\
             device_id r = VStr "AF002")
    by (eexists; split; [left; reflexivity | reflexivity]).
  destruct Hin as (r & Hin & Hid).
  apply H in Hin. rewrite Hid in Hin. discriminate.
Qed.

(** C6, amended: every request an operation of the hook sends is a read or
    a subscription of the realtime database on a node of the device, or the
    history query; the device is ["AF001"] when none is given.  The history
    query names no device, and the fetch stores every document that
    converts with the device identifier the document carries (the hook's
    own when it carries none). *)
Theorem requests_keyed_by_device
  (deviceId now : string) (Date_parse : string -> option Z) (net : Remote)
  (op : Operation) (w : World) (docs : list Doc) :
  (exists new,
     sent (exec (run_operation deviceId now Date_parse net op) w) = (sent w ++ new)%list /\
     Forall (hook_request deviceId) new) /\
  (forall d, keyed_by d (FirestoreGetDocs historical_query) = false) /\
  deviceId_param None = "AF001" /\
  deviceId_param (Some deviceId) = deviceId /\
  (firestore_getDocs net historical_query = Fulfilled docs ->
   historicalData (hook (exec (fetchHistoricalData deviceId net) w))
   = filter_map (decode deviceId) docs /\
   forall doc r,
     decode deviceId doc = Some r ->
     device_id r
     = or_else (field (doc_fields doc) "device_id" "stringValue") (VStr deviceId)).
Proof.
  split; [apply requests_of_operation|].
  split; [apply historical_query_unfiltered|].
  split; [reflexivity|]. split; [reflexivity|].
  intros Hdocs. split.
  - destruct (fetchHistoricalData_stores deviceId net w docs Hdocs) as (-> & _).
    reflexivity.
  - intros doc r. apply decode_device_id.
Qed.

End DeviceKey.

Lemma requests_keyed_by_device_witness :
  sent (exec (refreshData "AF001" "2024-05-01T10:05:00.000Z" no_dates two_devices)
             empty_world)
  = [FirestoreGetDocs historical_query; RtdbGet "irrigation_log/AF001";
     RtdbGet "live_monitoring/AF001"; RtdbGet "device_status/AF001"] /\
  map device_id
    (historicalData (hook (exec (fetchHistoricalData "AF001" two_devices) empty_world)))
  = [VStr "AF002"; VStr "AF001"].
Proof.
  destruct (requests_keyed_by_device
              "AF001" "2024-05-01T10:05:00.000Z" no_dates two_devices Refresh empty_world
              [sample_doc "AF002" 250; sample_doc "AF001" 231])
    as (_ & _ & _ & _ & Hstored).
  destruct (Hstored eq_refl) as (-> & _).
  split; reflexivity.
Defined.

(* ===================================================================== *)
(** * The readings that are charted *)
(* ===================================================================== *)

Section Charts.
Import View.

Variable toLocaleTimeString : value -> string.

(** The readings charted are the last 24 elements of the stored array. *)
Lemma formatHistoricalData_slice (history : list HistoricalReading) :
  formatHistoricalData toLocaleTimeString history
  = map (chart_point toLocaleTimeString)
        (skipn (List.length history - 24) history).
Proof. destruct history; reflexivity. Qed.

(** Up to 24 stored readings are all charted. *)
Lemma formatHistoricalData_short (history : list HistoricalReading) :
  (List.length history <= 24)%nat ->
  formatHistoricalData toLocaleTimeString history
  = map (chart_point toLocaleTimeString) history.
Proof.
  intros H. rewrite formatHistoricalData_slice.
  replace (List.length history - 24)%nat with 0%nat by lia. reflexivity.
Qed.

(** C8 (the code departs from the claim): of 25 readings stored newest
    first, the chart keeps those of days 24 down to 1 and leaves out the
    most recent one, of day 25; the most recent 24 are those of days 25
    down to 2. *)
Theorem formatHistoricalData_drops_newest :
  map moisture2 (formatHistoricalData toLocaleTimeString january)
  = map (fun day => VNum (Z.of_nat day # 1)) (rev (seq 1 24)) /\
  map moisture_root (firstn 24 january)
  = map (fun day => VNum (Z.of_nat day # 1)) (rev (seq 2 24)) /\
  formatHistoricalData toLocaleTimeString january
  = map (chart_point toLocaleTimeString) (skipn 1 january) /\
  formatHistoricalData toLocaleTimeString january
  <> map (chart_point toLocaleTimeString) (firstn 24 january).
Proof.
  split; [reflexivity|]. split; [reflexivity|]. split; [reflexivity|].
  intro H. apply (f_equal (map moisture2)) in H.
  apply (f_equal (@hd value VNull)) in H. discriminate H.
Qed.

End Charts.

(* ===================================================================== *)
(** * Sorting with a comparator *)
(* ===================================================================== *)

Section ArraySort.

Context {A : Type}.
Variable cmp : A -> A -> option Z.

Lemma sort_insert_perm (x : A) (l : list A) :
  Permutation (sort_insert cmp x l) (x :: l).
Proof.
  induction l as [| y l IH]; cbn.
  - apply Permutation_refl.
  - destruct (sorts_after cmp x y).
    + apply perm_trans with (y :: x :: l).
      * apply perm_skip. exact IH.
      * apply perm_swap.
    + apply Permutation_refl.
Qed.

Lemma stable_sort_perm (l : list A) : Permutation (stable_sort cmp l) l.
Proof.
  induction l as [| x l IH]; cbn.
  - apply perm_nil.
  - apply perm_trans with (x :: stable_sort cmp l).
    + apply sort_insert_perm.
    + apply perm_skip. exact IH.
Qed.

Variable key : A -> Z.

Lemma sorts_after_key (x y : A) :
  cmp x y = Some (key y - key x)%Z ->
  sorts_after cmp x y = (key x <? key y)%Z.
Proof.
  intros H. unfold sorts_after. rewrite H.
  destruct (Z.ltb_spec 0 (key y - key x)), (Z.ltb_spec (key x) (key y));
    solve [reflexivity | lia].
Qed.

Lemma sort_insert_sorted (x : A) (l : list A) :
  (forall y, In y l -> cmp x y = Some (key y - key x)%Z) ->
  StronglySorted (descending key) l ->
  StronglySorted (descending key) (sort_insert cmp x l).
Proof.
  intros Hcmp Hsorted.
  induction Hsorted as [| y l Hl IH Hy]; cbn.
  - constructor; constructor.
  - rewrite sorts_after_key by (apply Hcmp; left; reflexivity).
    destruct (Z.ltb_spec (key x) (key y)) as [Hlt | Hge].
    + constructor.
      * apply IH. intros z Hz. apply Hcmp. right. exact Hz.
      * apply (Permutation_Forall (Permutation_sym (sort_insert_perm x l))).
        constructor; [unfold descending; lia | exact Hy].
    + constructor; [constructor; assumption |].
      constructor; [exact Hge |].
      apply (Forall_impl _ (P := descending key y)); [| exact Hy].
      unfold descending. intros z Hz. lia.
Qed.

Lemma stable_sort_sorted (l : list A) :
  compares_keys cmp key l -> StronglySorted (descending key) (stable_sort cmp l).
Proof.
  induction l as [| x l IH]; intros Hcmp; cbn.
  - constructor.
  - apply sort_insert_sorted.
    + intros y Hy. apply Hcmp; [left; reflexivity |].
      right. apply (Permutation_in _ (stable_sort_perm l)). exact Hy.
    + apply IH. intros a b Ha Hb. apply Hcmp; right; assumption.
Qed.

(** The sort is stable: elements of equal key keep their order. *)
Lemma sort_insert_stable (k : Z) (x : A) (l : list A) :
  (forall y, In y l -> cmp x y = Some (key y - key x)%Z) ->
  filter (fun e => (key e =? k)%Z) (sort_insert cmp x l)
  = filter (fun e => (key e =? k)%Z) (x :: l).
Proof.
  induction l as [| y l IH]; intros Hcmp; [reflexivity |].
  cbn [sort_insert]. rewrite sorts_after_key by (apply Hcmp; left; reflexivity).
  destruct (Z.ltb_spec (key x) (key y)) as [Hlt | Hge]; [| reflexivity].
  cbn [filter]. rewrite IH by (intros z Hz; apply Hcmp; right; exact Hz).
  cbn [filter].
  destruct (Z.eqb_spec (key x) k), (Z.eqb_spec (key y) k); solve [reflexivity | lia].
Qed.

Lemma stable_sort_stable (k : Z) (l : list A) :
  compares_keys cmp key l ->
  filter (fun e => (key e =? k)%Z) (stable_sort cmp l)
  = filter (fun e => (key e =? k)%Z) l.
Proof.
  induction l as [| x l IH]; intros Hcmp; [reflexivity |].
  cbn [stable_sort]. rewrite sort_insert_stable.
  - cbn [filter]. rewrite IH by (intros a b Ha Hb; apply Hcmp; right; assumption).
    reflexivity.
  - intros y Hy. apply Hcmp; [left; reflexivity |].
    right. apply (Permutation_in _ (stable_sort_perm l)). exact Hy.
Qed.

(** In a sorted list no element behind a prefix sorts before one of it. *)
Lemma sorted_prefix_dominates (l : list A) (n : nat) (a b : A) :
  StronglySorted (descending key) l ->
  In a (firstn n l) -> In b (skipn n l) -> descending key a b.
Proof.
  intros Hsorted. revert n.
  induction Hsorted as [| y l Hl IH Hy]; intros n Ha Hb.
  - rewrite firstn_nil in Ha. destruct Ha.
  - destruct n as [| n]; [destruct Ha |].
    cbn in Ha, Hb. destruct Ha as [<- | Ha].
    + rewrite Forall_forall in Hy. apply Hy.
      rewrite <- (firstn_skipn n l). apply in_or_app. right. exact Hb.
    + apply (IH n); assumption.
Qed.

Lemma sorted_head_max (x : A) (l : list A) (z : A) :
  StronglySorted (descending key) (x :: l) -> In z (x :: l) -> (key z <= key x)%Z.
Proof.
  intros Hsorted [<- | Hz]; [lia |].
  inversion Hsorted as [| ? ? _ Hall]; subst.
  rewrite Forall_forall in Hall. apply Hall. exact Hz.
Qed.

(** Two lists sorted by descending key that hold the same elements of each
    key, in the same order, are equal. *)
Lemma stable_sorted_unique (l1 l2 : list A) :
  StronglySorted (descending key) l1 ->
  StronglySorted (descending key) l2 ->
  (forall k, filter (fun e => (key e =? k)%Z) l1 = filter (fun e => (key e =? k)%Z) l2) ->
  l1 = l2.
Proof.
  intros H1. revert l2.
  induction l1 as [| x l1 IH]; intros l2 H2 Hsame.
  - destruct l2 as [| y l2]; [reflexivity |].
    specialize (Hsame (key y)). cbn in Hsame. rewrite Z.eqb_refl in Hsame. discriminate.
  - destruct l2 as [| y l2].
    + specialize (Hsame (key x)). cbn in Hsame. rewrite Z.eqb_refl in Hsame. discriminate.
    + assert (Hx : In x (y :: l2)).
      { apply (proj1 (filter_In (fun e => (key e =? key x)%Z) x (y :: l2))).
        rewrite <- Hsame. cbn. rewrite Z.eqb_refl. left. reflexivity. }
      assert (Hy : In y (x :: l1)).
      { apply (proj1 (filter_In (fun e => (key e =? key y)%Z) y (x :: l1))).
        rewrite Hsame. cbn. rewrite Z.eqb_refl. left. reflexivity. }
      pose proof (sorted_head_max y l2 x H2 Hx) as Hle1.
      pose proof (sorted_head_max x l1 y H1 Hy) as Hle2.
      assert (Hkey : key x = key y) by lia.
      pose proof (Hsame (key x)) as Hhead. cbn in Hhead.
      rewrite Z.eqb_refl, <- Hkey, Z.eqb_refl in Hhead.
      injection Hhead as -> Htail.
      f_equal. apply IH.
      * inversion H1; assumption.
      * inversion H2; assumption.
      * intro k. specialize (Hsame k). cbn in Hsame.
        destruct (key y =? k)%Z; [injection Hsame as Hsame |]; exact Hsame.
Qed.

(** The result of the insertion sort is the only stable arrangement by
    descending key: what any sort that meets the language definition
    returns. *)
Lemma stable_sort_unique (l sorted : list A) :
  compares_keys cmp key l ->
  StronglySorted (descending key) sorted ->
  (forall k, filter (fun e => (key e =? k)%Z) sorted = filter (fun e => (key e =? k)%Z) l) ->
  sorted = stable_sort cmp l.
Proof.
  intros Hkeys Hsorted Hstable.
  apply stable_sorted_unique; [exact Hsorted | apply stable_sort_sorted; exact Hkeys |].
  intro k. rewrite Hstable. symmetry. apply stable_sort_stable. exact Hkeys.
Qed.

(** A comparator that subtracts keys is consistent. *)
Lemma compares_keys_consistent (l : list A) :
  compares_keys cmp key l -> consistent_comparator cmp l.
Proof.
  intros Hkeys a b c Ha Hb Hc.
  unfold cf_eq, cf_lt, cf_gt.
  rewrite (Hkeys a b Ha Hb), (Hkeys a a Ha Ha), (Hkeys b a Hb Ha),
    (Hkeys b c Hb Hc), (Hkeys a c Ha Hc).
  split; [discriminate |].
  split; [f_equal; lia |].
  split; [intros [= H]; f_equal; lia |].
  split; [intros [= H1] [= H2]; f_equal; lia |].
  split; intros (v1 & [= <-] & H1) (v2 & [= <-] & H2); eexists; split;
    solve [reflexivity | lia].
Qed.

(** ** The sort of an engine *)

Context {engine : ArraySort}.

Lemma Array_sort_nil : Array_sort cmp [] = [].
Proof. apply Permutation_nil, Permutation_sym, Array_sort_perm. Qed.

(** With a comparator that subtracts keys every engine returns what the
    insertion sort returns. *)
Lemma Array_sort_keys (l : list A) :
  compares_keys cmp key l -> Array_sort cmp l = stable_sort cmp l.
Proof. intros Hkeys. apply Array_sort_consistent, compares_keys_consistent, Hkeys. Qed.

Lemma Array_sort_sorted (l : list A) :
  compares_keys cmp key l -> StronglySorted (descending key) (Array_sort cmp l).
Proof.
  intros Hkeys. rewrite (Array_sort_keys l Hkeys). apply stable_sort_sorted, Hkeys.
Qed.

(** The sort is stable: elements of equal key keep their order. *)
Lemma Array_sort_stable (k : Z) (l : list A) :
  compares_keys cmp key l ->
  filter (fun e => (key e =? k)%Z) (Array_sort cmp l)
  = filter (fun e => (key e =? k)%Z) l.
Proof.
  intros Hkeys. rewrite (Array_sort_keys l Hkeys). apply stable_sort_stable, Hkeys.
Qed.
End ArraySort.

(* ===================================================================== *)
(** * The irrigation events that are stored *)
(* ===================================================================== *)

Section IrrigationEvents.

Context {engine : ArraySort}.

Variable Date_parse : string -> option Z.

Lemma newest_first_keys (events : list value) :
  forallb (has_time Date_parse) events = true ->
  compares_keys (newest_first Date_parse) (time_of Date_parse) events.
Proof.
  intros Hvalid a b Ha Hb.
  rewrite forallb_forall in Hvalid.
  pose proof (Hvalid a Ha) as Hta. pose proof (Hvalid b Hb) as Htb.
  unfold has_time, time_of, newest_first, event_time in *.
  destruct (Date_getTime Date_parse (prop b "timestamp")); [| discriminate].
  destruct (Date_getTime Date_parse (prop a "timestamp")); [| discriminate].
  reflexivity.
Qed.

Lemma nullish_no_children (snapshot : value) :
  snapshot_exists snapshot = false -> snapshot_children snapshot = [].
Proof. destruct snapshot; cbn; solve [reflexivity | discriminate]. Qed.

(** A snapshot that does not exist has no event to store. *)
Lemma recent_events_nullish (snapshot : value) :
  snapshot_exists snapshot = false -> recent_events Date_parse snapshot = [].
Proof.
  intros E. unfold recent_events. rewrite (nullish_no_children _ E). cbn [filter].
  rewrite Array_sort_nil. reflexivity.
Qed.

(** C5, amended: when the log is fetched, the stored events are the first 20 of a
    list [sorted] that has the object entries of the log and no others; of
    the hook's state only [irrigationEvents] changes, and its new value does
    not depend on the old one.  When every object entry has a timestamp that
    is a date, [sorted] is newest first, entries of equal time in the order
    of the log, and no entry left out is newer than a stored one. *)
Theorem fetchIrrigationEvents_newest_first
  (deviceId : string) (net : Remote) (w : World) (snapshot : value) :
  rtdb_get net (irrigation_log_path deviceId) = Fulfilled snapshot ->
  let events := filter is_object (snapshot_children snapshot) in
  let w' := exec (fetchIrrigationEvents deviceId Date_parse net) w in
  let stored := irrigationEvents (hook w') in
  hook w' = with_irrigationEvents stored (hook w) /\
  exists sorted,
    Permutation sorted events /\
    stored = firstn 20 sorted /\
    List.length stored = Nat.min 20 (List.length events) /\
    (forallb (has_time Date_parse) events = true ->
     StronglySorted (descending (time_of Date_parse)) sorted /\
     (forall t, filter (fun e => (time_of Date_parse e =? t)%Z) sorted
                = filter (fun e => (time_of Date_parse e =? t)%Z) events) /\
     (forall a b, In a stored -> In b (skipn 20 sorted) ->
                  (time_of Date_parse b <= time_of Date_parse a)%Z)).
Proof.
  intros Hget. cbv zeta.
  set (events := filter is_object (snapshot_children snapshot)).
  assert (Hrun : exec (fetchIrrigationEvents deviceId Date_parse net) w
                 = snd (fetchIrrigationEvents_resume deviceId Date_parse net
                          (exec (send (RtdbGet (irrigation_log_path deviceId))) w)))
    by reflexivity.
  rewrite Hrun, fetchIrrigationEvents_resume_run, Hget. cbn [snd hook].
  set (sorted := Array_sort (newest_first Date_parse) events).
  assert (Hstored : (if snapshot_exists snapshot
                     then recent_events Date_parse snapshot else [])
                    = firstn 20 sorted).
  { destruct (snapshot_exists snapshot) eqn:E; [reflexivity |].
    subst sorted events. rewrite (nullish_no_children _ E). cbn [filter].
    rewrite Array_sort_nil. reflexivity. }
  rewrite Hstored.
  split; [reflexivity |].
  exists sorted.
  split; [apply Array_sort_perm |].
  split; [reflexivity |].
  split.
  - cbn [irrigationEvents with_irrigationEvents]. rewrite length_firstn.
    subst sorted.
    rewrite (Permutation_length (Array_sort_perm (newest_first Date_parse) events)).
    reflexivity.
  - intros Hvalid.
    pose proof (newest_first_keys events Hvalid) as Hkeys.
    pose proof (Array_sort_sorted _ (time_of Date_parse) events Hkeys) as Hsorted.
    split; [exact Hsorted |].
    split; [intro t; apply Array_sort_stable; exact Hkeys |].
    intros a b Ha Hb.
    apply (sorted_prefix_dominates (time_of Date_parse) sorted 20 a b Hsorted); assumption.
Qed.

(** Three events with timestamps [t3, t1, t2], where [t1 < t2 < t3], come
    out as [t3, t2, t1]. *)
Lemma recent_events_three (e1 e2 e3 : value) (t1 t2 t3 : Z) (k1 k2 k3 : string) :
  is_object e1 = true -> is_object e2 = true -> is_object e3 = true ->
  event_time Date_parse e1 = Some t1 ->
  event_time Date_parse e2 = Some t2 ->
  event_time Date_parse e3 = Some t3 ->
  (t1 < t2 < t3)%Z ->
  recent_events Date_parse (VObj [(k1, e3); (k2, e1); (k3, e2)]) = [e3; e2; e1].
Proof.
  intros O1 O2 O3 T1 T2 T3 Hlt.
  unfold recent_events, slice_first. cbn [snapshot_children map snd filter].
  rewrite O1, O2, O3.
  rewrite (Array_sort_keys _ (time_of Date_parse))
    by (apply newest_first_keys; unfold has_time; cbn; rewrite T1, T2, T3; reflexivity).
  cbn [stable_sort sort_insert].
  unfold event_time in *.
  assert (H12 : sorts_after (newest_first Date_parse) e1 e2 = true).
  { unfold sorts_after, newest_first. rewrite T1, T2. apply Z.ltb_lt. lia. }
  rewrite H12. cbn [sort_insert].
  assert (H32 : sorts_after (newest_first Date_parse) e3 e2 = false).
  { unfold sorts_after, newest_first. rewrite T3, T2. apply Z.ltb_ge. lia. }
  rewrite H32. reflexivity.
Qed.
End IrrigationEvents.

(** ** Examples *)

Example iso8601_utc_examples :
  map iso8601_utc ["1970-01-01T00:00:00Z"; "2024-05-01T06:00:00Z"; "2024-02-29T23:59:59Z";
                   "yesterday"; "2024-13-01T00:00:00Z"]
  = [Some 0; Some 1714543200000; Some 1709251199000; None; None]%Z.
Proof. vm_compute. reflexivity. Qed.

(** Timestamps [t3, t1, t2] come out as [t3, t2, t1]. *)
Example fetchIrrigationEvents_sample :
  map (fun e => prop e "timestamp")
      (irrigationEvents
         (hook (exec (fetchIrrigationEvents "AF001" iso8601_utc (serves_log sample_log))
                     loaded_world)))
  = [VStr "2024-05-03T06:00:00Z"; VStr "2024-05-02T06:00:00Z"; VStr "2024-05-01T06:00:00Z"].
Proof. vm_compute. reflexivity. Qed.

Example fetchIrrigationEvents_truncates :
  map (fun e => prop e "timestamp")
      (irrigationEvents
         (hook (exec (fetchIrrigationEvents "AF001" iso8601_utc (serves_log long_log))
                     loaded_world)))
  = map (fun day => VStr ("2024-05-" ++ two_digits day ++ "T06:00:00Z")) (rev (seq 3 20)).
Proof. vm_compute. reflexivity. Qed.

(** C5, as the specification states it, fails: the log holds an entry
    without a timestamp between an older and a newer entry; the comparator
    returns NaN for it, and the three entries are stored in the order of
    the log, the older one before the newer one. *)
Lemma unparsable_timestamp_breaks_order :
  ~ (forall (engine : ArraySort) (Date_parse : string -> option Z) (deviceId : string)
            (net : Remote) (w : World) (snapshot : value),
       rtdb_get net (irrigation_log_path deviceId) = Fulfilled snapshot ->
       StronglySorted (not_older Date_parse)
         (irrigationEvents
            (hook (exec (fetchIrrigationEvents (engine := engine) deviceId Date_parse net)
                        w)))).
Proof.
  intro H.
  specialize (H insertion_engine iso8601_utc "AF001" (serves_log gapped_log) empty_world
                gapped_log eq_refl).
  assert (Hstored :
            irrigationEvents
              (hook (exec (fetchIrrigationEvents "AF001" iso8601_utc (serves_log gapped_log))
                          empty_world))
            = snapshot_children gapped_log)
    by (vm_compute; reflexivity).
  rewrite Hstored in H. cbn [snapshot_children gapped_log map snd] in H.
  inversion H as [| first rest _ Hfirst]; subst.
  inversion Hfirst as [| second rest' _ Hrest]; subst.
  inversion Hrest as [| third rest'' Hthird _]; subst.
  specialize (Hthird 1714543200000%Z 1714629600000%Z eq_refl eq_refl).
  lia.
Qed.

Lemma fetchIrrigationEvents_newest_first_witness :
  let w' := exec (fetchIrrigationEvents "AF001" iso8601_utc (serves_log long_log))
                 loaded_world in
  hook w' = with_irrigationEvents (irrigationEvents (hook w')) (hook loaded_world) /\
  List.length (irrigationEvents (hook w')) = 20%nat /\
  exists sorted,
    irrigationEvents (hook w') = firstn 20 sorted /\
    StronglySorted (descending (time_of iso8601_utc)) sorted.
Proof.
  destruct (fetchIrrigationEvents_newest_first
              iso8601_utc "AF001" (serves_log long_log) loaded_world long_log eq_refl)
    as (Hhook & sorted & _ & Hstored & Hlength & Hordered).
  destruct (Hordered eq_refl) as (Hsorted & _).
  cbv zeta. split; [exact Hhook | split; [exact Hlength |]].
  exists sorted. split; [exact Hstored | exact Hsorted].
Defined.

(* ===================================================================== *)
(** * The rest of the view *)
(* ===================================================================== *)

(** Keep one copy of the final world while it is computed. *)
Ltac name_final_world :=
  match goal with
  | |- context [exec ?c ?w] =>
      let w' := fresh "final" in
      let E := fresh "Hfinal" in
      remember (exec c w) as w' eqn:E; revert E
  end.

(** Run [auto_refresh] up to the point where both fetches have resumed. *)
Ltac run_auto_refresh net :=
  unfold auto_refresh, fetch_both, exec, result, bind;
  cbn -[fetchHistoricalData_resume fetchIrrigationEvents_resume
        irrigation_log_path historical_query];
  destruct (history_settles_first net);
  [ rewrite fetchHistoricalData_resume_run, fetchIrrigationEvents_resume_run
  | rewrite fetchIrrigationEvents_resume_run, fetchHistoricalData_resume_run ].

(** ** [getWifiStrength] *)

Section WifiProperties.
Import View.

Lemma Qeq_bool_false (x y : Q) : Qeq_bool x y = false <-> ~ x == y.
Proof.
  split.
  - intros H E. apply Qeq_bool_iff in E. congruence.
  - intros H. destruct (Qeq_bool x y) eqn:E; [|reflexivity].
    apply Qeq_bool_iff in E. contradiction.
Qed.

Ltac wifi_cases signal :=
  unfold getWifiStrength;
  let Z0 := fresh "Hzero" in
  let H50 := fresh "H50" in
  let H60 := fresh "H60" in
  let H70 := fresh "H70" in
  destruct (Qeq_bool signal 0) eqn:Z0;
  [ apply Qeq_bool_iff in Z0
  | apply Qeq_bool_false in Z0;
    destruct (Qltb (-50) signal) eqn:H50;
    [ apply Qltb_lt in H50
    | apply Qltb_ge in H50;
      destruct (Qltb (-60) signal) eqn:H60;
      [ apply Qltb_lt in H60
      | apply Qltb_ge in H60;
        destruct (Qltb (-70) signal) eqn:H70;
        [ apply Qltb_lt in H70 | apply Qltb_ge in H70 ] ] ] ].

(** X1: the five labels of [getWifiStrength]: "Unknown" exactly for a
    signal of 0 (and for an absent one), "Excellent" above -50 dBm, also
    for a positive signal, "Good" in (-60, -50], "Fair" in (-70, -60],
    "Weak" at -70 dBm and below. *)
Theorem getWifiStrength_buckets (signal : Q) :
  let s := Wifi.strength (getWifiStrength (Some signal)) in
  (s = "Unknown" <-> signal == 0) /\
  (s = "Excellent" <-> ~ signal == 0 /\ -50 < signal) /\
  (s = "Good" <-> -60 < signal /\ signal <= -50) /\
  (s = "Fair" <-> -70 < signal /\ signal <= -60) /\
  (s = "Weak" <-> signal <= -70) /\
  Wifi.strength (getWifiStrength None) = "Unknown".
Proof.
  cbv zeta. wifi_cases signal; cbn [Wifi.strength];
    repeat split; intros; try discriminate; try lra; try tauto;
    try (exfalso; lra).
Qed.

(** X2: among signals other than 0 the number of bars grows with the
    signal and stays between 1 and 4. *)
Theorem getWifiStrength_bars_monotone (weaker stronger : Q) :
  ~ weaker == 0 -> ~ stronger == 0 -> weaker <= stronger ->
  (1 <= Wifi.bars (getWifiStrength (Some weaker)) /\
   Wifi.bars (getWifiStrength (Some weaker))
   <= Wifi.bars (getWifiStrength (Some stronger)) /\
   Wifi.bars (getWifiStrength (Some stronger)) <= 4)%nat.
Proof.
  intros Hw Hs Hle.
  wifi_cases weaker; [contradiction | | | |];
    wifi_cases stronger; try contradiction; cbn [Wifi.bars];
    repeat split; try lia; exfalso; lra.
Qed.

End WifiProperties.

Lemma getWifiStrength_bars_monotone_witness :
  (1 <= View.Wifi.bars (View.getWifiStrength (Some (-75)%Q)) /\
   View.Wifi.bars (View.getWifiStrength (Some (-75)%Q))
   <= View.Wifi.bars (View.getWifiStrength (Some (-55)%Q)) /\
   View.Wifi.bars (View.getWifiStrength (Some (-55)%Q)) <= 4)%nat.
Proof.
  apply (getWifiStrength_bars_monotone (-75) (-55)).
  - intro H. vm_compute in H. discriminate H.
  - intro H. vm_compute in H. discriminate H.
  - unfold Qle. simpl. lia.
Defined.

(** ** [formatTimeAgo] *)

Section TimeAgo.
Import View.
Variable Date_parse : string -> option Z.

Lemma Qfloor_div_Z (a : Z) (b : positive) :
  Qfloor (inject_Z a / inject_Z (Zpos b)) = (a / Zpos b)%Z.
Proof.
  unfold Qfloor, Qdiv, Qmult, Qinv, inject_Z. cbn.
  rewrite Z.mul_1_r. reflexivity.
Qed.

Lemma inject_Z_sub (a b : Z) : inject_Z a - inject_Z b = inject_Z (a - b).
Proof. unfold Qminus. rewrite <- inject_Z_opp, <- inject_Z_plus. reflexivity. Qed.

Lemma number_lt_Z (a b : Z) (q : Z) :
  number_lt (number_sub (Some (inject_Z a)) (Some (inject_Z b))) (inject_Z q)
  = (a - b <? q)%Z.
Proof.
  unfold number_lt, number_sub.
  destruct (Z.ltb_spec (a - b) q) as [H | H].
  - apply Qltb_lt. rewrite inject_Z_sub, <- Zlt_Qlt. exact H.
  - apply Qltb_ge. rewrite inject_Z_sub, <- Zle_Qle. exact H.
Qed.

Lemma show_floor_div_Z (a b : Z) (q : positive) :
  show_floor_div (number_sub (Some (inject_Z a)) (Some (inject_Z b))) (inject_Z (Zpos q))
  = show_integer ((a - b) / Zpos q).
Proof.
  unfold show_floor_div, number_sub. f_equal.
  rewrite inject_Z_sub. apply Qfloor_div_Z.
Qed.

(** X3: for a timestamp of time [t] and [diff = Date.now() - t]
    milliseconds (of a size at which the division is exact),
    [formatTimeAgo] shows "Just now" below one minute, also for a
    timestamp in the future; whole minutes, 1 to 59, below one hour;
    whole hours, 1 to 23, below one day; whole days from then on. *)
Theorem formatTimeAgo_units (Date_now t : Z) (timestamp : value) :
  truthy timestamp = true ->
  timestamp_time Date_parse timestamp = Some (inject_Z t) ->
  (Z.abs (Date_now - t) < 2 ^ 52)%Z ->
  let diff := (Date_now - t)%Z in
  let shown := formatTimeAgo Date_parse Date_now timestamp in
  ((diff < 60000)%Z -> shown = "Just now") /\
  ((60000 <= diff < 3600000)%Z ->
   shown = digits (Z.to_N (diff / 60000)) ++ "m ago" /\ (1 <= diff / 60000 <= 59)%Z) /\
  ((3600000 <= diff < 86400000)%Z ->
   shown = digits (Z.to_N (diff / 3600000)) ++ "h ago" /\ (1 <= diff / 3600000 <= 23)%Z) /\
  ((86400000 <= diff)%Z ->
   shown = digits (Z.to_N (diff / 86400000)) ++ "d ago" /\ (1 <= diff / 86400000)%Z).
Proof.
  intros Htruthy Htime _. cbv zeta.
  unfold formatTimeAgo. rewrite Htruthy, Htime. cbn [negb].
  change 60000%Q with (inject_Z 60000).
  change 3600000%Q with (inject_Z 3600000).
  change 86400000%Q with (inject_Z 86400000).
  rewrite !number_lt_Z, !show_floor_div_Z.
  assert (Hshow : forall z, (0 <= z)%Z -> show_integer z = digits (Z.to_N z)).
  { intros z Hz. unfold show_integer.
    destruct (Z.ltb_spec z 0); [lia | reflexivity]. }
  destruct (Z.ltb_spec (Date_now - t) 60000);
    [| destruct (Z.ltb_spec (Date_now - t) 3600000);
       [| destruct (Z.ltb_spec (Date_now - t) 86400000)]];
    (split; [intros ? | split; [intros ? | split; intros ?]]);
    try lia; try reflexivity;
    (split;
     [ rewrite Hshow; [reflexivity | apply Z.div_pos; lia]
     | try split; try (apply Z.div_le_lower_bound; lia);
       apply Z.lt_succ_r; apply Z.div_lt_upper_bound; lia ]).
Qed.

(** X4: [formatTimeAgo] shows "Never" for a falsy timestamp (absent,
    [null], 0, the empty string) and "NaNd ago" for a string that is not
    empty and is not a date. *)
Theorem formatTimeAgo_never (Date_now : Z) (timestamp : value) (s : string) :
  (truthy timestamp = false -> formatTimeAgo Date_parse Date_now timestamp = "Never") /\
  (s <> "" -> Date_parse s = None ->
   formatTimeAgo Date_parse Date_now (VStr s) = "NaNd ago").
Proof.
  split.
  - intros H. unfold formatTimeAgo. rewrite H. reflexivity.
  - intros Hs Hparse. unfold formatTimeAgo. cbn [truthy timestamp_time].
    apply String.eqb_neq in Hs. rewrite Hs, Hparse. reflexivity.
Qed.

End TimeAgo.

Lemma formatTimeAgo_units_witness :
  View.formatTimeAgo iso8601_utc 1714548600000 (VStr "2024-05-01T06:00:00Z") = "1h ago".
Proof.
  pose proof (formatTimeAgo_units iso8601_utc 1714548600000 1714543200000
                (VStr "2024-05-01T06:00:00Z")) as H.
  cbv zeta in H.
  destruct H as (_ & _ & Hhours & _);
    [reflexivity | vm_compute; reflexivity | vm_compute; reflexivity |].
  destruct Hhours as [Hshown _]; [lia | exact Hshown].
Defined.

Lemma formatTimeAgo_never_witness :
  View.formatTimeAgo no_dates 0 VUndefined = "Never" /\
  View.formatTimeAgo no_dates 0 (VStr "soon") = "NaNd ago".
Proof.
  destruct (formatTimeAgo_never no_dates 0 VUndefined "soon") as [Hnever Hnan].
  split; [apply Hnever; reflexivity | apply Hnan; [discriminate | reflexivity]].
Defined.

(** ** The temperature of the card *)

Section TemperatureText.
Import View.

Lemma round_half_even_near (a b : Z) :
  (0 < b)%Z ->
  (- b <= 2 * (b * round_half_even a b - a) <= b)%Z.
Proof.
  intros Hb. unfold round_half_even.
  pose proof (Z.div_mod a b ltac:(lia)) as Hdiv.
  pose proof (Z.mod_pos_bound a b Hb) as Hmod.
  destruct (Z.compare_spec (2 * (a mod b)) b) as [E | L | G];
    [destruct (Z.even (a / b)) |..]; nia.
Qed.

Lemma binary_exponent_below (n d e : Z) :
  (0 < n)%Z -> (0 < d)%Z -> (0 <= e)%Z -> (n < d * 2 ^ e)%Z ->
  (binary_exponent n d < e)%Z.
Proof.
  intros Hn Hd He Hlt. unfold binary_exponent, pow2_le.
  set (e0 := (Z.log2 n - Z.log2 d)%Z).
  assert (Hle : (e0 <= e)%Z).
  { destruct (Z.log2_spec n Hn) as [Hn1 _]. destruct (Z.log2_spec d Hd) as [_ Hd2].
    assert (H : (2 ^ Z.log2 n < 2 ^ (Z.succ (Z.log2 d) + e))%Z).
    { rewrite Z.pow_add_r by (pose proof (Z.log2_nonneg d); lia).
      pose proof (Z.pow_pos_nonneg 2 e ltac:(lia) He). nia. }
    apply Z.pow_lt_mono_r_iff in H; [subst e0; lia | lia |].
    pose proof (Z.log2_nonneg d). lia. }
  destruct (Z.leb_spec 0 e0) as [H0 | H0].
  - destruct (Z.leb_spec (2 ^ e0 * d) n) as [H | H]; [| lia].
    assert (Hpow : (2 ^ e0 < 2 ^ e)%Z) by nia.
    apply Z.pow_lt_mono_r_iff in Hpow; lia.
  - destruct (d <=? n * 2 ^ (- e0))%Z; lia.
Qed.

(** Below [10 * 2^49] tenths the double nearest to [t / 10] still rounds
    to [t] tenths. *)
Lemma toFixed1_tenths (t : Z) :
  (Z.abs t < 10 * 2 ^ 49)%Z ->
  toFixed1 (convertTempFromX10 (Some (inject_Z t))) = tenths_numeral t.
Proof.
  intros Hbound. unfold convertTempFromX10. rewrite orb_diag.
  destruct (Qeq_bool (inject_Z t) 0) eqn:E.
  - apply Qeq_bool_iff in E.
    apply (proj1 (inject_Z_injective t 0)) in E. subst t. reflexivity.
  - assert (Ht : t <> 0%Z).
    { intros ->. discriminate E. }
    clear E.
    unfold toFixed1, nearest_double.
    change (Qnum (inject_Z t / 10)) with (t * 1)%Z.
    change (Zpos (Qden (inject_Z t / 10))) with 10%Z.
    rewrite Z.mul_1_r.
    destruct (Z.eqb_spec (Z.abs t) 0) as [H0 | _]; [lia |].
    pose proof (binary_exponent_below (Z.abs t) 10 49 ltac:(lia) ltac:(lia) ltac:(lia) Hbound)
      as Hexp.
    set (s := Z.max (binary_exponent (Z.abs t) 10 - 52) (-1074)).
    assert (Hs : (s <= -4)%Z) by (subst s; lia).
    destruct (Z.leb_spec 0 s) as [Hpos | _]; [lia |].
    set (P := (2 ^ (- s))%Z).
    assert (HP : (16 <= P)%Z).
    { subst P. change 16%Z with (2 ^ 4)%Z. apply Z.pow_le_mono_r; lia. }
    set (m := round_half_even (Z.abs t * P) 10).
    pose proof (round_half_even_near (Z.abs t * P) 10 ltac:(lia)) as Hnear.
    fold m in Hnear.
    assert (Hm : (0 < m)%Z) by nia.
    assert (HPpos : Zpos (Z.to_pos P) = P) by (apply Z2Pos.id; lia).
    assert (Hsmall : (m < 2 ^ 53 * P)%Z) by nia.
    assert (Hover : Qle_bool (inject_Z (2 ^ 1024)) (m # Z.to_pos P) = false).
    { apply not_true_iff_false. intros H. apply Qle_bool_iff in H.
      unfold Qle in H. cbn [Qnum Qden inject_Z] in H. rewrite HPpos in H.
      assert ((2 ^ 53 <= 2 ^ 1024)%Z) by (apply Z.pow_le_mono_r; lia). nia. }
    rewrite Hover.
    assert (Hfloor : forall q : Q, Qabs q == m # Z.to_pos P ->
              Qfloor (Qabs q * 10 + (1 # 2)) = Z.abs t).
    { intros q Hq. rewrite Hq.
      unfold Qfloor, Qmult, Qplus. cbn [Qnum Qden].
      rewrite !Pos2Z.inj_mul, HPpos.
      symmetry. apply (Z.div_unique _ _ _ (2 * (10 * m - Z.abs t * P) + P)); lia. }
    assert (Hlarge : forall q : Q, Qabs q == m # Z.to_pos P ->
              Qle_bool (inject_Z (10 ^ 21)) (Qabs q) = false).
    { intros q Hq. apply not_true_iff_false. intros H. apply Qle_bool_iff in H.
      rewrite Hq in H. unfold Qle in H. cbn [Qnum Qden inject_Z] in H.
      rewrite HPpos in H.
      assert ((2 ^ 53 < 10 ^ 21)%Z) by reflexivity. nia. }
    unfold tenths_numeral, fixed1.
    destruct (Z.ltb_spec t 0) as [Hneg | Hnonneg].
    + rewrite Hlarge, Hfloor.
      * replace (Qltb (- (m # Z.to_pos P)) 0) with true; [reflexivity |].
        symmetry. unfold Qltb. apply negb_true_iff. apply not_true_iff_false.
        intros H. apply Qle_bool_iff in H. unfold Qle in H. cbn in H. lia.
      * rewrite Qabs_opp. apply Qabs_pos. unfold Qle. cbn. lia.
      * rewrite Qabs_opp. apply Qabs_pos. unfold Qle. cbn. lia.
    + rewrite Hlarge, Hfloor.
      * replace (Qltb (m # Z.to_pos P) 0) with false; [reflexivity |].
        symmetry. unfold Qltb. apply negb_false_iff. apply Qle_bool_iff.
        unfold Qle. cbn. lia.
      * apply Qabs_pos. unfold Qle. cbn. lia.
      * apply Qabs_pos. unfold Qle. cbn. lia.
Qed.

(** X5: a soil temperature stored as the integer [t] of tenths of a
    degree, below [10 * 2^49] in size, is shown with its last digit after
    the point: 231 as "23.1", -5 as "-0.5", 0 as "0.0". *)
Theorem soilTemperatureCard_tenths (s : HookState) (liveData : value) (t : Z) :
  error_shown s = None ->
  loading s = false ->
  liveData_present s = Some liveData ->
  prop liveData "soil_temperature" = VNum (inject_Z t) ->
  (Z.abs t < 10 * 2 ^ 49)%Z ->
  soilTemperatureCard s = Temperature (tenths_numeral t).
Proof.
  intros He Hl Hd Ht Hbound. unfold soilTemperatureCard.
  rewrite He, Hl, Hd, Ht. cbn [convertTempFromX10_any Number_toFixed1].
  rewrite (toFixed1_tenths t Hbound). reflexivity.
Qed.

Lemma soilTemperatureCard_tenths_witness :
  soilTemperatureCard (displaying (VObj [("soil_temperature", VNum (-5))]))
  = Temperature "-0.5".
Proof.
  apply (soilTemperatureCard_tenths
           (displaying (VObj [("soil_temperature", VNum (-5))]))
           (VObj [("soil_temperature", VNum (-5))]) (-5)); reflexivity.
Defined.

(** From [10 * 2^49] tenths on the last digit can differ: the double
    nearest to 562949953421312.7 prints as 562949953421312.8.  A string of
    digits and a number with a fraction are divided like a number. *)
Example soilTemperatureCard_examples :
  map (fun v => soilTemperatureCard (displaying (VObj [("soil_temperature", v)])))
      [VNum 5629499534213127; VStr "231"; VNum (35 # 10); VStr "n/a"]
  = [Temperature "562949953421312.8"; Temperature "23.1"; Temperature "0.3";
     Temperature "NaN"].
Proof. vm_compute. reflexivity. Qed.

End TemperatureText.

(** ** The irrigation chart and the list of recent events *)

Section SortedLists.
Context {A : Type}.
Variable R : A -> A -> Prop.

Lemma StronglySorted_firstn (n : nat) (l : list A) :
  StronglySorted R l -> StronglySorted R (firstn n l).
Proof.
  intros H. revert n. induction H as [| x l Hl IH Hx]; intros n.
  - rewrite firstn_nil. constructor.
  - destruct n as [| n]; cbn; constructor.
    + apply IH.
    + rewrite Forall_forall in *. intros y Hy. apply Hx.
      rewrite <- (firstn_skipn n l). apply in_or_app. left. exact Hy.
Qed.

Lemma StronglySorted_filter (keep : A -> bool) (l : list A) :
  StronglySorted R l -> StronglySorted R (filter keep l).
Proof.
  intros H. induction H as [| x l Hl IH Hx]; cbn; [constructor |].
  destruct (keep x); [| exact IH].
  constructor; [exact IH |].
  rewrite Forall_forall in *. intros y Hy. apply Hx.
  apply filter_In in Hy. apply Hy.
Qed.

End SortedLists.

Section EventViews.

Context {engine : ArraySort}.
Import View.
Variable toLocaleDateString : value -> string.
Variable toLocaleString : value -> string.
Variable Date_parse : string -> option Z.

Lemma is_started_defined (event : value) :
  nullish event = false -> is_started event = Normal (started event).
Proof. destruct event; cbn; solve [discriminate | reflexivity]. Qed.

Lemma is_started_throws (event : value) :
  nullish event = true -> exists err, is_started event = Throw err.
Proof. destruct event; cbn; try discriminate; intros _; eexists; reflexivity. Qed.

Lemma filter_throwing_defined (events : list value) :
  existsb nullish events = false ->
  filter_throwing is_started events = Normal (filter started events).
Proof.
  induction events as [| e events IH]; [reflexivity |].
  cbn [existsb filter_throwing filter]. intros H.
  apply orb_false_iff in H. destruct H as [He Hrest].
  rewrite (is_started_defined e He), (IH Hrest). destruct (started e); reflexivity.
Qed.

Lemma filter_throwing_throws (events : list value) :
  existsb nullish events = true ->
  exists err, filter_throwing is_started events = Throw err.
Proof.
  induction events as [| e events IH]; [discriminate |].
  cbn [existsb filter_throwing]. intros H.
  destruct (nullish e) eqn:He.
  - destruct (is_started_throws e He) as [err ->]. eexists; reflexivity.
  - rewrite (is_started_defined e He). cbn in H.
    destruct (IH H) as [err ->]. eexists; reflexivity.
Qed.

Lemma slice_last_length {A : Type} (n : nat) (l : list A) :
  List.length (slice_last n l) = Nat.min n (List.length l).
Proof. unfold slice_last. rewrite length_skipn. lia. Qed.

Lemma formatIrrigationData_defined (events : list value) :
  existsb nullish events = false ->
  formatIrrigationData toLocaleDateString events
  = Normal (map (irrigation_point toLocaleDateString)
                (slice_last 7 (filter started events))).
Proof.
  intros E. unfold formatIrrigationData.
  destruct events as [| e events]; [reflexivity |].
  rewrite (filter_throwing_defined (e :: events) E). reflexivity.
Qed.

(** X6: [formatIrrigationData] throws exactly when an event of the list
    is [undefined] or [null]; otherwise it charts the last seven of the
    events named "started", in their order, one point each. *)
Theorem formatIrrigationData_started (events : list value) :
  match formatIrrigationData toLocaleDateString events with
  | Normal points =>
      existsb nullish events = false /\
      points = map (irrigation_point toLocaleDateString)
                   (slice_last 7 (filter started events)) /\
      List.length points = Nat.min 7 (List.length (filter started events))
  | Throw _ => existsb nullish events = true
  end.
Proof.
  unfold formatIrrigationData.
  destruct (existsb nullish events) eqn:E.
  - destruct events as [| e events]; [discriminate |].
    destruct (filter_throwing_throws (e :: events) E) as [err ->]. reflexivity.
  - destruct events as [| e events]; [repeat split |].
    rewrite (filter_throwing_defined (e :: events) E).
    split; [reflexivity |]. split; [reflexivity |].
    rewrite length_map. apply slice_last_length.
Qed.

(** What [fetchIrrigationEvents] leaves in the state when the log is
    fetched. *)
Lemma fetchIrrigationEvents_stores
  (deviceId : string) (net : Remote) (w : World) (snapshot : value) :
  rtdb_get net (irrigation_log_path deviceId) = Fulfilled snapshot ->
  hook (exec (fetchIrrigationEvents deviceId Date_parse net) w)
  = with_irrigationEvents (recent_events Date_parse snapshot) (hook w).
Proof.
  intros Hget.
  assert (Hrun : exec (fetchIrrigationEvents deviceId Date_parse net) w
                 = snd (fetchIrrigationEvents_resume deviceId Date_parse net
                          (exec (send (RtdbGet (irrigation_log_path deviceId))) w)))
    by reflexivity.
  rewrite Hrun, fetchIrrigationEvents_resume_run, Hget. cbn [snd hook].
  destruct (snapshot_exists snapshot) eqn:E; [reflexivity |].
  rewrite (recent_events_nullish _ _ E). reflexivity.
Qed.

Lemma recent_events_objects (snapshot : value) :
  Forall (fun e => is_object e = true) (recent_events Date_parse snapshot) /\
  (List.length (recent_events Date_parse snapshot) <= 20)%nat.
Proof.
  unfold recent_events, slice_first. split.
  - rewrite Forall_forall. intros e He.
    assert (Hin : In e (filter is_object (snapshot_children snapshot))).
    { apply (Permutation_in _ (Array_sort_perm (newest_first Date_parse) _)).
      rewrite <- (firstn_skipn 20 (Array_sort _ _)). apply in_or_app. left. exact He. }
    apply filter_In in Hin. apply Hin.
  - rewrite length_firstn. lia.
Qed.


Lemma recent_events_sorted (snapshot : value) :
  forallb (has_time Date_parse) (filter is_object (snapshot_children snapshot)) = true ->
  StronglySorted (descending (time_of Date_parse)) (recent_events Date_parse snapshot).
Proof.
  intros Hvalid. unfold recent_events, slice_first.
  apply StronglySorted_firstn. apply Array_sort_sorted.
  apply newest_first_keys. exact Hvalid.
Qed.

Lemma objects_not_nullish (events : list value) :
  Forall (fun e => is_object e = true) events -> existsb nullish events = false.
Proof.
  induction 1 as [| e events He _ IH]; [reflexivity |].
  cbn. rewrite IH. destruct e; try discriminate; reflexivity.
Qed.

(** X7: the irrigation chart of the events [fetchIrrigationEvents] has
    stored never throws, and it charts the END of the newest-first list:
    of the stored "started" events, the seven oldest.  Every charted
    event is at most as recent as every "started" event left out. *)
Theorem irrigation_chart_after_fetch
  (deviceId : string) (net : Remote) (w : World) (snapshot : value) :
  rtdb_get net (irrigation_log_path deviceId) = Fulfilled snapshot ->
  forallb (has_time Date_parse) (filter is_object (snapshot_children snapshot)) = true ->
  let stored :=
    irrigationEvents (hook (exec (fetchIrrigationEvents deviceId Date_parse net) w)) in
  let started_events := filter started stored in
  let dropped := (List.length started_events - 7)%nat in
  formatIrrigationData toLocaleDateString stored
  = Normal (map (irrigation_point toLocaleDateString) (skipn dropped started_events)) /\
  forall charted left_out,
    In charted (skipn dropped started_events) ->
    In left_out (firstn dropped started_events) ->
    (time_of Date_parse charted <= time_of Date_parse left_out)%Z.
Proof.
  intros Hget Hvalid. cbv zeta.
  rewrite (fetchIrrigationEvents_stores deviceId net w snapshot Hget).
  cbn [irrigationEvents with_irrigationEvents].
  destruct (recent_events_objects snapshot) as [Hobjects _].
  rewrite (formatIrrigationData_defined _ (objects_not_nullish _ Hobjects)).
  split; [reflexivity |].
  intros charted left_out Hc Hl.
  apply (sorted_prefix_dominates (time_of Date_parse)
           (filter started (recent_events Date_parse snapshot))
           (List.length (filter started (recent_events Date_parse snapshot)) - 7)
           left_out charted); [| exact Hl | exact Hc].
  apply StronglySorted_filter. apply recent_events_sorted. exact Hvalid.
Qed.







End EventViews.

(** Of 22 events of May, all "started", the 20 newest are stored and the
    chart shows the days 3 to 9, last to first. *)
Lemma irrigation_chart_after_fetch_witness :
  option_map (map View.Irrigation.date)
    (match View.formatIrrigationData as_stored
             (irrigationEvents
                (hook (exec (fetchIrrigationEvents "AF001" iso8601_utc (serves_log long_log))
                            empty_world))) with
     | Normal points => Some points
     | Throw _ => None
     end)
  = Some (map (fun day => "2024-05-" ++ two_digits day ++ "T06:00:00Z") (rev (seq 3 7))).
Proof.
  pose proof (irrigation_chart_after_fetch as_stored iso8601_utc
                "AF001" (serves_log long_log) empty_world long_log) as H.
  cbv zeta in H.
  destruct H as [Hchart _]; [reflexivity | vm_compute; reflexivity |].
  rewrite Hchart. vm_compute. reflexivity.
Defined.


(* ===================================================================== *)
(** * The rest of the hook *)
(* ===================================================================== *)

(** ** The subscriptions *)

Section Subscriptions.

Context {engine : ArraySort}.
Import View.

(** X9: when the live subscription fails the hook keeps the last reading
    and its time, is no longer connected, and the card shows the alert
    "Failed to connect to Firebase: Real-time connection failed: ..."
    whatever the state was. *)
Theorem onLiveData_error (now : string) (err : Exn) (w : World) :
  let w' := exec (onLiveData now (ListenerError err)) w in
  hook w' = with_connected false
              (with_error (Some ("Real-time connection failed: " ++ exn_message err))
                          (hook w)) /\
  currentData (hook w') = currentData (hook w) /\
  lastUpdate (hook w') = lastUpdate (hook w) /\
  soilTemperatureCard (hook w')
  = ErrorAlert ("Failed to connect to Firebase: Real-time connection failed: "
                ++ exn_message err).
Proof.
  cbv zeta. unfold onLiveData, exec.
  destruct w as [[cd hd ie ds ld er cn lu] pl lr dr cons snt]. cbn.
  repeat split.
Qed.

(** X10: the next reading the subscription delivers undoes a failure of
    the subscription: the state is the one the reading alone would have
    given, connected and with no error to show. *)
Theorem onLiveData_recovers
  (now now' : string) (err : Exn) (snapshot : value) (w : World) :
  snapshot_exists snapshot = true ->
  let failed := exec (onLiveData now (ListenerError err)) w in
  let recovered := exec (onLiveData now' (Snapshot snapshot)) failed in
  hook recovered = hook (exec (onLiveData now' (Snapshot snapshot)) w) /\
  connected (hook recovered) = true /\
  currentData (hook recovered) = Some snapshot /\
  error_shown (hook recovered) = None.
Proof.
  intros Hexists. cbv zeta. unfold onLiveData, exec. rewrite Hexists.
  destruct w as [[cd hd ie ds ld er cn lu] pl lr dr cons snt]. repeat split.
Qed.

(** X11: mounting subscribes to the two paths of the device before any
    read and keeps, in each ref, the function [onValue] returned.
    Unmounting hands that function to [off] as the callback to detach and
    clears the refs; it is not the callback that was attached, so both
    listeners of the mount are still attached afterwards.  Every request in
    between is a one-shot read, and unmounting leaves the state of the hook
    as it is. *)
Theorem mount_then_unmount
  (deviceId now : string) (Date_parse : string -> option Z) (net : Remote) (w : World) :
  let mounted := exec (initialize deviceId now Date_parse net) w in
  let unmounted := exec (cleanup deviceId) mounted in
  let live := live_monitoring_path deviceId in
  let status := device_status_path deviceId in
  liveDataRef mounted = Some (Unsubscribe live) /\
  deviceStatusRef mounted = Some (Unsubscribe status) /\
  loading (hook mounted) = false /\
  liveDataRef unmounted = None /\
  deviceStatusRef unmounted = None /\
  hook unmounted = hook mounted /\
  (exists reads,
     sent unmounted
     = (sent w ++ [RtdbOnValue live; RtdbOnValue status]
          ++ reads
          ++ [RtdbOff live (Unsubscribe live); RtdbOff status (Unsubscribe status)])%list /\
     forallb one_shot reads = true) /\
  listeners mounted = (listeners w ++ [live; status])%list /\
  listeners unmounted = listeners mounted.
Proof.
  cbv zeta.
  remember (exec (initialize deviceId now Date_parse net) w) as mounted eqn:Hmounted.
  revert Hmounted. unfold initialize, setupRealTimeListeners.
  run_refresh net; settle_fetches net deviceId; settle_snapshots net deviceId;
    intros ->; unfold cleanup, listeners, exec, bind;
    cbn -[irrigation_log_path live_monitoring_path device_status_path historical_query
          fold_left];
    rewrite <- ?app_assoc; cbn [app];
    rewrite ?fold_left_app; cbn [fold_left listen]; rewrite <- ?app_assoc; cbn [app];
    (repeat match goal with |- _ /\ _ => split end; try reflexivity);
    first
      [ exists [FirestoreGetDocs historical_query;
                RtdbGet (irrigation_log_path deviceId);
                RtdbGet (live_monitoring_path deviceId);
                RtdbGet (device_status_path deviceId)];
        split; reflexivity
      | exists [FirestoreGetDocs historical_query;
                RtdbGet (irrigation_log_path deviceId);
                RtdbGet (live_monitoring_path deviceId)];
        split; reflexivity ].
Qed.

(** [off] detaches a listener when it is handed the callback that was
    attached. *)
Example listen_examples :
  map (fold_left listen
         [RtdbOnValue "live_monitoring/AF001"; RtdbOnValue "device_status/AF001"])
      [[]; ["irrigation_log/AF001"]]
  = [["live_monitoring/AF001"; "device_status/AF001"];
     ["irrigation_log/AF001"; "live_monitoring/AF001"; "device_status/AF001"]] /\
  map (listen ["live_monitoring/AF001"; "device_status/AF001"])
      [RtdbOff "live_monitoring/AF001" (SnapshotCallback "live_monitoring/AF001");
       RtdbOff "live_monitoring/AF001" (Unsubscribe "live_monitoring/AF001");
       RtdbOff "live_monitoring/AF001" (SnapshotCallback "device_status/AF001")]
  = [["device_status/AF001"];
     ["live_monitoring/AF001"; "device_status/AF001"];
     ["live_monitoring/AF001"; "device_status/AF001"]].
Proof. split; reflexivity. Qed.

(** X12: [cleanup] can run twice: the second run changes nothing, a run
    with no subscription open changes nothing at all, and after a run no
    subscription is recorded. *)
Theorem cleanup_idempotent (deviceId : string) (w : World) :
  exec (cleanup deviceId) (exec (cleanup deviceId) w) = exec (cleanup deviceId) w /\
  (liveDataRef w = None -> deviceStatusRef w = None -> exec (cleanup deviceId) w = w) /\
  liveDataRef (exec (cleanup deviceId) w) = None /\
  deviceStatusRef (exec (cleanup deviceId) w) = None.
Proof.
  unfold cleanup, exec, bind.
  destruct w as [s pl [lr |] [dr |] cons snt];
    cbn -[live_monitoring_path device_status_path];
    repeat split; intros; try discriminate; reflexivity.
Qed.

End Subscriptions.

Lemma onLiveData_recovers_witness :
  let failed := exec (onLiveData "2024-05-01T10:02:00.000Z" (ListenerError network_error))
                     loaded_world in
  let recovered := exec (onLiveData "2024-05-01T10:03:00.000Z" (Snapshot sample_live))
                        failed in
  View.error_shown (hook failed) <> None /\
  connected (hook recovered) = true /\
  View.error_shown (hook recovered) = None.
Proof.
  pose proof (onLiveData_recovers "2024-05-01T10:02:00.000Z" "2024-05-01T10:03:00.000Z"
                network_error sample_live loaded_world eq_refl) as H.
  cbv zeta in *. destruct H as (_ & Hconnected & _ & Herror).
  split; [discriminate | split; [exact Hconnected | exact Herror]].
Defined.

Lemma mount_then_unmount_witness :
  let mounted :=
    exec (initialize "AF001" "2024-05-01T10:05:00.000Z" iso8601_utc all_served)
         empty_world in
  listeners (exec (cleanup "AF001") mounted)
  = ["live_monitoring/AF001"; "device_status/AF001"] /\
  liveDataRef (exec (cleanup "AF001") mounted) = None.
Proof.
  pose proof (mount_then_unmount "AF001" "2024-05-01T10:05:00.000Z" iso8601_utc all_served
                empty_world) as H.
  cbv zeta in *.
  destruct H as (_ & _ & _ & Href & _ & _ & _ & Hmounted & Hunmounted).
  split; [rewrite Hunmounted, Hmounted; reflexivity | exact Href].
Defined.

Lemma cleanup_idempotent_witness :
  exec (cleanup "AF001") empty_world = empty_world.
Proof.
  destruct (cleanup_idempotent "AF001" empty_world) as (_ & Hnone & _).
  apply Hnone; reflexivity.
Defined.

(** ** The fetches *)

Section Fetches.

Context {engine : ArraySort}.
Variable Date_parse : string -> option Z.

Lemma decode_all (deviceId : string) (docs : list Doc) :
  forallb convertible docs = true ->
  map Some (filter_map (decode deviceId) docs) = map (decode deviceId) docs.
Proof.
  induction docs as [| doc docs IH]; [reflexivity |]. intros Hall.
  cbn in Hall. apply andb_true_iff in Hall. destruct Hall as [Hdoc Hrest].
  destruct (decode_convertible deviceId doc Hdoc) as (r & Hr & _).
  cbn. rewrite Hr. cbn. f_equal. apply IH. exact Hrest.
Qed.

(** X13: when every document of the answer can be converted,
    [fetchHistoricalData] stores one reading for each document, in the
    order of the answer, and leaves the error as it is. *)
Theorem fetchHistoricalData_one_to_one
  (deviceId : string) (net : Remote) (w : World) (docs : list Doc) :
  firestore_getDocs net historical_query = Fulfilled docs ->
  forallb convertible docs = true ->
  let stored := historicalData (hook (exec (fetchHistoricalData deviceId net) w)) in
  map Some stored = map (decode deviceId) docs /\
  List.length stored = List.length docs /\
  error (hook (exec (fetchHistoricalData deviceId net) w)) = error (hook w).
Proof.
  intros Hdocs Hall. cbv zeta.
  destruct (fetchHistoricalData_stores deviceId net w docs Hdocs) as (-> & _).
  cbn [historicalData with_historicalData error].
  pose proof (decode_all deviceId docs Hall) as H.
  split; [exact H |]. split; [| reflexivity].
  apply (f_equal (@List.length _)) in H. rewrite !length_map in H. exact H.
Qed.

(** The string of an error in a message: the name and the message, or
    the one of them that is not empty. *)
Example Exn_toString_examples :
  map Exn_toString [mkExn "FirebaseError" "Network Error"; mkExn "Error" "";
                    mkExn "" "offline"; mkExn "" ""]
  = ["FirebaseError: Network Error"; "Error"; "offline"; ""].
Proof. reflexivity. Qed.

(** X14: [fetchIrrigationEvents] never throws.  A log that does not
    exist empties the stored events and changes nothing else; a failed
    read keeps the stored events and sets the error "Failed to fetch
    irrigation events: ...". *)
Theorem fetchIrrigationEvents_empty_or_failed
  (deviceId : string) (net : Remote) (w : World) :
  let fetch := fetchIrrigationEvents deviceId Date_parse net in
  result fetch w = Normal tt /\
  (forall snapshot,
     rtdb_get net (irrigation_log_path deviceId) = Fulfilled snapshot ->
     snapshot_exists snapshot = false ->
     hook (exec fetch w) = with_irrigationEvents [] (hook w)) /\
  (forall err,
     rtdb_get net (irrigation_log_path deviceId) = Rejected err ->
     hook (exec fetch w)
     = with_error (Some ("Failed to fetch irrigation events: " ++ Exn_toString err))
                  (hook w)).
Proof.
  cbv zeta.
  assert (Hrun : fetchIrrigationEvents deviceId Date_parse net w
                 = fetchIrrigationEvents_resume deviceId Date_parse net
                     (exec (send (RtdbGet (irrigation_log_path deviceId))) w))
    by reflexivity.
  unfold result, exec. rewrite Hrun, fetchIrrigationEvents_resume_run. cbn [fst snd].
  split; [reflexivity |]. split.
  - intros snapshot -> Hempty. rewrite Hempty. reflexivity.
  - intros err ->. reflexivity.
Qed.

End Fetches.

Section HistoryChart.
Import View.
Variable toLocaleTimeString : value -> string.

Lemma filter_map_skipn {A B : Type} (f : A -> option B) (k : nat) (l : list A) :
  forallb (fun x => match f x with Some _ => true | None => false end) l = true ->
  filter_map f (skipn k l) = skipn k (filter_map f l).
Proof.
  revert k. induction l as [| x l IH]; intros k H.
  - rewrite skipn_nil. cbn. rewrite skipn_nil. reflexivity.
  - cbn in H. apply andb_true_iff in H. destruct H as [Hx Hl].
    destruct k as [| k]; [reflexivity |].
    cbn. destruct (f x); [| discriminate]. cbn. apply IH. exact Hl.
Qed.

Lemma convertible_defined (deviceId : string) (docs : list Doc) :
  forallb convertible docs = true ->
  forallb (fun doc => match decode deviceId doc with Some _ => true | None => false end)
          docs = true.
Proof.
  induction docs as [| doc docs IH]; [reflexivity |]. intros H.
  cbn in H. apply andb_true_iff in H. destruct H as [Hdoc Hrest].
  destruct (decode_convertible deviceId doc Hdoc) as (r & Hr & _).
  cbn. rewrite Hr. apply IH. exact Hrest.
Qed.

(** X15: the history chart of what [fetchHistoricalData] has stored has
    one point for each of the LAST 24 documents of the answer, in the
    order of the answer; the documents before them are not charted. *)
Theorem chart_after_fetch
  (deviceId : string) (net : Remote) (w : World) (docs : list Doc) :
  firestore_getDocs net historical_query = Fulfilled docs ->
  forallb convertible docs = true ->
  let stored := historicalData (hook (exec (fetchHistoricalData deviceId net) w)) in
  formatHistoricalData toLocaleTimeString stored
  = map (chart_point toLocaleTimeString)
        (filter_map (decode deviceId) (skipn (List.length docs - 24) docs)) /\
  List.length (formatHistoricalData toLocaleTimeString stored)
  = Nat.min 24 (List.length docs).
Proof.
  intros Hdocs Hall. cbv zeta.
  destruct (fetchHistoricalData_stores deviceId net w docs Hdocs) as (-> & _).
  cbn [historicalData with_historicalData].
  assert (Hlen : List.length (filter_map (decode deviceId) docs) = List.length docs).
  { rewrite (filter_map_length _ convertible).
    - clear Hdocs. induction docs as [| d docs IH]; [reflexivity |].
      cbn in *. apply andb_true_iff in Hall. destruct Hall as [-> Hrest].
      cbn. f_equal. apply IH. exact Hrest.
    - intro doc. apply convertible_decode. }
  rewrite formatHistoricalData_slice, Hlen.
  rewrite (filter_map_skipn _ _ _ (convertible_defined deviceId docs Hall)).
  split; [reflexivity |].
  rewrite length_map, length_skipn, Hlen. lia.
Qed.

End HistoryChart.

(** Documents as the REST API encodes them: the string of digits is
    divided like a number. *)
Example chart_of_rest_documents :
  map View.soilTemp
      (View.formatHistoricalData as_stored
         (historicalData
            (hook (exec (fetchHistoricalData "AF001"
                           (answers_with [rest_doc "AF001" "231"; rest_doc "AF001" "n/a"]))
                        empty_world))))
  = [Finite (231 / 10); NaN].
Proof. vm_compute. reflexivity. Qed.

Lemma fetchHistoricalData_one_to_one_witness :
  List.length
    (historicalData
       (hook (exec (fetchHistoricalData "AF001" (answers_with (docs_of_days (seq 1 30))))
                   empty_world)))
  = 30%nat.
Proof.
  pose proof (fetchHistoricalData_one_to_one "AF001" (answers_with (docs_of_days (seq 1 30)))
                empty_world (docs_of_days (seq 1 30)) eq_refl) as H.
  cbv zeta in H. destruct H as (_ & Hlength & _); [vm_compute; reflexivity |].
  exact Hlength.
Defined.

Lemma fetchIrrigationEvents_empty_or_failed_witness :
  irrigationEvents
    (hook (exec (fetchIrrigationEvents "AF001" iso8601_utc empty_database) loaded_world))
  = [] /\
  irrigationEvents
    (hook (exec (fetchIrrigationEvents "AF001" iso8601_utc fetches_fail) loaded_world))
  = [sample_event].
Proof.
  split.
  - destruct (fetchIrrigationEvents_empty_or_failed iso8601_utc "AF001" empty_database
                loaded_world) as (_ & Hempty & _).
    rewrite (Hempty VNull eq_refl eq_refl). reflexivity.
  - destruct (fetchIrrigationEvents_empty_or_failed iso8601_utc "AF001" fetches_fail
                loaded_world) as (_ & _ & Hfailed).
    rewrite (Hfailed network_error eq_refl). reflexivity.
Defined.

(** Of 30 readings, the chart shows the days 7 to 30. *)
Lemma chart_after_fetch_witness :
  map View.soilTemp
      (View.formatHistoricalData as_stored
         (historicalData
            (hook (exec (fetchHistoricalData "AF001" (answers_with (docs_of_days (seq 1 30))))
                        empty_world))))
  = map (fun day => Finite (Z.of_nat day # 10)) (seq 7 24).
Proof.
  pose proof (chart_after_fetch as_stored "AF001" (answers_with (docs_of_days (seq 1 30)))
                empty_world (docs_of_days (seq 1 30)) eq_refl) as H.
  cbv zeta in H. destruct H as [Hchart _]; [vm_compute; reflexivity |].
  rewrite Hchart. vm_compute. reflexivity.
Defined.

(** ** Refreshing *)

Section RefreshMore.

Context {engine : ArraySort}.

(** X16: the periodic refresh never throws and touches only the history,
    the events and the error: it never shows the loading state, never
    changes the live reading, the device status, the connection flag or
    the time of the last update, and never clears an error; when both
    fetches succeed the error is as it was. *)
Theorem auto_refresh_frame
  (deviceId : string) (Date_parse : string -> option Z) (net : Remote) (w : World) :
  let tick := auto_refresh deviceId Date_parse net in
  let w' := exec tick w in
  result tick w = Normal tt /\
  loading (hook w') = loading (hook w) /\
  currentData (hook w') = currentData (hook w) /\
  connected (hook w') = connected (hook w) /\
  lastUpdate (hook w') = lastUpdate (hook w) /\
  deviceStatus (hook w') = deviceStatus (hook w) /\
  (error (hook w) <> None -> error (hook w') <> None) /\
  ((exists docs, firestore_getDocs net historical_query = Fulfilled docs) ->
   (exists log, rtdb_get net (irrigation_log_path deviceId) = Fulfilled log) ->
   error (hook w') = error (hook w)).
Proof.
  cbv zeta.
  split; [run_auto_refresh net; settle_fetches net deviceId; reflexivity |].
  name_final_world.
  run_auto_refresh net; settle_fetches net deviceId; intros ->; cbn;
    repeat split; intros; try discriminate; try assumption;
    repeat match goal with H : exists _, _ |- _ => destruct H end; discriminate.
Qed.

(** X17: when the four reads of [refreshData] succeed and both snapshots
    exist, the whole state of the hook is the one read: nothing of the
    earlier state is left.  The events are the first 20 of the object
    entries of the log as the engine sorts them. *)
Theorem refreshData_success
  (deviceId now : string) (Date_parse : string -> option Z) (net : Remote) (w : World)
  (docs : list Doc) (log live status : value) :
  firestore_getDocs net historical_query = Fulfilled docs ->
  rtdb_get net (irrigation_log_path deviceId) = Fulfilled log ->
  rtdb_get net (live_monitoring_path deviceId) = Fulfilled live ->
  rtdb_get net (device_status_path deviceId) = Fulfilled status ->
  snapshot_exists live = true ->
  snapshot_exists status = true ->
  hook (exec (refreshData deviceId now Date_parse net) w)
  = {| currentData := Some live;
       historicalData := filter_map (decode deviceId) docs;
       irrigationEvents := recent_events Date_parse log;
       deviceStatus := Some status;
       loading := false;
       error := None;
       connected := true;
       lastUpdate := Some now |}.
Proof.
  intros Hdocs Hlog Hlive Hstatus Elive Estatus.
  assert (Hevents : (if snapshot_exists log then recent_events Date_parse log else [])
                    = recent_events Date_parse log).
  { destruct (snapshot_exists log) eqn:E; [reflexivity |].
    rewrite (recent_events_nullish _ _ E). reflexivity. }
  run_refresh net; rewrite Hdocs, Hlog; keep_paths;
    rewrite Hlive; keep_paths; rewrite Elive; keep_paths;
    rewrite Hstatus; keep_paths; rewrite Estatus; keep_paths;
    rewrite Hevents; reflexivity.
Qed.

(** X18: a failed read of the live reading ends [refreshData] before the
    device status is requested, with the error "Failed to refresh data:
    ..." and the reading, the status and the connection flag as they
    were; a failed read of the device status comes after the live reading
    is stored.  In both cases the history fetched before is stored. *)
Theorem refreshData_snapshot_rejected
  (deviceId now : string) (Date_parse : string -> option Z) (net : Remote) (w : World)
  (err : Exn) :
  let w' := exec (refreshData deviceId now Date_parse net) w in
  (rtdb_get net (live_monitoring_path deviceId) = Rejected err ->
   sent w' = (sent w ++ [FirestoreGetDocs historical_query;
                         RtdbGet (irrigation_log_path deviceId);
                         RtdbGet (live_monitoring_path deviceId)])%list /\
   currentData (hook w') = currentData (hook w) /\
   connected (hook w') = connected (hook w) /\
   lastUpdate (hook w') = lastUpdate (hook w) /\
   deviceStatus (hook w') = deviceStatus (hook w) /\
   error (hook w') = Some ("Failed to refresh data: " ++ Exn_toString err)) /\
  (forall live,
     rtdb_get net (live_monitoring_path deviceId) = Fulfilled live ->
     snapshot_exists live = true ->
     rtdb_get net (device_status_path deviceId) = Rejected err ->
     currentData (hook w') = Some live /\
     connected (hook w') = true /\
     lastUpdate (hook w') = Some now /\
     deviceStatus (hook w') = deviceStatus (hook w) /\
     error (hook w') = Some ("Failed to refresh data: " ++ Exn_toString err)) /\
  (forall docs,
     firestore_getDocs net historical_query = Fulfilled docs ->
     historicalData (hook w') = filter_map (decode deviceId) docs).
Proof.
  cbv zeta. split; [| split].
  - intros Hlive. name_final_world.
    run_refresh net; settle_fetches net deviceId; rewrite Hlive; keep_paths;
      intros ->; rewrite <- ?app_assoc; repeat split.
  - intros live Hlive Elive Hstatus. name_final_world.
    run_refresh net; settle_fetches net deviceId; rewrite Hlive; keep_paths;
      rewrite Elive; keep_paths; rewrite Hstatus; keep_paths; intros ->; repeat split.
  - intros docs Hdocs.
    run_refresh net; rewrite Hdocs;
      destruct (rtdb_get net (irrigation_log_path deviceId)); keep_paths;
      settle_snapshots net deviceId; reflexivity.
Qed.

End RefreshMore.

Section RefreshComposition.

Context {engine : ArraySort}.
Variable deviceId : string.
Variable now : string.
Variable Date_parse : string -> option Z.
Variable net : Remote.

(** [refreshData] changes the state of the hook as [refreshed] says. *)
Lemma refreshData_refreshed (w : World) :
  hook (exec (refreshData deviceId now Date_parse net) w)
  = refreshed deviceId now Date_parse net (hook w).
Proof.
  unfold refreshed, snapshots_taken, both_fetched, history_fetched, events_fetched.
  name_final_world.
  run_refresh net; settle_fetches net deviceId; settle_snapshots net deviceId;
    intros ->; reflexivity.
Qed.

(** The periodic refresh changes it as [both_fetched] says. *)
Lemma auto_refresh_fetched (w : World) :
  hook (exec (auto_refresh deviceId Date_parse net) w)
  = both_fetched deviceId Date_parse net (hook w).
Proof.
  unfold both_fetched, history_fetched, events_fetched.
  name_final_world.
  run_auto_refresh net; settle_fetches net deviceId; intros ->; reflexivity.
Qed.

Ltac settle_refreshed :=
  unfold refreshed, snapshots_taken, both_fetched, history_fetched, events_fetched;
  destruct (history_settles_first net);
  destruct (firestore_getDocs net historical_query);
  destruct (rtdb_get net (irrigation_log_path deviceId)).

Ltac compare_states :=
  cbv [with_loading with_error with_historicalData with_irrigationEvents
       with_currentData with_connected with_lastUpdate with_deviceStatus
       currentData historicalData irrigationEvents deviceStatus loading error
       connected lastUpdate];
  reflexivity.

(** X19: refreshing twice against the same answers gives the state of
    refreshing once, whichever reads fail: no failure of the first run is
    left in the state and none accumulates. *)
Theorem refreshData_idempotent (w : World) :
  let refresh := refreshData deviceId now Date_parse net in
  hook (exec refresh (exec refresh w)) = hook (exec refresh w).
Proof.
  cbv zeta. rewrite !refreshData_refreshed.
  destruct (hook w) as [cd hd ie ds ld er cn lu].
  settle_refreshed;
    (destruct (rtdb_get net (live_monitoring_path deviceId)) as [live | err];
     [ destruct (snapshot_exists live);
       (destruct (rtdb_get net (device_status_path deviceId)) as [status | err];
        [destruct (snapshot_exists status) |]) |]);
    compare_states.
Qed.

(** X20: a periodic refresh that follows a refresh and gets the same
    answers changes nothing, when the two snapshot reads of the refresh
    did not fail. *)
Theorem auto_refresh_after_refresh (w : World) :
  (forall err, rtdb_get net (live_monitoring_path deviceId) <> Rejected err) ->
  (forall err, rtdb_get net (device_status_path deviceId) <> Rejected err) ->
  hook (exec (auto_refresh deviceId Date_parse net)
             (exec (refreshData deviceId now Date_parse net) w))
  = hook (exec (refreshData deviceId now Date_parse net) w).
Proof.
  intros Hlive Hstatus.
  rewrite auto_refresh_fetched, !refreshData_refreshed.
  destruct (hook w) as [cd hd ie ds ld er cn lu].
  settle_refreshed;
    (destruct (rtdb_get net (live_monitoring_path deviceId)) as [live | err];
     [ destruct (snapshot_exists live);
       (destruct (rtdb_get net (device_status_path deviceId)) as [status | err];
        [destruct (snapshot_exists status) | exfalso; apply (Hstatus err); reflexivity])
     | exfalso; apply (Hlive err); reflexivity ]);
    compare_states.
Qed.

End RefreshComposition.

Lemma auto_refresh_frame_witness :
  let w' := exec (auto_refresh "AF001" iso8601_utc all_served) failed_world in
  error (hook failed_world) <> None /\
  error (hook w') = error (hook failed_world).
Proof.
  pose proof (auto_refresh_frame "AF001" iso8601_utc all_served failed_world) as H.
  cbv zeta in *. destruct H as (_ & _ & _ & _ & _ & _ & Hkept & Hsame).
  split; [discriminate |].
  apply Hsame; eexists; reflexivity.
Defined.

Lemma refreshData_success_witness :
  let s' := hook (exec (refreshData "AF001" "2024-05-01T10:05:00.000Z" iso8601_utc all_served)
                       failed_world) in
  currentData s' = Some sample_live /\
  deviceStatus s' = Some sample_status /\
  error s' = None /\
  connected s' = true.
Proof.
  cbv zeta.
  rewrite (refreshData_success "AF001" "2024-05-01T10:05:00.000Z" iso8601_utc all_served
             failed_world
             [sample_doc "AF001" 231; sample_doc "AF001" 228] sample_log sample_live
             sample_status eq_refl eq_refl eq_refl eq_refl eq_refl eq_refl).
  repeat split.
Defined.

Lemma refreshData_snapshot_rejected_witness :
  let refresh net := exec (refreshData "AF001" "2024-05-01T10:05:00.000Z" iso8601_utc net)
                          empty_world in
  (List.length (sent (refresh live_unreadable)) = 3%nat /\
   currentData (hook (refresh live_unreadable)) = None) /\
  (currentData (hook (refresh status_unreadable)) = Some sample_live /\
   deviceStatus (hook (refresh status_unreadable)) = None /\
   error (hook (refresh status_unreadable))
   = Some "Failed to refresh data: FirebaseError: Network Error").
Proof.
  cbv zeta. split.
  - destruct (refreshData_snapshot_rejected "AF001" "2024-05-01T10:05:00.000Z" iso8601_utc
                live_unreadable empty_world network_error) as (Hlive & _ & _).
    destruct (Hlive eq_refl) as (Hsent & Hdata & _).
    rewrite Hsent, Hdata. split; reflexivity.
  - destruct (refreshData_snapshot_rejected "AF001" "2024-05-01T10:05:00.000Z" iso8601_utc
                status_unreadable empty_world network_error) as (_ & Hstatus & _).
    destruct (Hstatus sample_live eq_refl eq_refl eq_refl)
      as (Hdata & _ & _ & Hdevice & Herror).
    rewrite Hdata, Hdevice, Herror. repeat split.
Defined.

Lemma auto_refresh_after_refresh_witness :
  let refreshed_world :=
    exec (refreshData "AF001" "2024-05-01T10:05:00.000Z" iso8601_utc all_served)
         empty_world in
  hook (exec (auto_refresh "AF001" iso8601_utc all_served) refreshed_world)
  = hook refreshed_world.
Proof.
  cbv zeta.
  apply (auto_refresh_after_refresh "AF001" "2024-05-01T10:05:00.000Z" iso8601_utc
           all_served empty_world); intros err H; vm_compute in H; discriminate H.
Defined.

(** ** What holds in every state the hook reaches *)

Section Invariants.

Context {engine : ArraySort}.
Import View.
Variable deviceId : string.
Variable Date_parse : string -> option Z.

Lemma stored_events_objects (snapshot : value) :
  Forall (fun e => is_object e = true)
         (if snapshot_exists snapshot then recent_events Date_parse snapshot else []).
Proof.
  destruct (snapshot_exists snapshot); [apply recent_events_objects | constructor].
Qed.

Lemma stored_events_length (snapshot : value) :
  (List.length (if snapshot_exists snapshot then recent_events Date_parse snapshot else [])
   <= 20)%nat.
Proof.
  destruct (snapshot_exists snapshot); [apply recent_events_objects | cbn; lia].
Qed.

Ltac well_formed_part :=
  first
    [ assumption
    | apply stored_events_objects
    | apply stored_events_length
    | discriminate
    | solve [intros; split; discriminate]
    | solve [split; discriminate]
    | solve [intros ? [= <-]; assumption]
    | solve [intros ? [= <-]; reflexivity] ].

Ltac well_formed_world :=
  unfold well_formed;
  cbn -[recent_events irrigation_log_path live_monitoring_path device_status_path
        historical_query];
  repeat match goal with |- _ /\ _ => split end;
  well_formed_part.

Lemma react_well_formed (e : HookEvent) (w : World) :
  well_formed w -> well_formed (exec (react deviceId Date_parse e) w).
Proof.
  intros (Hobjects & Hlength & Hconnected & Hlive & Hstatus & Hrefs).
  destruct e as [op now net | now ev | ev | now net]; cbn [react].
  - destruct op; cbn [run_operation].
    + name_final_world. unfold initialize, setupRealTimeListeners.
      run_refresh net; settle_fetches net deviceId; settle_snapshots net deviceId;
        intros ->; well_formed_world.
    + name_final_world.
      run_refresh net; settle_fetches net deviceId; settle_snapshots net deviceId;
        intros ->; well_formed_world.
    + name_final_world.
      run_auto_refresh net; settle_fetches net deviceId; intros ->; well_formed_world.
    + name_final_world. unfold cleanup, exec, bind.
      destruct w as [s pl [lr |] [dr |] cons snt];
        cbn -[live_monitoring_path device_status_path]; intros ->;
        unfold well_formed in *; cbn in *; repeat split;
        solve [assumption | tauto | discriminate | apply Hconnected; assumption].
  - name_final_world. unfold onLiveData, exec.
    destruct ev as [snapshot | err]; [destruct (snapshot_exists snapshot) eqn:E |];
      destruct w as [[cd hd ie ds ld er cn lu] pl lr dr cons snt];
      cbn in *; intros ->; unfold well_formed; cbn; repeat split;
      solve [assumption | discriminate | intros ? [= <-]; assumption
            | tauto | apply Hrefs; assumption].
  - name_final_world. unfold onDeviceStatus, exec.
    destruct ev as [snapshot | err]; [destruct (snapshot_exists snapshot) eqn:E |];
      destruct w as [[cd hd ie ds ld er cn lu] pl lr dr cons snt];
      cbn in *; intros ->; unfold well_formed; cbn; repeat split;
      solve [assumption | discriminate | intros ? [= <-]; assumption
            | tauto | apply Hconnected; assumption | apply Hrefs; assumption].
  - name_final_world. unfold handlePumpControl, exec, bind.
    destruct w as [[cd hd ie ds ld er cn lu] pl lr dr cons snt].
    cbn -[liveData_present].
    destruct (liveData_present _) as [liveData |];
      cbn in *; intros ->; unfold well_formed; cbn; repeat split;
      solve [assumption | tauto | apply Hconnected; assumption | apply Hrefs; assumption].
Qed.


(** X21: in every state the hook reaches from its mount (by runs of its
    operations against any answers, pushes and errors of the two
    subscriptions, presses of the pump button) the stored events are at
    most 20 objects, a connected hook has a live reading and a time of
    last update, a stored reading or status is one that exists, and the
    two subscriptions are open or closed together. *)
Theorem reachable_invariants (w : World) :
  reachable deviceId Date_parse w ->
  Forall (fun e => is_object e = true) (irrigationEvents (hook w)) /\
  (List.length (irrigationEvents (hook w)) <= 20)%nat /\
  (connected (hook w) = true ->
   currentData (hook w) <> None /\ lastUpdate (hook w) <> None) /\
  (forall v, currentData (hook w) = Some v -> snapshot_exists v = true) /\
  (forall v, deviceStatus (hook w) = Some v -> snapshot_exists v = true) /\
  (liveDataRef w = None <-> deviceStatusRef w = None).
Proof.
  intros Hreach. change (well_formed w).
  induction Hreach as [| w e _ IH].
  - unfold well_formed. cbn. repeat split; solve [constructor | lia | discriminate].
  - apply react_well_formed. exact IH.
Qed.

Variable toLocaleDateString : value -> string.
Variable toLocaleString : value -> string.


End Invariants.

(** A mount whose reads succeed, a failure of the live subscription, a
    press of the pump button and a periodic refresh. *)
Lemma sample_run_reachable :
  reachable "AF001" iso8601_utc
    (exec (react "AF001" iso8601_utc (Ran AutoRefresh "2024-05-01T10:35:00.000Z" fetches_fail))
       (exec (react "AF001" iso8601_utc (PumpPressed "2024-05-01T10:10:00.000Z" all_served))
          (exec (react "AF001" iso8601_utc
                   (LivePush "2024-05-01T10:06:00.000Z" (ListenerError network_error)))
             (exec (react "AF001" iso8601_utc
                      (Ran Initialize "2024-05-01T10:05:00.000Z" all_served))
                empty_world)))).
Proof. repeat apply reachable_step. apply reachable_mount. Qed.

Lemma reachable_invariants_witness :
  let w :=
    exec (react "AF001" iso8601_utc (Ran AutoRefresh "2024-05-01T10:35:00.000Z" fetches_fail))
      (exec (react "AF001" iso8601_utc (PumpPressed "2024-05-01T10:10:00.000Z" all_served))
         (exec (react "AF001" iso8601_utc
                  (LivePush "2024-05-01T10:06:00.000Z" (ListenerError network_error)))
            (exec (react "AF001" iso8601_utc
                     (Ran Initialize "2024-05-01T10:05:00.000Z" all_served))
               empty_world))) in
  (List.length (irrigationEvents (hook w)) <= 20)%nat /\
  (liveDataRef w = None <-> deviceStatusRef w = None).
Proof.
  cbv zeta.
  destruct (reachable_invariants "AF001" iso8601_utc _ sample_run_reachable)
    as (_ & Hlength & _ & _ & _ & Hrefs).
  split; [exact Hlength | exact Hrefs].
Defined.


(** ** The connection test and the configuration *)

Section Connection.

(** X23: [testConnection] sends one read of [.info/connected] and
    answers [true], with the status "connected" and the time of the ping,
    exactly when the read succeeds with a snapshot that exists; otherwise
    it answers [false] with the status "error" and the last ping as it
    was.  A snapshot holding [false] exists: a client that is NOT
    connected is reported as connected. *)
Theorem testConnection_outcome (net : Remote) (Date_now : Z) (w : ConnectionWorld) :
  let ok := fst (testConnection net Date_now w) in
  let w' := snd (testConnection net Date_now w) in
  (ok = true <-> connectionStatus w' = Connected) /\
  (ok = false <-> connectionStatus w' = ConnectionError) /\
  (ok = true <->
   exists snapshot,
     rtdb_get net ".info/connected" = Fulfilled snapshot /\ snapshot_exists snapshot = true) /\
  lastPing w' = (if ok then Some Date_now else lastPing w) /\
  ping_sent w' = (ping_sent w ++ [RtdbGet ".info/connected"])%list /\
  (rtdb_get net ".info/connected" = Fulfilled (VBool false) -> ok = true).
Proof.
  cbv zeta. unfold testConnection.
  destruct (rtdb_get net ".info/connected") as [snapshot | err] eqn:Hget;
    [destruct (snapshot_exists snapshot) eqn:E |]; cbn [fst snd connectionStatus
      lastPing ping_sent].
  - repeat split; intros; try discriminate; try reflexivity.
    exists snapshot. split; [reflexivity | exact E].
  - repeat split; intros; try discriminate; try reflexivity.
    + match goal with H : exists _, _ |- _ => destruct H as (s' & Hs & Es) end.
      injection Hs as <-. congruence.
    + match goal with H : Fulfilled _ = Fulfilled _ |- _ => injection H as -> end.
      discriminate E.
  - repeat split; intros; try discriminate; try reflexivity.
    match goal with H : exists _, _ |- _ => destruct H as (s' & Hs & Es) end.
    discriminate Hs.
Qed.

Lemma testConnection_outcome_witness :
  fst (testConnection info_disconnected 1714557900000 connection_initial) = true.
Proof.
  destruct (testConnection_outcome info_disconnected 1714557900000 connection_initial)
    as (_ & _ & _ & _ & _ & Hfalse).
  apply Hfalse. reflexivity.
Defined.

End Connection.

Section Configuration.

Lemma missing_iff_unset (env : list (string * string)) (name : string) :
  negb (truthy (env_get env name)) = negb (is_set env name).
Proof. unfold env_get, is_set. destruct (lookup name env); reflexivity. Qed.

(** X24: the missing variables are the required ones that are not set
    or are set to the empty string; none is missing exactly when the four
    required ones are set; the error is logged exactly when one is
    missing and the code runs in a browser. *)
Theorem missingVars_required (env : list (string * string)) (window_defined : bool) :
  (forall name, In name (missingVars env) <->
                In name requiredEnvVars /\ is_set env name = false) /\
  (missingVars env = [] <-> forallb (is_set env) requiredEnvVars = true) /\
  (report_missingVars env window_defined = [] <->
   missingVars env = [] \/ window_defined = false).
Proof.
  split; [| split].
  - intros name. unfold missingVars. rewrite filter_In, missing_iff_unset.
    rewrite negb_true_iff. reflexivity.
  - unfold missingVars. cbn [requiredEnvVars filter forallb].
    rewrite !missing_iff_unset.
    destruct (is_set env "NEXT_PUBLIC_FIREBASE_API_KEY"),
             (is_set env "NEXT_PUBLIC_FIREBASE_AUTH_DOMAIN"),
             (is_set env "NEXT_PUBLIC_FIREBASE_DATABASE_URL"),
             (is_set env "NEXT_PUBLIC_FIREBASE_PROJECT_ID"); cbn;
      split; intros; solve [reflexivity | discriminate].
  - unfold report_missingVars.
    destruct (missingVars env) as [| name rest]; cbn.
    + split; [left; reflexivity | reflexivity].
    + destruct window_defined; cbn; split; intros H;
        solve [discriminate | right; reflexivity | reflexivity
              | destruct H; discriminate].
Qed.

Example missingVars_sample :
  missingVars sample_env
  = ["NEXT_PUBLIC_FIREBASE_DATABASE_URL"; "NEXT_PUBLIC_FIREBASE_PROJECT_ID"].
Proof. reflexivity. Qed.

End Configuration.
